(** * Text-to-calendar-link pipeline of chatgpt-google-extension

    A shallow embedding of the date formatter, the next-day helper, the
    tolerant JSON extractor and the two link builders found in
    [src/utils.ts] and [src/background/index.ts] (together with the
    historical formatter variant that uses a one-year tolerance), and the
    properties of the specification stated against that embedding.

    Conventions of the embedding.
    - A JavaScript string is a Rocq [string] read as the UTF-8 bytes of the
      text; positions and lengths count bytes, which is exact on the ASCII
      texts the pipeline produces and scans for (braces, quotes, digits).
    - A JavaScript number that is an integer or NaN is an [option Z]
      ([None] is NaN).  A [Date] object is its time value, [option Z]
      milliseconds since the epoch ([None] is the invalid date).
    - A [throw] is the [Throw] constructor of [completion]; [try]/[catch]
      blocks are [try_catch].
    - What the host decides (clock, local offset, the non-ISO date parser,
      binary64 conversions) is a field of the [Host] record. *)

From Stdlib Require Import ZArith String Ascii List Bool Lia.
Import ListNotations.

Local Open Scope string_scope.
Local Open Scope Z_scope.

(** ** Completions: normal return or thrown exception *)

Inductive completion (A : Type) : Type :=
| Normal (a : A)
| Throw (e : string).

Arguments Normal {A} a.
Arguments Throw {A} e.

Definition bind {A B : Type} (c : completion A) (k : A -> completion B)
  : completion B :=
  match c with
  | Normal a => k a
  | Throw e => Throw e
  end.

Definition try_catch {A : Type} (body : completion A)
  (handler : string -> completion A) : completion A :=
  match body with
  | Normal a => Normal a
  | Throw e => handler e
  end.

Notation "x <- c ;; k" := (bind c (fun x => k))
  (at level 61, c at next level, right associativity).

(** ** Strings *)

Module Str.

Definition dquote : ascii := "034"%char.
Definition squote : ascii := "039"%char.
Definition lbrace : ascii := "{"%char.
Definition rbrace : ascii := "}"%char.
Definition rbracket : ascii := "]"%char.
Definition comma : ascii := ","%char.

Definition code (c : ascii) : Z := Z.of_N (N_of_ascii c).

Definition is_digit (c : ascii) : bool :=
  (48 <=? code c) && (code c <=? 57).

Definition digit_val (c : ascii) : Z := code c - 48.

Definition is_empty (s : string) : bool :=
  match s with EmptyString => true | _ => false end.

(** [String.prototype.indexOf] for a one-character needle. *)
Fixpoint indexOf (c : ascii) (s : string) : option nat :=
  match s with
  | EmptyString => None
  | String d r =>
      if Ascii.eqb c d then Some O
      else match indexOf c r with
           | Some i => Some (S i)
           | None => None
           end
  end.

(** [String.prototype.lastIndexOf] for a one-character needle. *)
Fixpoint lastIndexOf (c : ascii) (s : string) : option nat :=
  match s with
  | EmptyString => None
  | String d r =>
      match lastIndexOf c r with
      | Some i => Some (S i)
      | None => if Ascii.eqb c d then Some O else None
      end
  end.

Fixpoint take (n : nat) (s : string) : string :=
  match n, s with
  | O, _ => EmptyString
  | _, EmptyString => EmptyString
  | S k, String c r => String c (take k r)
  end.

Fixpoint drop (n : nat) (s : string) : string :=
  match n, s with
  | O, _ => s
  | _, EmptyString => EmptyString
  | S k, String _ r => drop k r
  end.

(** [s.substring(a, b)] for non-negative [a] and [b]: the arguments are
    clamped to the length and swapped when [a > b]. *)
Definition substring (a b : nat) (s : string) : string :=
  let lo := Nat.min a b in
  let hi := Nat.max a b in
  take (hi - lo) (drop lo s).

Fixpoint map (f : ascii -> ascii) (s : string) : string :=
  match s with
  | EmptyString => EmptyString
  | String c r => String (f c) (map f r)
  end.

Fixpoint forallb (f : ascii -> bool) (s : string) : bool :=
  match s with
  | EmptyString => true
  | String c r => f c && forallb f r
  end.

Fixpoint repeat (c : ascii) (n : nat) : string :=
  match n with
  | O => EmptyString
  | S k => String c (repeat c k)
  end.

(** [s.padStart(n, '0')]. *)
Definition padStart0 (n : nat) (s : string) : string :=
  repeat "0"%char (n - String.length s) ++ s.

(** One white-space character ([\s] of a regular expression, which is
    also what [trim] strips) at the head of a UTF-8 text: its length in
    bytes, or [None]. *)
Definition ws_head (s : string) : option nat :=
  match s with
  | String c r =>
      let a := code c in
      if ((9 <=? a) && (a <=? 13)) || (a =? 32) then Some 1%nat
      else match r with
           | String d r' =>
               let b := code d in
               if (a =? 194) && (b =? 160) then Some 2%nat
               else match r' with
                    | String e _ =>
                        let g := code e in
                        if ((a =? 225) && (b =? 154) && (g =? 128))
                           || ((a =? 226) && (b =? 128)
                               && (((128 <=? g) && (g <=? 138))
                                   || (g =? 168) || (g =? 169) || (g =? 175)))
                           || ((a =? 226) && (b =? 129) && (g =? 159))
                           || ((a =? 227) && (b =? 128) && (g =? 128))
                           || ((a =? 239) && (b =? 187) && (g =? 191))
                        then Some 3%nat
                        else None
                    | EmptyString => None
                    end
           | EmptyString => None
           end
  | EmptyString => None
  end.

(** Drop the maximal run of white space at the head. *)
Fixpoint skip_ws_fuel (fuel : nat) (s : string) : string :=
  match fuel with
  | O => s
  | S k =>
      match ws_head s with
      | Some n => skip_ws_fuel k (drop n s)
      | None => s
      end
  end.

Definition skip_ws (s : string) : string :=
  skip_ws_fuel (String.length s) s.

(** Drop the maximal run of white space at the end: scanning forward,
    white space is held back until a non-space character shows it was
    interior. *)
Fixpoint trim_end_fuel (fuel : nat) (s held : string) : string :=
  match fuel with
  | O => EmptyString
  | S k =>
      match s with
      | EmptyString => EmptyString
      | String c r =>
          match ws_head s with
          | Some n => trim_end_fuel k (drop n s) (held ++ take n s)
          | None => held ++ String c (trim_end_fuel k r EmptyString)
          end
      end
  end.

Definition trim (s : string) : string :=
  let t := skip_ws s in
  trim_end_fuel (String.length t) t EmptyString.

Fixpoint join (sep : string) (l : list string) : string :=
  match l with
  | [] => EmptyString
  | [x] => x
  | x :: r => x ++ sep ++ join sep r
  end.

End Str.

(** ** Integers as JavaScript numbers *)

Module Num.

Definition digit_char (d : Z) : ascii :=
  ascii_of_N (Z.to_N (48 + d)).

(** Decimal digits of a non-negative integer, least significant last;
    the fuel is the binary length, which bounds the decimal length. *)
Fixpoint digits_fuel (fuel : nat) (n : Z) (acc : string) : string :=
  match fuel with
  | O => acc
  | S k =>
      let acc' := String (digit_char (n mod 10)) acc in
      if n <? 10 then acc' else digits_fuel k (n / 10) acc'
  end.

Definition digits (n : Z) : string :=
  digits_fuel (S (Z.to_nat (Z.log2 n))) n EmptyString.

(** [Number.prototype.toString] on an integer. *)
Definition int_toString (n : Z) : string :=
  if n <? 0 then String "-"%char (digits (- n)) else digits n.

(** [Number.prototype.toString] on an integer or NaN. *)
Definition toString (n : option Z) : string :=
  match n with
  | Some z => int_toString z
  | None => "NaN"
  end.

Definition add (a b : option Z) : option Z :=
  match a, b with
  | Some x, Some y => Some (x + y)
  | _, _ => None
  end.

Definition sub (a b : option Z) : option Z :=
  match a, b with
  | Some x, Some y => Some (x - y)
  | _, _ => None
  end.

(** [a < b]; false when either is NaN. *)
Definition lt (a b : option Z) : bool :=
  match a, b with
  | Some x, Some y => x <? y
  | _, _ => false
  end.

Definition hex_val (c : ascii) : option Z :=
  let a := Str.code c in
  if (48 <=? a) && (a <=? 57) then Some (a - 48)
  else if (97 <=? a) && (a <=? 102) then Some (a - 87)
  else if (65 <=? a) && (a <=? 70) then Some (a - 55)
  else None.

(** The longest prefix of digits in the given radix, as a value; [None]
    when there is no digit. *)
Fixpoint scan_digits (radix : Z) (s : string) (acc : option Z) : option Z :=
  match s with
  | EmptyString => acc
  | String c r =>
      match hex_val c with
      | Some d =>
          if d <? radix
          then scan_digits radix r
                 (Some (match acc with Some a => a * radix + d | None => d end))
          else acc
      | None => acc
      end
  end.

(** [parseInt(s)] with no radix argument: leading white space, a sign, a
    [0x] prefix selecting base sixteen, then the longest digit prefix;
    NaN when no digit follows. *)
Definition parseInt (s : string) : option Z :=
  let t := Str.skip_ws s in
  let '(sign, t1) :=
    match t with
    | String "-"%char r => (-1, r)
    | String "+"%char r => (1, r)
    | _ => (1, t)
    end in
  let '(radix, t2) :=
    match t1 with
    | String "0"%char (String "x"%char r) => (16, r)
    | String "0"%char (String "X"%char r) => (16, r)
    | _ => (10, t1)
    end in
  match scan_digits radix t2 None with
  | Some v => Some (sign * v)
  | None => None
  end.

End Num.

(** ** Time values and calendar arithmetic (ECMAScript, Date objects) *)

Module Cal.

Definition msPerDay : Z := 86400000.
Definition msPerHour : Z := 3600000.
Definition msPerMinute : Z := 60000.
Definition msPerSecond : Z := 1000.

Definition Day (t : Z) : Z := t / msPerDay.
Definition TimeWithinDay (t : Z) : Z := t mod msPerDay.

Definition isLeap (y : Z) : bool :=
  ((y mod 4 =? 0) && negb (y mod 100 =? 0)) || (y mod 400 =? 0).

Definition DaysInYear (y : Z) : Z := if isLeap y then 366 else 365.

Definition DayFromYear (y : Z) : Z :=
  365 * (y - 1970) + (y - 1969) / 4 - (y - 1901) / 100 + (y - 1601) / 400.

(** The year of a day number: the largest [y] with
    [DayFromYear y <= d].  The quotient by the mean year length is off
    by at most one, so three candidates are enough
    (lemma [YearFromDay_spec]). *)
Definition YearFromDay (d : Z) : Z :=
  let y0 := 1970 + (d * 400) / 146097 in
  if DayFromYear (y0 + 1) <=? d then y0 + 1
  else if DayFromYear y0 <=? d then y0
  else y0 - 1.

Definition YearFromTime (t : Z) : Z := YearFromDay (Day t).

Definition InLeapYear (t : Z) : Z :=
  if isLeap (YearFromTime t) then 1 else 0.

Definition DayWithinYear (t : Z) : Z :=
  Day t - DayFromYear (YearFromTime t).

(** Day number within a year on which month [m] (0 to 11) starts;
    [leap] is 0 or 1. *)
Definition monthStart (m leap : Z) : Z :=
  if m =? 0 then 0
  else if m =? 1 then 31
  else if m =? 2 then 59 + leap
  else if m =? 3 then 90 + leap
  else if m =? 4 then 120 + leap
  else if m =? 5 then 151 + leap
  else if m =? 6 then 181 + leap
  else if m =? 7 then 212 + leap
  else if m =? 8 then 243 + leap
  else if m =? 9 then 273 + leap
  else if m =? 10 then 304 + leap
  else 334 + leap.

Definition monthOfYearDay (d leap : Z) : Z :=
  if d <? 31 then 0
  else if d <? 59 + leap then 1
  else if d <? 90 + leap then 2
  else if d <? 120 + leap then 3
  else if d <? 151 + leap then 4
  else if d <? 181 + leap then 5
  else if d <? 212 + leap then 6
  else if d <? 243 + leap then 7
  else if d <? 273 + leap then 8
  else if d <? 304 + leap then 9
  else if d <? 334 + leap then 10
  else 11.

Definition MonthFromTime (t : Z) : Z :=
  monthOfYearDay (DayWithinYear t) (InLeapYear t).

Definition DateFromTime (t : Z) : Z :=
  DayWithinYear t - monthStart (MonthFromTime t) (InLeapYear t) + 1.

Definition HourFromTime (t : Z) : Z := (t / msPerHour) mod 24.
Definition MinFromTime (t : Z) : Z := (t / msPerMinute) mod 60.
Definition SecFromTime (t : Z) : Z := (t / msPerSecond) mod 60.

Definition MakeTime (h m s ms : Z) : Z :=
  h * msPerHour + m * msPerMinute + s * msPerSecond + ms.

(** [MakeDay(year, month, date)]: months outside 0..11 carry into the
    year, and the day of the month is a plain offset, so it may run into
    the following months. *)
Definition MakeDay (year month date : Z) : Z :=
  let ym := year + month / 12 in
  let mn := month mod 12 in
  DayFromYear ym + monthStart mn (if isLeap ym then 1 else 0) + date - 1.

Definition MakeDate (day time : Z) : Z := day * msPerDay + time.

Definition maxTime : Z := 8640000000000000.

(** [TimeClip]: a time value outside the representable range is NaN. *)
Definition TimeClip (t : Z) : option Z :=
  if Z.abs t <=? maxTime then Some t else None.

End Cal.

(** ** JavaScript values reachable from [JSON.parse] *)

#[warnings="-register-all"]
Inductive JValue : Type :=
| JUndefined
| JNull
| JBool (b : bool)
| JNumber (literal : string)
| JString (s : string)
| JArray (elements : list JValue)
| JObject (fields : list (string * JValue)).

(** ** The host environment

    - [tza]: offset of local time from UTC, in milliseconds, taken as
      fixed (no daylight-saving transitions);
    - [now]: the time value the clock returns to [new Date()];
    - [legacyParse]: what the engine's implementation-defined fallback
      makes of a date string that is not in the ECMAScript date-time
      string format;
    - [numToString], [numToTime], [numIsZero]: [Number::toString],
      [TimeClip(ToIntegerOrInfinity(n))] and the test against zero for the
      binary64 value [n] that a JSON number literal denotes. *)

Record Host : Type := mkHost {
  tza : Z;
  now : Z;
  legacyParse : string -> option Z;
  numToString : string -> string;
  numToTime : string -> option Z;
  numIsZero : string -> bool
}.

Definition set_now (h : Host) (t : Z) : Host :=
  mkHost (tza h) t (legacyParse h) (numToString h) (numToTime h) (numIsZero h).

Module JS.

(** [ToBoolean]. *)
Definition truthy (h : Host) (v : JValue) : bool :=
  match v with
  | JUndefined | JNull => false
  | JBool b => b
  | JNumber n => negb (numIsZero h n)
  | JString s => negb (Str.is_empty s)
  | JArray _ | JObject _ => true
  end.

(** [ToString], given the host's printing of numbers; an array joins
    its elements with commas, printing [null] and [undefined] elements as
    nothing. *)
Fixpoint ToStringWith (printNumber : string -> string) (v : JValue)
  : string :=
  match v with
  | JUndefined => "undefined"
  | JNull => "null"
  | JBool true => "true"
  | JBool false => "false"
  | JNumber n => printNumber n
  | JString s => s
  | JArray l =>
      Str.join ","
        (List.map (fun x => match x with
                            | JUndefined | JNull => EmptyString
                            | _ => ToStringWith printNumber x
                            end) l)
  | JObject _ => "[object Object]"
  end.

Definition ToString (h : Host) (v : JValue) : string :=
  ToStringWith (numToString h) v.

(** [typeof v === 'object']. *)
Definition typeof_object (v : JValue) : bool :=
  match v with
  | JNull | JArray _ | JObject _ => true
  | _ => false
  end.

(** [a || b]. *)
Definition or_else (h : Host) (a b : JValue) : JValue :=
  if truthy h a then a else b.

(** Property read [v.name] for a name that is neither an array index,
    [length], nor a member of [Object.prototype]. *)
Fixpoint lookup (name : string) (fields : list (string * JValue))
  : JValue :=
  match fields with
  | [] => JUndefined
  | (k, x) :: r => if String.eqb k name then x else lookup name r
  end.

Definition get (v : JValue) (name : string) : JValue :=
  match v with
  | JObject fields => lookup name fields
  | _ => JUndefined
  end.

(** [Object.keys(v).length] for an object or array. *)
Definition keys_length (v : JValue) : nat :=
  match v with
  | JObject fields => List.length fields
  | JArray l => List.length l
  | _ => O
  end.

(** A truthiness test on [string | null]. *)
Definition nonempty (s : option string) : bool :=
  match s with
  | Some t => negb (Str.is_empty t)
  | None => false
  end.

End JS.

(** ** Date objects *)

Module Date.

Import Cal.

Definition LocalTime (h : Host) (t : Z) : Z := t + tza h.
Definition UTC (h : Host) (t : Z) : Z := t - tza h.

(** *** The ECMAScript date-time string format *)

(** Exactly [n] decimal digits at the head. *)
Fixpoint digitsN (n : nat) (s : string) (acc : Z) : option (Z * string) :=
  match n with
  | O => Some (acc, s)
  | S k =>
      match s with
      | String c r =>
          if Str.is_digit c then digitsN k r (acc * 10 + Str.digit_val c)
          else None
      | EmptyString => None
      end
  end.

Inductive iso : Type :=
| NotISO                      (* not in the format *)
| OutOfBounds                 (* in the format, a field out of range *)
| IsoUTC (t : Z)              (* a UTC time *)
| IsoLocal (t : Z).           (* a local time *)

(** Year: [YYYY], or a sign and six digits other than [-000000]. *)
Definition iso_year (s : string) : option (Z * string) :=
  match s with
  | String "+"%char r => digitsN 6 r 0
  | String "-"%char r =>
      match digitsN 6 r 0 with
      | Some (0, _) => None
      | Some (y, r') => Some (- y, r')
      | None => None
      end
  | _ => digitsN 4 s 0
  end.

(** [-MM] and [-DD] are optional; absent fields are 1. *)
Definition iso_month_day (s : string) : option (Z * Z * string) :=
  match s with
  | String "-"%char r =>
      match digitsN 2 r 0 with
      | Some (m, String "-"%char r') =>
          match digitsN 2 r' 0 with
          | Some (d, r'') => Some (m, d, r'')
          | None => None
          end
      | Some (m, r') => Some (m, 1, r')
      | None => None
      end
  | _ => Some (1, 1, s)
  end.

(** [THH:mm], [THH:mm:ss] or [THH:mm:ss.sss]: hour, minute, second,
    millisecond. *)
Definition iso_time (s : string) : option (Z * Z * Z * Z * string) :=
  match digitsN 2 s 0 with
  | Some (hh, String ":"%char r) =>
      match digitsN 2 r 0 with
      | Some (mm, String ":"%char r') =>
          match digitsN 2 r' 0 with
          | Some (ss, String "."%char r'') =>
              match digitsN 3 r'' 0 with
              | Some (ms, r3) => Some (hh, mm, ss, ms, r3)
              | None => None
              end
          | Some (ss, r'') => Some (hh, mm, ss, 0, r'')
          | None => None
          end
      | Some (mm, r') => Some (hh, mm, 0, 0, r')
      | None => None
      end
  | _ => None
  end.

(** The offset suffix: nothing, [Z], or a sign with [HH:mm].  The result
    is [None] for a malformed suffix, otherwise the offset in minutes
    when there is one together with its validity. *)
Definition iso_offset (s : string) : option (option (Z * bool)) :=
  match s with
  | EmptyString => Some None
  | String "Z"%char EmptyString => Some (Some (0, true))
  | String sg r =>
      if Ascii.eqb sg "+"%char || Ascii.eqb sg "-"%char then
        match digitsN 2 r 0 with
        | Some (hh, String ":"%char r') =>
            match digitsN 2 r' 0 with
            | Some (mm, EmptyString) =>
                let m := hh * 60 + mm in
                Some (Some (if Ascii.eqb sg "-"%char then - m else m,
                            (hh <=? 23) && (mm <=? 59)))
            | _ => None
            end
        | _ => None
        end
      else None
  end.

Definition time_in_bounds (hh mm ss : Z) (ms : Z) : bool :=
  ((hh <=? 23) && (mm <=? 59) && (ss <=? 59))
  || ((hh =? 24) && (mm =? 0) && (ss =? 0) && (ms =? 0)).

Definition parse_iso (s : string) : iso :=
  match iso_year s with
  | None => NotISO
  | Some (y, r) =>
      match iso_month_day r with
      | None => NotISO
      | Some (m, d, r') =>
          let date_ok := (1 <=? m) && (m <=? 12) && (1 <=? d) && (d <=? 31) in
          let day := MakeDay y (m - 1) d in
          match r' with
          | EmptyString =>
              if date_ok then IsoUTC (MakeDate day 0) else OutOfBounds
          | String "T"%char r'' =>
              match iso_time r'' with
              | None => NotISO
              | Some (hh, mm, ss, ms, r3) =>
                  match iso_offset r3 with
                  | None => NotISO
                  | Some off =>
                      let t := MakeDate day (MakeTime hh mm ss ms) in
                      let ok := date_ok && time_in_bounds hh mm ss ms in
                      match off with
                      | None => if ok then IsoLocal t else OutOfBounds
                      | Some (minutes, off_ok) =>
                          if ok && off_ok
                          then IsoUTC (t - minutes * msPerMinute)
                          else OutOfBounds
                      end
                  end
              end
          | _ => NotISO
          end
      end
  end.

(** [Date.parse]: a date-only form is a UTC time, a date-time form with
    no offset is a local time; other strings go to the host's
    fallback. *)
Definition parse (h : Host) (s : string) : option Z :=
  match parse_iso s with
  | IsoUTC t => TimeClip t
  | IsoLocal t => TimeClip (UTC h t)
  | OutOfBounds => None
  | NotISO => legacyParse h s
  end.

(** [new Date(v)]: the time value of the new object. *)
Definition new (h : Host) (v : JValue) : option Z :=
  match v with
  | JString s => parse h s
  | JNumber n => numToTime h n
  | JBool b => Some (if b then 1 else 0)
  | JNull => Some 0
  | JUndefined => None
  | JArray _ | JObject _ => parse h (JS.ToString h v)
  end.

(** The getters, NaN on the invalid date. *)
Definition getFullYear (h : Host) (d : option Z) : option Z :=
  option_map (fun t => YearFromTime (LocalTime h t)) d.
Definition getMonth (h : Host) (d : option Z) : option Z :=
  option_map (fun t => MonthFromTime (LocalTime h t)) d.
Definition getDate (h : Host) (d : option Z) : option Z :=
  option_map (fun t => DateFromTime (LocalTime h t)) d.
Definition getUTCFullYear (d : option Z) : option Z :=
  option_map YearFromTime d.
Definition getUTCMonth (d : option Z) : option Z :=
  option_map MonthFromTime d.
Definition getUTCDate (d : option Z) : option Z :=
  option_map DateFromTime d.
Definition getUTCHours (d : option Z) : option Z :=
  option_map HourFromTime d.
Definition getUTCMinutes (d : option Z) : option Z :=
  option_map MinFromTime d.
Definition getUTCSeconds (d : option Z) : option Z :=
  option_map SecFromTime d.

(** [date.setFullYear(y)]: month, day and time of day are kept in
    local time; the new time value. *)
Definition setFullYear (h : Host) (d : option Z) (year : option Z)
  : option Z :=
  let t := match d with
           | Some tv => LocalTime h tv
           | None => 0
           end in
  match year with
  | Some y =>
      TimeClip
        (UTC h (MakeDate (MakeDay y (MonthFromTime t) (DateFromTime t))
                         (TimeWithinDay t)))
  | None => None
  end.

(** [date.setUTCDate(dt)]; the new time value. *)
Definition setUTCDate (d : option Z) (dt : option Z) : option Z :=
  match d, dt with
  | Some t, Some n =>
      TimeClip
        (MakeDate (MakeDay (YearFromTime t) (MonthFromTime t) n)
                  (TimeWithinDay t))
  | _, _ => None
  end.

(** [Date.UTC(year, month, date)]: years 0 to 99 mean 1900 to 1999. *)
Definition Date_UTC (year month date : option Z) : option Z :=
  match year, month, date with
  | Some y, Some m, Some dt =>
      let yr := if (0 <=? y) && (y <=? 99) then 1900 + y else y in
      TimeClip (MakeDate (MakeDay yr m dt) (MakeTime 0 0 0 0))
  | _, _, _ => None
  end.

End Date.

(** ** [src/utils.ts] and [src/background/index.ts]: the date helpers *)

(** The two thresholds of the past-year heuristic: [src/utils.ts] and
    [src/background/index.ts] adjust when [inputYear < currentYear], the
    later background script only when [inputYear < currentYear - 1]. *)
Inductive YearPolicy : Type :=
| AnyPastYear
| OlderThanOneYear.

Definition isStale (p : YearPolicy) (inputYear currentYear : option Z)
  : bool :=
  match p with
  | AnyPastYear => Num.lt inputYear currentYear
  | OlderThanOneYear => Num.lt inputYear (Num.sub currentYear (Some 1))
  end.

(** [/^\d{4}-\d{2}-\d{2}$/.test(s)]. *)
Definition isAllDay (s : string) : bool :=
  match s with
  | String y1 (String y2 (String y3 (String y4 (String h1
      (String m1 (String m2 (String h2 (String d1 (String d2
        EmptyString))))))))) =>
      Str.is_digit y1 && Str.is_digit y2 && Str.is_digit y3 && Str.is_digit y4
      && Ascii.eqb h1 "-"%char
      && Str.is_digit m1 && Str.is_digit m2
      && Ascii.eqb h2 "-"%char
      && Str.is_digit d1 && Str.is_digit d2
  | _ => false
  end.

Definition pad2 (n : option Z) : string :=
  Str.padStart0 2 (Num.toString n).

(** The all-day branch: local calendar fields. *)
Definition formatAllDay (h : Host) (date : option Z) : string :=
  let year := Num.toString (Date.getFullYear h date) in
  let month := pad2 (Num.add (Date.getMonth h date) (Some 1)) in
  let day := pad2 (Date.getDate h date) in
  year ++ month ++ day.

(** The timed branch: UTC fields. *)
Definition formatTimed (date : option Z) : string :=
  let year := Num.toString (Date.getUTCFullYear date) in
  let month := pad2 (Num.add (Date.getUTCMonth date) (Some 1)) in
  let day := pad2 (Date.getUTCDate date) in
  let hours := pad2 (Date.getUTCHours date) in
  let minutes := pad2 (Date.getUTCMinutes date) in
  let seconds := pad2 (Date.getUTCSeconds date) in
  year ++ month ++ day ++ "T" ++ hours ++ minutes ++ seconds ++ "Z".

(** [formatDateTimeForGoogle(dateTimeString, adjustPastYears)]; the
    argument is whatever value the caller read from the parsed object. *)
Definition formatDateTimeForGoogle (h : Host) (p : YearPolicy)
  (dateTimeString : JValue) (adjustPastYears : bool)
  : completion (option string) :=
  if negb (JS.truthy h dateTimeString) then Normal None
  else
    try_catch
      (let date := Date.new h dateTimeString in
       match date with
       | None => Normal None
       | Some _ =>
           let currentYear := Date.getFullYear h (Some (now h)) in
           let inputYear := Date.getFullYear h date in
           let adjust :=
             adjustPastYears && isStale p inputYear currentYear in
           let date := if adjust then Date.setFullYear h date currentYear
                       else date in
           match date with
           | None => Normal None
           | Some _ =>
               if isAllDay (JS.ToString h dateTimeString)
               then Normal (Some (formatAllDay h date))
               else Normal (Some (formatTimed date))
           end
       end)
      (fun _ => Normal None).

(** [calculateNextDay(yyyymmdd)]. *)
Definition calculateNextDay (yyyymmdd : string) : completion string :=
  try_catch
    (let year := Num.parseInt (Str.substring 0 4 yyyymmdd) in
     let month :=
       Num.sub (Num.parseInt (Str.substring 4 6 yyyymmdd)) (Some 1) in
     let day := Num.parseInt (Str.substring 6 8 yyyymmdd) in
     let date := Date.Date_UTC year month day in
     let date :=
       Date.setUTCDate date (Num.add (Date.getUTCDate date) (Some 1)) in
     let nextYear := Num.toString (Date.getUTCFullYear date) in
     let nextMonth := pad2 (Num.add (Date.getUTCMonth date) (Some 1)) in
     let nextDay := pad2 (Date.getUTCDate date) in
     Normal (nextYear ++ nextMonth ++ nextDay))
    (fun _ => Normal yyyymmdd).

(** ** [JSON.parse] *)

Module Json.

Inductive presult (A : Type) : Type :=
| POk (a : A) (rest : string)
| PErr
| PFuel.

Arguments POk {A} a rest.
Arguments PErr {A}.
Arguments PFuel {A}.

Definition is_ws (c : ascii) : bool :=
  let a := Str.code c in
  (a =? 32) || (a =? 9) || (a =? 10) || (a =? 13).

Fixpoint skip_ws (s : string) : string :=
  match s with
  | String c r => if is_ws c then skip_ws r else s
  | EmptyString => s
  end.

(** *** String literals *)

Inductive item : Type :=
| Byte (c : ascii)        (* a character copied from the text *)
| Unit (u : Z).           (* a UTF-16 code unit written as \uXXXX *)

Definition byte_of (z : Z) : ascii := ascii_of_N (Z.to_N z).

(** UTF-8 of a code point (a lone surrogate is encoded like any other
    three-byte value). *)
Definition utf8 (cp : Z) : string :=
  if cp <? 128 then String (byte_of cp) EmptyString
  else if cp <? 2048 then
    String (byte_of (192 + cp / 64))
      (String (byte_of (128 + cp mod 64)) EmptyString)
  else if cp <? 65536 then
    String (byte_of (224 + cp / 4096))
      (String (byte_of (128 + (cp / 64) mod 64))
         (String (byte_of (128 + cp mod 64)) EmptyString))
  else
    String (byte_of (240 + cp / 262144))
      (String (byte_of (128 + (cp / 4096) mod 64))
         (String (byte_of (128 + (cp / 64) mod 64))
            (String (byte_of (128 + cp mod 64)) EmptyString))).

Fixpoint encode (l : list item) : string :=
  match l with
  | [] => EmptyString
  | Byte c :: r => String c (encode r)
  | Unit hi :: r =>
      match r with
      | Unit lo :: r' =>
          if (55296 <=? hi) && (hi <=? 56319)
             && (56320 <=? lo) && (lo <=? 57343)
          then utf8 (65536 + (hi - 55296) * 1024 + (lo - 56320)) ++ encode r'
          else utf8 hi ++ encode r
      | _ => utf8 hi ++ encode r
      end
  end.

Definition hex4 (a b c d : ascii) : option Z :=
  match Num.hex_val a, Num.hex_val b, Num.hex_val c, Num.hex_val d with
  | Some w, Some x, Some y, Some z => Some (((w * 16 + x) * 16 + y) * 16 + z)
  | _, _, _, _ => None
  end.

Definition escape (c : ascii) : option ascii :=
  if Ascii.eqb c Str.dquote then Some Str.dquote
  else if Ascii.eqb c "\"%char then Some "\"%char
  else if Ascii.eqb c "/"%char then Some "/"%char
  else if Ascii.eqb c "b"%char then Some "008"%char
  else if Ascii.eqb c "f"%char then Some "012"%char
  else if Ascii.eqb c "n"%char then Some "010"%char
  else if Ascii.eqb c "r"%char then Some "013"%char
  else if Ascii.eqb c "t"%char then Some "009"%char
  else None.

(** The characters of a string literal after its opening quote, up to
    and including the closing quote. *)
Fixpoint string_items (s : string) : option (list item * string) :=
  match s with
  | EmptyString => None
  | String c r =>
      if Ascii.eqb c Str.dquote then Some ([], r)
      else if Ascii.eqb c "\"%char then
        match r with
        | String "u"%char (String w (String x (String y (String z r')))) =>
            match hex4 w x y z, string_items r' with
            | Some u, Some (l, rest) => Some (Unit u :: l, rest)
            | _, _ => None
            end
        | String e r' =>
            match escape e, string_items r' with
            | Some b, Some (l, rest) => Some (Byte b :: l, rest)
            | _, _ => None
            end
        | EmptyString => None
        end
      else if Str.code c <? 32 then None
      else
        match string_items r with
        | Some (l, rest) => Some (Byte c :: l, rest)
        | None => None
        end
  end.

Definition parse_string (s : string) : option (string * string) :=
  match string_items s with
  | Some (l, rest) => Some (encode l, rest)
  | None => None
  end.

(** *** Number literals *)

(** The maximal run of digits at the head, and what follows. *)
Fixpoint span_digits (s : string) : string * string :=
  match s with
  | String c r =>
      if Str.is_digit c then
        let '(d, rest) := span_digits r in (String c d, rest)
      else (EmptyString, s)
  | EmptyString => (EmptyString, EmptyString)
  end.

Definition number_int (s : string) : option (string * string) :=
  match s with
  | String "0"%char r => Some ("0"%string, r)
  | String c _ =>
      if Str.is_digit c then Some (span_digits s) else None
  | EmptyString => None
  end.

Definition number_frac (s : string) : option (string * string) :=
  match s with
  | String "."%char r =>
      match span_digits r with
      | (EmptyString, _) => None
      | (d, rest) => Some (String "."%char d, rest)
      end
  | _ => Some (EmptyString, s)
  end.

Definition number_exp (s : string) : option (string * string) :=
  match s with
  | String e r =>
      if Ascii.eqb e "e"%char || Ascii.eqb e "E"%char then
        let '(sg, r1) :=
          match r with
          | String "+"%char r' => ("+"%string, r')
          | String "-"%char r' => ("-"%string, r')
          | _ => (EmptyString, r)
          end in
        match span_digits r1 with
        | (EmptyString, _) => None
        | (d, rest) => Some (String e (sg ++ d), rest)
        end
      else Some (EmptyString, s)
  | EmptyString => Some (EmptyString, s)
  end.

(** A number literal: its text and the rest. *)
Definition parse_number (s : string) : option (string * string) :=
  let '(sg, r) :=
    match s with
    | String "-"%char r' => ("-"%string, r')
    | _ => (EmptyString, s)
    end in
  match number_int r with
  | None => None
  | Some (i, r1) =>
      match number_frac r1 with
      | None => None
      | Some (f, r2) =>
          match number_exp r2 with
          | None => None
          | Some (e, r3) => Some (sg ++ i ++ f ++ e, r3)
          end
      end
  end.

(** *** Objects *)

(** Define property [k]: a repeated key keeps its place and takes the
    later value. *)
Fixpoint obj_set (k : string) (v : JValue) (fields : list (string * JValue))
  : list (string * JValue) :=
  match fields with
  | [] => [(k, v)]
  | (k', v') :: r =>
      if String.eqb k' k then (k', v) :: r else (k', v') :: obj_set k v r
  end.

Fixpoint strip_prefix (p s : string) : option string :=
  match p, s with
  | EmptyString, _ => Some s
  | String a p', String b s' =>
      if Ascii.eqb a b then strip_prefix p' s' else None
  | _, EmptyString => None
  end.

(** *** Values *)

(** The text after the character [c], when the text starts with it. *)
Definition after (c : ascii) (s : string) : option string :=
  match s with
  | String d r => if Ascii.eqb c d then Some r else None
  | EmptyString => None
  end.

Fixpoint parse_value (fuel : nat) (s : string) {struct fuel}
  : presult JValue :=
  match fuel with
  | O => PFuel
  | S k =>
      match skip_ws s with
      | EmptyString => PErr
      | String c r =>
          if Ascii.eqb c Str.lbrace then
            match after Str.rbrace (skip_ws r) with
            | Some r' => POk (JObject []) r'
            | None => parse_members k r []
            end
          else if Ascii.eqb c "["%char then
            match after Str.rbracket (skip_ws r) with
            | Some r' => POk (JArray []) r'
            | None => parse_elements k r []
            end
          else if Ascii.eqb c Str.dquote then
            match parse_string r with
            | Some (str, r') => POk (JString str) r'
            | None => PErr
            end
          else if Ascii.eqb c "t"%char then
            match strip_prefix "rue" r with
            | Some r' => POk (JBool true) r'
            | None => PErr
            end
          else if Ascii.eqb c "f"%char then
            match strip_prefix "alse" r with
            | Some r' => POk (JBool false) r'
            | None => PErr
            end
          else if Ascii.eqb c "n"%char then
            match strip_prefix "ull" r with
            | Some r' => POk JNull r'
            | None => PErr
            end
          else
            match parse_number (String c r) with
            | Some (n, r') => POk (JNumber n) r'
            | None => PErr
            end
      end
  end

with parse_elements (fuel : nat) (s : string) (acc : list JValue)
  {struct fuel} : presult JValue :=
  match fuel with
  | O => PFuel
  | S k =>
      match parse_value k s with
      | POk v r =>
          match after Str.comma (skip_ws r) with
          | Some r' => parse_elements k r' (acc ++ [v])%list
          | None =>
              match after Str.rbracket (skip_ws r) with
              | Some r' => POk (JArray (acc ++ [v])%list) r'
              | None => PErr
              end
          end
      | PErr => PErr
      | PFuel => PFuel
      end
  end

with parse_members (fuel : nat) (s : string)
  (acc : list (string * JValue)) {struct fuel} : presult JValue :=
  match fuel with
  | O => PFuel
  | S k =>
      match after Str.dquote (skip_ws s) with
      | Some r =>
          match parse_string r with
          | Some (key, r1) =>
              match after ":"%char (skip_ws r1) with
              | Some r2 =>
                  match parse_value k r2 with
                  | POk v r3 =>
                      match after Str.comma (skip_ws r3) with
                      | Some r4 => parse_members k r4 (obj_set key v acc)
                      | None =>
                          match after Str.rbrace (skip_ws r3) with
                          | Some r4 => POk (JObject (obj_set key v acc)) r4
                          | None => PErr
                          end
                      end
                  | PErr => PErr
                  | PFuel => PFuel
                  end
              | None => PErr
              end
          | None => PErr
          end
      | None => PErr
      end
  end.

(** [JSON.parse(text)]: one value, white space around it, nothing else;
    anything else throws a [SyntaxError].  The fuel is never exhausted
    (lemma [parse_value_fuel]). *)
Definition parse (text : string) : completion JValue :=
  match parse_value (S (2 * String.length text)) text with
  | POk v rest =>
      match skip_ws rest with
      | EmptyString => Normal v
      | _ => Throw "SyntaxError"
      end
  | PErr => Throw "SyntaxError"
  | PFuel => Throw "SyntaxError"
  end.

End Json.

(** ** [src/background/index.ts]: the tolerant extractor *)

(** The first repair, [s.replace] of every apostrophe by a double
    quote. *)
Definition replaceQuotes (s : string) : string :=
  Str.map (fun c => if Ascii.eqb c Str.squote then Str.dquote else c) s.

Definition isClosing (c : ascii) : bool :=
  Ascii.eqb c Str.rbrace || Ascii.eqb c Str.rbracket.

(** [s.replace(/,\s*([}\]])/g, '$1')]: at a comma, skip the white space
    after it; when a closing brace or bracket follows, the whole match is
    replaced by that character and the scan goes on after it, otherwise
    the comma is copied.  Each step consumes a character, so a fuel of the
    length is enough. *)
Fixpoint removeTrailingCommas_fuel (fuel : nat) (s : string) : string :=
  match fuel with
  | O => s
  | S k =>
      match s with
      | EmptyString => EmptyString
      | String c r =>
          if Ascii.eqb c Str.comma then
            match Str.skip_ws r with
            | String b r' =>
                if isClosing b
                then String b (removeTrailingCommas_fuel k r')
                else String c (removeTrailingCommas_fuel k r)
            | EmptyString => String c (removeTrailingCommas_fuel k r)
            end
          else String c (removeTrailingCommas_fuel k r)
      end
  end.

Definition removeTrailingCommas (s : string) : string :=
  removeTrailingCommas_fuel (String.length s) s.

(** [extractAndParseJSONFromString(rawString)] on a string; [null] is
    [JNull]. *)
Definition extractAndParseJSONFromString (rawString : string)
  : completion JValue :=
  if Str.is_empty rawString then Normal JNull
  else
    try_catch
      (match Str.indexOf Str.lbrace rawString,
             Str.lastIndexOf Str.rbrace rawString with
       | Some startIndex, Some endIndex =>
           if (endIndex <? startIndex)%nat then Normal JNull
           else
             let jsonString :=
               Str.substring startIndex (endIndex + 1) rawString in
             let jsonString := replaceQuotes jsonString in
             let jsonString := removeTrailingCommas jsonString in
             Json.parse jsonString
       | _, _ => Normal JNull
       end)
      (fun _ => Normal JNull).

(** ** [URL] and [URLSearchParams] *)

Module URL.

Definition hex_digit (n : Z) : ascii :=
  if n <? 10 then Json.byte_of (48 + n) else Json.byte_of (55 + n).

(** The characters the [application/x-www-form-urlencoded] serializer
    leaves alone. *)
Definition unreserved (c : ascii) : bool :=
  let a := Str.code c in
  ((48 <=? a) && (a <=? 57)) || ((65 <=? a) && (a <=? 90))
  || ((97 <=? a) && (a <=? 122))
  || (a =? 42) || (a =? 45) || (a =? 46) || (a =? 95).

Fixpoint encode (s : string) : string :=
  match s with
  | EmptyString => EmptyString
  | String c r =>
      if unreserved c then String c (encode r)
      else if Str.code c =? 32 then String "+"%char (encode r)
      else String "%"%char
             (String (hex_digit (Str.code c / 16))
                (String (hex_digit (Str.code c mod 16)) (encode r)))
  end.

(** Conversion to a sequence of scalar values, which the serializer
    applies to names and values: a lone surrogate (which only a [\u]
    escape can produce) becomes U+FFFD. *)
Fixpoint scalar (s : string) : string :=
  match s with
  | EmptyString => EmptyString
  | String c r =>
      match r with
      | String d (String e r') =>
          if (Str.code c =? 237) && (160 <=? Str.code d)
          then String "239"%char
                 (String "191"%char (String "189"%char (scalar r')))
          else String c (scalar r)
      | _ => String c (scalar r)
      end
  end.

Definition params : Type := list (string * string).

(** [searchParams.set(name, value)]: the first pair of that name takes
    the value and later ones are removed; a new name is appended. *)
Fixpoint set (name value : string) (l : params) : params :=
  match l with
  | [] => [(name, value)]
  | (k, v) :: r =>
      if String.eqb k name
      then (k, value)
             :: List.filter (fun kv => negb (String.eqb (fst kv) name)) r
      else (k, v) :: set name value r
  end.

Fixpoint get (name : string) (l : params) : option string :=
  match l with
  | [] => None
  | (k, v) :: r => if String.eqb k name then Some v else get name r
  end.

Definition serialize (l : params) : string :=
  Str.join "&"
    (List.map
       (fun kv => encode (scalar (fst kv)) ++ "=" ++ encode (scalar (snd kv)))
       l).

(** [url.toString()] for a URL made of a query-less base and the
    parameters set on it. *)
Definition toString (base : string) (l : params) : string :=
  match l with
  | [] => base
  | _ => base ++ "?" ++ serialize l
  end.

End URL.

Definition calendarBase : string := "https://www.google.com/calendar/event".

Definition newline : string := String "010"%char EmptyString.

(** [s.length === 8]. *)
Definition hasLength8 (s : string) : bool :=
  (String.length s =? 8)%nat.

(** ** [src/utils.ts]: the testable link builder *)

(** Lines 120 to 142: the value of the [dates] parameter from the two
    formatted dates; [None] is [null]. *)
Definition dateParamValue_Testable (formattedStartDate formattedEndDate
  : option string) : completion (option string) :=
  match formattedStartDate with
  | Some start =>
      if JS.nonempty formattedStartDate then
        let startIsAllDay := hasLength8 start in
        match formattedEndDate with
        | Some fin =>
            if JS.nonempty formattedEndDate then
              let endIsAllDay := hasLength8 fin in
              if startIsAllDay && endIsAllDay then
                next <- calculateNextDay fin ;;
                Normal (Some (start ++ "/" ++ next))
              else if negb startIsAllDay && negb endIsAllDay then
                Normal (Some (start ++ "/" ++ fin))
              else
                Normal (Some (start ++ "/" ++ fin))
            else if startIsAllDay then
              next <- calculateNextDay start ;;
              Normal (Some (start ++ "/" ++ next))
            else Normal (Some start)
        | None =>
            if startIsAllDay then
              next <- calculateNextDay start ;;
              Normal (Some (start ++ "/" ++ next))
            else Normal (Some start)
        end
      else Normal None
  | None => Normal None
  end.

(** The query parameters [createGoogleCalendarLink_Testable] has set when
    it serializes the URL; [None] when it returns [null]. *)
Definition createGoogleCalendarLink_params (h : Host) (jsonObject : JValue)
  (info : string) : completion (option URL.params) :=
  if negb (JS.truthy h jsonObject) || negb (JS.typeof_object jsonObject)
  then Normal None
  else
    formattedStartDate <-
      formatDateTimeForGoogle h AnyPastYear (JS.get jsonObject "startDate") true ;;
    formattedEndDate <-
      formatDateTimeForGoogle h AnyPastYear (JS.get jsonObject "endDate") true ;;
    let calendarUrl := URL.set "action" "TEMPLATE" [] in
    let calendarUrl :=
      URL.set "text"
        (JS.ToString h
           (JS.or_else h (JS.get jsonObject "title") (JString "Event from Text")))
        calendarUrl in
    dateParamValue <-
      dateParamValue_Testable formattedStartDate formattedEndDate ;;
    if JS.nonempty dateParamValue then
      let calendarUrl :=
        match dateParamValue with
        | Some v => URL.set "dates" v calendarUrl
        | None => calendarUrl
        end in
      let calendarUrl :=
        if JS.truthy h (JS.get jsonObject "location")
        then URL.set "location" (JS.ToString h (JS.get jsonObject "location"))
               calendarUrl
        else calendarUrl in
      let detailsText := EmptyString in
      let detailsText :=
        if JS.truthy h (JS.get jsonObject "description")
        then detailsText ++ JS.ToString h (JS.get jsonObject "description")
        else detailsText in
      let detailsText :=
        if negb (Str.is_empty info)
        then detailsText
             ++ (if negb (Str.is_empty detailsText)
                 then newline ++ newline else EmptyString)
             ++ "Original Text:" ++ newline ++ info
        else detailsText in
      let calendarUrl :=
        if negb (Str.is_empty detailsText)
        then URL.set "details" detailsText calendarUrl
        else calendarUrl in
      Normal (Some calendarUrl)
    else Normal None.

(** [createGoogleCalendarLink_Testable(jsonObject, info)]. *)
Definition createGoogleCalendarLink_Testable (h : Host) (jsonObject : JValue)
  (info : string) : completion (option string) :=
  ps <- createGoogleCalendarLink_params h jsonObject info ;;
  Normal (option_map (URL.toString calendarBase) ps).

(** ** [src/background/index.ts]: the [done] branch of [extractDate] *)

(** What the handler leaves behind: the window it opened, or the error it
    stored in [processingError] for the cleanup code to show. *)
Inductive Outcome : Type :=
| OpenNewWindow (url : string)
| ProcessingError (message : string).

(** Lines 127 to 143: the [dates] value from a non-empty formatted start
    and the formatted end. *)
Definition dateParamValue_extractDate (formattedStartDate : string)
  (formattedEndDate : option string) : completion string :=
  let startIsAllDay := hasLength8 formattedStartDate in
  match formattedEndDate with
  | Some fin =>
      if JS.nonempty formattedEndDate then
        let endIsAllDay := hasLength8 fin in
        if startIsAllDay && endIsAllDay then
          next <- calculateNextDay fin ;;
          Normal (formattedStartDate ++ "/" ++ next)
        else if negb startIsAllDay && negb endIsAllDay then
          Normal (formattedStartDate ++ "/" ++ fin)
        else if startIsAllDay then
          next <- calculateNextDay formattedStartDate ;;
          Normal (formattedStartDate ++ "/" ++ next)
        else Normal (formattedStartDate ++ "/" ++ fin)
      else if startIsAllDay then
        next <- calculateNextDay formattedStartDate ;;
        Normal (formattedStartDate ++ "/" ++ next)
      else Normal formattedStartDate
  | None =>
      if startIsAllDay then
        next <- calculateNextDay formattedStartDate ;;
        Normal (formattedStartDate ++ "/" ++ next)
      else Normal formattedStartDate
  end.

Definition msgNotUnderstood : string :=
  "Could not understand the response from AI. Please try again or rephrase.".
Definition msgNoStartDate : string :=
  "Failed to extract a valid start date from the text.".
Definition msgNoDates : string :=
  "Failed to format dates for Google Calendar.".

(** [(v || '').trim()]: a method call, so a truthy value that is not a
    string throws a [TypeError]. *)
Definition trimOrEmpty (h : Host) (v : JValue) : completion string :=
  match JS.or_else h v (JString EmptyString) with
  | JString s => Normal (Str.trim s)
  | _ => Throw "TypeError"
  end.

(** The parameters of the URL built from a parsed object whose dates
    formatted to [dateParamValue]. *)
Definition extractDate_params (h : Host) (jsonObject : JValue)
  (dateParamValue info : string) : completion URL.params :=
  let calendarUrl := URL.set "action" "TEMPLATE" [] in
  let calendarUrl :=
    URL.set "text"
      (JS.ToString h
         (JS.or_else h (JS.get jsonObject "title") (JString "Event from Text")))
      calendarUrl in
  let calendarUrl := URL.set "dates" dateParamValue calendarUrl in
  let calendarUrl :=
    if JS.truthy h (JS.get jsonObject "location")
    then URL.set "location" (JS.ToString h (JS.get jsonObject "location"))
           calendarUrl
    else calendarUrl in
  let detailsText :=
    JS.or_else h (JS.get jsonObject "description") (JString EmptyString) in
  differs <-
    (if negb (Str.is_empty info) then
       d <- trimOrEmpty h (JS.get jsonObject "description") ;;
       Normal (negb (String.eqb (Str.trim info) d))
     else Normal false) ;;
  let detailsText :=
    if differs
    then JString
           (JS.ToString h detailsText
            ++ (if JS.truthy h detailsText
                then newline ++ newline ++ "---" ++ newline
                else EmptyString)
            ++ "Original Text:" ++ newline ++ info)
    else detailsText in
  let calendarUrl :=
    if JS.truthy h detailsText
    then URL.set "details" (JS.ToString h detailsText) calendarUrl
    else calendarUrl in
  Normal calendarUrl.

(** The [done] event: from the accumulated model output and the selected
    text to the outcome. *)
Definition extractDate_done (h : Host) (resultAccumulator info : string)
  : completion Outcome :=
  jsonObject <- extractAndParseJSONFromString resultAccumulator ;;
  if negb (JS.truthy h jsonObject) || negb (JS.typeof_object jsonObject)
     || (JS.keys_length jsonObject =? 0)%nat
  then Normal (ProcessingError msgNotUnderstood)
  else
    formattedStartDate <-
      formatDateTimeForGoogle h AnyPastYear (JS.get jsonObject "startDate") true ;;
    formattedEndDate <-
      formatDateTimeForGoogle h AnyPastYear (JS.get jsonObject "endDate") true ;;
    match formattedStartDate with
    | Some start =>
        if negb (JS.nonempty formattedStartDate)
        then Normal (ProcessingError msgNoStartDate)
        else
          dateParamValue <- dateParamValue_extractDate start formattedEndDate ;;
          if Str.is_empty dateParamValue
          then Normal (ProcessingError msgNoDates)
          else
            calendarUrl <- extractDate_params h jsonObject dateParamValue info ;;
            Normal (OpenNewWindow (URL.toString calendarBase calendarUrl))
    | None => Normal (ProcessingError msgNoStartDate)
    end.

(** ** Vocabulary of the statements *)

(** The two shapes of a formatted date. *)
Definition allDigits (s : string) : bool := Str.forallb Str.is_digit s.

Definition isAllDayShape (r : string) : bool :=
  (String.length r =? 8)%nat && allDigits r.

Definition isTimedShape (r : string) : bool :=
  (String.length r =? 16)%nat
  && allDigits (Str.substring 0 8 r)
  && String.eqb (Str.substring 8 9 r) "T"
  && allDigits (Str.substring 9 15 r)
  && String.eqb (Str.substring 15 16 r) "Z".

(** The date object after the past-year step of the formatter: the parsed
    time value [t], or what [setFullYear] makes of it. *)
Definition adjustedDate (h : Host) (p : YearPolicy) (adjustPastYears : bool)
  (t : Z) : option Z :=
  let currentYear := Date.getFullYear h (Some (now h)) in
  if adjustPastYears && isStale p (Date.getFullYear h (Some t)) currentYear
  then Date.setFullYear h (Some t) currentYear
  else Some t.

(** The text the formatter prints for a date object, by the lexical form
    of the input. *)
Definition render (h : Host) (s : string) (date : option Z) : string :=
  if isAllDay s then formatAllDay h date else formatTimed date.

(** A host for the examples: the clock at 2026-11-03T00:00:00Z and no
    fallback date parser.  Its handling of numbers is exact on integer
    literals, which is all the examples can meet: a literal is zero when
    the digits of its mantissa are, it is printed as written, and only an
    integer literal is given a time value. *)
Fixpoint mantissaIsZero (literal : string) : bool :=
  match literal with
  | EmptyString => true
  | String c r =>
      if Ascii.eqb c "e"%char || Ascii.eqb c "E"%char then true
      else (negb (Str.is_digit c) || Ascii.eqb c "0"%char) && mantissaIsZero r
  end.

Definition integerLiteral (literal : string) : option Z :=
  match literal with
  | String "-"%char r =>
      if allDigits r then option_map Z.opp (Num.scan_digits 10 r None)
      else None
  | _ =>
      if allDigits literal then Num.scan_digits 10 literal None else None
  end.

Definition hostAt (offset : Z) : Host :=
  mkHost offset 1793664000000 (fun _ => None) (fun n => n)
    (fun n => match integerLiteral n with
              | Some v => Cal.TimeClip v
              | None => None
              end)
    mantissaIsZero.

(** The example host in UTC. *)
Definition utcHost : Host := hostAt 0.

(** The example host five hours west of Greenwich. *)
Definition westHost : Host := hostAt (-18000000).

Definition twoDigits (s : string) : bool :=
  (String.length s =? 2)%nat && allDigits s.

Definition fourDigits (s : string) : bool :=
  (String.length s =? 4)%nat && allDigits s.

(** Days of month [m] (1 to 12) of year [y]. *)
Definition daysInMonth (y m : Z) : Z :=
  if m =? 2 then (if Cal.isLeap y then 29 else 28)
  else if (m =? 4) || (m =? 6) || (m =? 9) || (m =? 11) then 30
  else 31.

Definition validDate (y m d : Z) : Prop :=
  1 <= m <= 12 /\ 1 <= d <= daysInMonth y m.

(** The calendar day after [y]-[m]-[d]. *)
Definition nextCivil (y m d : Z) : Z * Z * Z :=
  if d <? daysInMonth y m then (y, m, d + 1)
  else if m <? 12 then (y, m + 1, 1)
  else (y + 1, 1, 1).

(** A date as [calculateNextDay] prints it: the year in decimal, the
    month and the day on two digits. *)
Definition dateText (y m d : Z) : string :=
  Num.toString (Some y) ++ pad2 (Some m) ++ pad2 (Some d).

(** Printing [n] and reading the text back with [parseInt] gives [n]. *)
Definition parsesBack (print : Z -> string) (n : Z) : bool :=
  match Num.parseInt (print n) with
  | Some v => v =? n
  | None => false
  end.

(** A JSON text of the examples, written with apostrophes for the double
    quotes. *)
Definition json (s : string) : string := replaceQuotes s.



(** ** [src/unnamed/part_010]: the later background script *)

(** A property read [v.name]: a [TypeError] on [null] and [undefined]. *)
Definition getProp (v : JValue) (name : string) : completion JValue :=
  match v with
  | JUndefined | JNull => Throw "TypeError"
  | _ => Normal (JS.get v name)
  end.

(** The method call [v.trim()]: a [TypeError] unless [v] is a string. *)
Definition callTrim (v : JValue) : completion string :=
  match v with
  | JString s => Normal (Str.trim s)
  | _ => Throw "TypeError"
  end.

(** The template for the user to fill in when nothing usable was
    extracted. *)
Definition emptyTemplate : JValue :=
  JObject [("title", JString ""); ("startDate", JString "");
           ("endDate", JString ""); ("location", JString "");
           ("description", JString "")].

(** The [done] event, lines 338 to 361: the event data sent to the
    confirmation form, from what the extractor returned and the selected
    text. *)
Definition done_eventData (h : Host) (jsonObject : JValue) (info : string)
  : JValue :=
  let jsonObject :=
    if negb (JS.truthy h jsonObject) || negb (JS.typeof_object jsonObject)
    then emptyTemplate
    else jsonObject in
  JObject
    [("title", JS.or_else h (JS.get jsonObject "title") (JString ""));
     ("startDate", JS.or_else h (JS.get jsonObject "startDate") (JString ""));
     ("endDate", JS.or_else h (JS.get jsonObject "endDate") (JString ""));
     ("location", JS.or_else h (JS.get jsonObject "location") (JString ""));
     ("description",
      JS.or_else h (JS.get jsonObject "description") (JString ""));
     ("originalText", JString info)].

(** What [handleOpenCalendar] does in the end: a notification, a new
    window, or nothing but a line on the console. *)
Inductive CalendarOutcome : Type :=
| ShowNotification (title message : string)
| OpenWindow (url : string)
| ConsoleError.

(** The parameters of the URL that [handleOpenCalendar] builds, lines 676
    to 687. *)
Definition handleOpenCalendar_params (h : Host) (eventData : JValue)
  (dateParamValue : string) : completion URL.params :=
  let calendarUrl := URL.set "action" "TEMPLATE" [] in
  let calendarUrl :=
    URL.set "text"
      (JS.ToString h
         (JS.or_else h (JS.get eventData "title") (JString "Event from Text")))
      calendarUrl in
  let calendarUrl := URL.set "dates" dateParamValue calendarUrl in
  let calendarUrl :=
    if JS.truthy h (JS.get eventData "location")
    then URL.set "location" (JS.ToString h (JS.get eventData "location"))
           calendarUrl
    else calendarUrl in
  let detailsText :=
    JS.or_else h (JS.get eventData "description") (JString EmptyString) in
  differs <-
    (if JS.truthy h (JS.get eventData "originalText") then
       o <- callTrim (JS.get eventData "originalText") ;;
       d <- trimOrEmpty h (JS.get eventData "description") ;;
       Normal (negb (String.eqb o d))
     else Normal false) ;;
  let detailsText :=
    if differs
    then JString
           (JS.ToString h detailsText
            ++ (if JS.truthy h detailsText
                then newline ++ newline ++ "---" ++ newline
                else EmptyString)
            ++ "Original Text:" ++ newline
            ++ JS.ToString h (JS.get eventData "originalText"))
    else detailsText in
  let calendarUrl :=
    if JS.truthy h detailsText
    then URL.set "details" (JS.ToString h detailsText) calendarUrl
    else calendarUrl in
  Normal calendarUrl.

(** [handleOpenCalendar(eventData)], lines 628 to 695.  The dates are
    formatted with [adjustPastYears] false; the date range is computed as
    in the [done] handler of [src/background/index.ts]. *)
Definition handleOpenCalendar (h : Host) (eventData : JValue)
  : completion CalendarOutcome :=
  try_catch
    (title <- getProp eventData "title" ;;
     blank <-
       (if negb (JS.truthy h title) then Normal true
        else t <- callTrim title ;; Normal (Str.is_empty t)) ;;
     if blank then Normal (ShowNotification "Error" "Event title is required")
     else if negb (JS.truthy h (JS.get eventData "startDate"))
     then Normal (ShowNotification "Error" "Start date is required")
     else
       formattedStartDate <-
         formatDateTimeForGoogle h OlderThanOneYear
           (JS.get eventData "startDate") false ;;
       formattedEndDate <-
         (if JS.truthy h (JS.get eventData "endDate")
          then formatDateTimeForGoogle h OlderThanOneYear
                 (JS.get eventData "endDate") false
          else Normal None) ;;
       match formattedStartDate with
       | Some start =>
           if negb (JS.nonempty formattedStartDate)
           then Normal (ShowNotification "Error" "Invalid start date format")
           else
             dateParamValue <-
               dateParamValue_extractDate start formattedEndDate ;;
             if Str.is_empty dateParamValue then Normal ConsoleError
             else
               calendarUrl <-
                 handleOpenCalendar_params h eventData dateParamValue ;;
               Normal (OpenWindow (URL.toString calendarBase calendarUrl))
       | None =>
           Normal (ShowNotification "Error" "Invalid start date format")
       end)
    (fun _ => Normal ConsoleError).

(** ** [src/unnamed/part_003]: the confirmation form of the content
    script *)

Definition getHours (h : Host) (d : option Z) : option Z :=
  option_map (fun t => Cal.HourFromTime (Date.LocalTime h t)) d.
Definition getMinutes (h : Host) (d : option Z) : option Z :=
  option_map (fun t => Cal.MinFromTime (Date.LocalTime h t)) d.

(** The year of [toISOString]: four digits from 0 to 9999, otherwise a
    sign and six digits. *)
Definition isoYearText (y : Z) : string :=
  if (0 <=? y) && (y <=? 9999) then Str.padStart0 4 (Num.int_toString y)
  else String (if y <? 0 then "-"%char else "+"%char)
         (Str.padStart0 6 (Num.int_toString (Z.abs y))).

(** [date.toISOString()]: a [RangeError] on the invalid date. *)
Definition toISOString (d : option Z) : completion string :=
  match d with
  | None => Throw "RangeError"
  | Some t =>
      Normal
        (isoYearText (Cal.YearFromTime t) ++ "-"
         ++ pad2 (Some (Cal.MonthFromTime t + 1)) ++ "-"
         ++ pad2 (Some (Cal.DateFromTime t)) ++ "T"
         ++ pad2 (Some (Cal.HourFromTime t)) ++ ":"
         ++ pad2 (Some (Cal.MinFromTime t)) ++ ":"
         ++ pad2 (Some (Cal.SecFromTime t)) ++ "."
         ++ Str.padStart0 3 (Num.int_toString (t mod 1000)) ++ "Z")
  end.

(** [s.split('T')[0]]. *)
Definition beforeFirstT (s : string) : string :=
  match Str.indexOf "T"%char s with
  | Some i => Str.take i s
  | None => s
  end.

(** The local rendering [YYYY-MM-DDTHH:MM] of the two display helpers;
    the year is interpolated as a number. *)
Definition localDateTime (h : Host) (date : option Z) : string :=
  let year := Num.toString (Date.getFullYear h date) in
  let month := pad2 (Num.add (Date.getMonth h date) (Some 1)) in
  let day := pad2 (Date.getDate h date) in
  let hours := pad2 (getHours h date) in
  let minutes := pad2 (getMinutes h date) in
  year ++ "-" ++ month ++ "-" ++ day ++ "T" ++ hours ++ ":" ++ minutes.

(** [formatDateForDisplay(dateString)], lines 398 to 420. *)
Definition formatDateForDisplay (h : Host) (dateString : JValue)
  : completion string :=
  if negb (JS.truthy h dateString) then Normal ""
  else
    try_catch
      (let date := Date.new h dateString in
       match date with
       | None => Normal ""
       | Some _ =>
           if isAllDay (JS.ToString h dateString)
           then iso <- toISOString date ;; Normal (beforeFirstT iso)
           else Normal (localDateTime h date)
       end)
      (fun _ => Normal "").

(** [formatDateForInput(dateString, isDateTime)], lines 422 to 444. *)
Definition formatDateForInput (h : Host) (dateString : JValue)
  (isDateTime : bool) : completion string :=
  if negb (JS.truthy h dateString) then Normal ""
  else
    try_catch
      (let date := Date.new h dateString in
       match date with
       | None => Normal ""
       | Some _ =>
           if isDateTime then Normal (localDateTime h date)
           else iso <- toISOString date ;; Normal (beforeFirstT iso)
       end)
      (fun _ => Normal "").

(** ** [src/logging.ts]: the stored log *)

Definition maxLogEntries : nat := 1000.

(** [Logger.log], lines 60 to 68: the array written back to the storage
    from the stored value, [None] when that is not an array, and the new
    entry. *)
Definition log_stored {A : Type} (existingLogs : option (list A))
  (entry : A) : list A :=
  let logs := match existingLogs with
              | Some l => l
              | None => []
              end in
  let logs := (logs ++ [entry])%list in
  if (maxLogEntries <? List.length logs)%nat
  then List.skipn (List.length logs - maxLogEntries) logs
  else logs.

(** [Logger.getLogs(limit)], lines 94 to 101, for an integer or absent
    [limit]: [slice(-limit)] is the last [limit] entries. *)
Definition getLogs {A : Type} (stored : option (list A)) (limit : option Z)
  : list A :=
  let logArray := match stored with
                  | Some l => l
                  | None => []
                  end in
  match limit with
  | Some n =>
      if 0 <? n
      then List.skipn (List.length logArray - Z.to_nat n) logArray
      else logArray
  | None => logArray
  end.

(** ** Further vocabulary: dates as the prompt asks for them *)

(** [YYYY-MM-DD], for a four-digit year. *)
Definition isoDate (y m d : Z) : string :=
  Num.toString (Some y) ++ "-" ++ pad2 (Some m) ++ "-" ++ pad2 (Some d).

(** [YYYY-MM-DDTHH:mm:ss], for a four-digit year. *)
Definition isoDateTime (y m d hh mi ss : Z) : string :=
  isoDate y m d ++ "T" ++ pad2 (Some hh) ++ ":" ++ pad2 (Some mi)
  ++ ":" ++ pad2 (Some ss).

(** Printing [n] and reading the text back as [k] digits of a date string
    gives [n]. *)
Definition readsBack (k : nat) (print : Z -> string) (n : Z) : bool :=
  match Date.digitsN k (print n) 0 with
  | Some (v, EmptyString) => v =? n
  | _ => false
  end.

(** A time of day. *)
Definition validTime (hh mi ss : Z) : Prop :=
  0 <= hh <= 23 /\ 0 <= mi <= 59 /\ 0 <= ss <= 59.

(** ASCII white space: the tab, the line breaks and the space. *)
Definition asciiSpace (c : ascii) : bool :=
  ((9 <=? Str.code c) && (Str.code c <=? 13)) || (Str.code c =? 32).

(** An event whose six fields are strings, as the confirmation form
    submits it. *)
Definition formEvent (title startDate endDate location description
  originalText : string) : JValue :=
  JObject [("title", JString title); ("startDate", JString startDate);
           ("endDate", JString endDate); ("location", JString location);
           ("description", JString description);
           ("originalText", JString originalText)].

(** * Properties *)

(** ** Calendar arithmetic *)

Lemma isLeap_spec (y : Z) :
  Cal.isLeap y = true <-> (y mod 4 = 0 /\ y mod 100 <> 0) \/ y mod 400 = 0.
Proof.
  unfold Cal.isLeap.
  rewrite orb_true_iff, andb_true_iff, negb_true_iff, !Z.eqb_eq, Z.eqb_neq.
  tauto.
Qed.

Lemma DayFromYear_step (y : Z) :
  Cal.DayFromYear (y + 1) = Cal.DayFromYear y + Cal.DaysInYear y.
Proof.
  unfold Cal.DayFromYear, Cal.DaysInYear.
  destruct (Cal.isLeap y) eqn:E.
  - apply isLeap_spec in E. Z.div_mod_to_equations. lia.
  - assert (N : ~ ((y mod 4 = 0 /\ y mod 100 <> 0) \/ y mod 400 = 0)).
    { rewrite <- isLeap_spec. congruence. }
    Z.div_mod_to_equations. lia.
Qed.

Lemma DaysInYear_range (y : Z) : 365 <= Cal.DaysInYear y <= 366.
Proof. unfold Cal.DaysInYear. destruct (Cal.isLeap y); lia. Qed.

Lemma DayFromYear_lower (y : Z) :
  146097 * (y - 1970) - 800 <= 400 * Cal.DayFromYear y.
Proof. unfold Cal.DayFromYear. Z.div_mod_to_equations. lia. Qed.

Lemma DayFromYear_upper (y : Z) :
  400 * Cal.DayFromYear y <= 146097 * (y - 1970) + 800.
Proof. unfold Cal.DayFromYear. Z.div_mod_to_equations. lia. Qed.

Lemma YearFromDay_unique (d y : Z) :
  Cal.DayFromYear y <= d < Cal.DayFromYear (y + 1) -> Cal.YearFromDay d = y.
Proof.
  intros [Hlo Hhi]. unfold Cal.YearFromDay.
  set (y0 := 1970 + d * 400 / 146097).
  assert (Hy0 : y - 1 <= y0 <= y + 1).
  { pose proof (DayFromYear_lower y). pose proof (DayFromYear_upper (y + 1)).
    subst y0. Z.div_mod_to_equations. lia. }
  pose proof (DayFromYear_step (y - 1)) as S1.
  pose proof (DayFromYear_step y) as S2.
  pose proof (DayFromYear_step (y + 1)) as S3.
  pose proof (DaysInYear_range (y - 1)).
  pose proof (DaysInYear_range y).
  pose proof (DaysInYear_range (y + 1)).
  replace (y - 1 + 1) with y in S1 by lia.
  assert (Hc : y0 = y - 1 \/ y0 = y \/ y0 = y + 1) by lia.
  destruct Hc as [-> | [-> | ->]].
  - replace (y - 1 + 1) with y by lia.
    destruct (Z.leb_spec (Cal.DayFromYear y) d); lia.
  - destruct (Z.leb_spec (Cal.DayFromYear (y + 1)) d); [lia|].
    destruct (Z.leb_spec (Cal.DayFromYear y) d); lia.
  - destruct (Z.leb_spec (Cal.DayFromYear (y + 1 + 1)) d); [lia|].
    destruct (Z.leb_spec (Cal.DayFromYear (y + 1)) d); lia.
Qed.

Lemma YearFromDay_spec (d : Z) :
  Cal.DayFromYear (Cal.YearFromDay d) <= d
  < Cal.DayFromYear (Cal.YearFromDay d + 1).
Proof.
  unfold Cal.YearFromDay.
  set (y0 := 1970 + d * 400 / 146097).
  pose proof (DayFromYear_lower (y0 + 2)).
  pose proof (DayFromYear_upper (y0 - 1)).
  pose proof (DayFromYear_step (y0 - 1)) as S1.
  pose proof (DayFromYear_step y0) as S2.
  pose proof (DayFromYear_step (y0 + 1)) as S3.
  pose proof (DaysInYear_range (y0 - 1)).
  pose proof (DaysInYear_range y0).
  pose proof (DaysInYear_range (y0 + 1)).
  replace (y0 - 1 + 1) with y0 in * by lia.
  replace (y0 + 1 + 1) with (y0 + 2) in * by lia.
  assert (Hd : 146097 * (y0 - 1970) <= 400 * d < 146097 * (y0 - 1970) + 146097).
  { subst y0. Z.div_mod_to_equations. lia. }
  destruct (Z.leb_spec (Cal.DayFromYear (y0 + 1)) d).
  - replace (y0 + 1 + 1) with (y0 + 2) by lia. lia.
  - destruct (Z.leb_spec (Cal.DayFromYear y0) d).
    + lia.
    + replace (y0 - 1 + 1) with y0 by lia. lia.
Qed.

Lemma DayWithinYear_range (t : Z) :
  0 <= Cal.DayWithinYear t < Cal.DaysInYear (Cal.YearFromTime t).
Proof.
  unfold Cal.DayWithinYear, Cal.YearFromTime.
  pose proof (YearFromDay_spec (Cal.Day t)) as H.
  rewrite DayFromYear_step in H. lia.
Qed.

Lemma InLeapYear_days (t : Z) :
  Cal.DaysInYear (Cal.YearFromTime t) = 365 + Cal.InLeapYear t
  /\ 0 <= Cal.InLeapYear t <= 1.
Proof.
  unfold Cal.InLeapYear, Cal.DaysInYear.
  destruct (Cal.isLeap (Cal.YearFromTime t)); lia.
Qed.

Ltac split_ltb :=
  repeat match goal with
         | |- context [?a <? ?b] => destruct (Z.ltb_spec a b)
         | |- context [?a =? ?b] => destruct (Z.eqb_spec a b)
         end.

Lemma monthOfYearDay_range (d leap : Z) :
  0 <= Cal.monthOfYearDay d leap <= 11.
Proof. unfold Cal.monthOfYearDay. split_ltb; lia. Qed.

Lemma MonthFromTime_range (t : Z) : 0 <= Cal.MonthFromTime t <= 11.
Proof. apply monthOfYearDay_range. Qed.

Lemma dateOfYearDay_range (d leap : Z) :
  0 <= d < 365 + leap -> 0 <= leap <= 1 ->
  1 <= d - Cal.monthStart (Cal.monthOfYearDay d leap) leap + 1 <= 31.
Proof.
  intros Hd Hl. unfold Cal.monthOfYearDay.
  split_ltb; cbv beta iota delta [Cal.monthStart Z.eqb Pos.eqb]; lia.
Qed.

Lemma DateFromTime_range (t : Z) : 1 <= Cal.DateFromTime t <= 31.
Proof.
  unfold Cal.DateFromTime, Cal.MonthFromTime.
  pose proof (DayWithinYear_range t) as H.
  destruct (InLeapYear_days t) as [E L]. rewrite E in H.
  apply dateOfYearDay_range; assumption.
Qed.

Lemma HourFromTime_range (t : Z) : 0 <= Cal.HourFromTime t <= 23.
Proof. unfold Cal.HourFromTime. Z.div_mod_to_equations. lia. Qed.

Lemma MinFromTime_range (t : Z) : 0 <= Cal.MinFromTime t <= 59.
Proof. unfold Cal.MinFromTime. Z.div_mod_to_equations. lia. Qed.

Lemma SecFromTime_range (t : Z) : 0 <= Cal.SecFromTime t <= 59.
Proof. unfold Cal.SecFromTime. Z.div_mod_to_equations. lia. Qed.

Lemma monthStart_range (m leap : Z) :
  0 <= m <= 11 -> 0 <= leap <= 1 ->
  0 <= Cal.monthStart m leap <= 334 + leap
  /\ (m <= 10 -> Cal.monthStart m leap <= 304 + leap).
Proof. intros Hm Hl. unfold Cal.monthStart. split_ltb; lia. Qed.

Lemma Day_MakeDate (day time : Z) :
  0 <= time < Cal.msPerDay -> Cal.Day (Cal.MakeDate day time) = day.
Proof.
  intros H. unfold Cal.Day, Cal.MakeDate, Cal.msPerDay in *.
  Z.div_mod_to_equations. lia.
Qed.

Lemma TimeWithinDay_range (t : Z) : 0 <= Cal.TimeWithinDay t < Cal.msPerDay.
Proof.
  unfold Cal.TimeWithinDay, Cal.msPerDay. Z.div_mod_to_equations. lia.
Qed.

(** A date rebuilt in year [y] from a month and a day of the month that
    some date has lies in year [y]: 29 February runs into 1 March, never
    into the next year. *)
Lemma YearFromTime_MakeDay (y m dt time : Z) :
  0 <= m <= 11 -> 1 <= dt <= 31 -> 0 <= time < Cal.msPerDay ->
  Cal.YearFromTime (Cal.MakeDate (Cal.MakeDay y m dt) time) = y.
Proof.
  intros Hm Hd Ht. unfold Cal.YearFromTime.
  rewrite Day_MakeDate by assumption.
  apply YearFromDay_unique. rewrite DayFromYear_step.
  unfold Cal.MakeDay.
  replace (m / 12) with 0 by (Z.div_mod_to_equations; lia).
  replace (m mod 12) with m by (Z.div_mod_to_equations; lia).
  rewrite Z.add_0_r. unfold Cal.DaysInYear.
  destruct (Cal.isLeap y).
  - destruct (monthStart_range m 1 Hm ltac:(lia)) as [A B].
    destruct (Z.eq_dec m 11); lia.
  - destruct (monthStart_range m 0 Hm ltac:(lia)) as [A B].
    destruct (Z.eq_dec m 11); lia.
Qed.

(** ** Strings *)

Lemma string_length_app (a b : string) :
  String.length (a ++ b) = (String.length a + String.length b)%nat.
Proof. induction a as [|c a IH]; simpl; [reflexivity | now rewrite IH]. Qed.

Lemma string_forallb_app (f : ascii -> bool) (a b : string) :
  Str.forallb f (a ++ b) = Str.forallb f a && Str.forallb f b.
Proof.
  induction a as [|c a IH]; simpl; [reflexivity|].
  rewrite IH. now rewrite andb_assoc.
Qed.

Lemma string_app_assoc (a b c : string) : (a ++ b) ++ c = a ++ (b ++ c).
Proof. induction a as [|x a IH]; simpl; [reflexivity | now rewrite IH]. Qed.

Lemma string_app_empty_r (a : string) : a ++ "" = a.
Proof. induction a as [|x a IH]; simpl; [reflexivity | now rewrite IH]. Qed.

(** A property checked on every integer of a range holds on the range. *)
Lemma range_check (P : Z -> bool) (lo len : Z) :
  List.forallb (fun k => P (lo + Z.of_nat k)) (List.seq 0 (Z.to_nat len))
  = true ->
  forall n, lo <= n < lo + len -> P n = true.
Proof.
  intros H n Hn. rewrite List.forallb_forall in H.
  specialize (H (Z.to_nat (n - lo))).
  rewrite Z2Nat.id in H by lia.
  replace (lo + (n - lo)) with n in H by lia.
  apply H. apply List.in_seq. lia.
Qed.

Lemma pad2_twoDigits (n : Z) :
  0 <= n <= 99 -> twoDigits (pad2 (Some n)) = true.
Proof.
  intros H.
  apply (range_check (fun n => twoDigits (pad2 (Some n))) 0 100);
    [vm_compute; reflexivity | lia].
Qed.

Lemma year_fourDigits (y : Z) :
  1000 <= y <= 9999 -> fourDigits (Num.toString (Some y)) = true.
Proof.
  intros H.
  apply (range_check (fun n => fourDigits (Num.toString (Some n))) 1000 9000);
    [vm_compute; reflexivity | lia].
Qed.

Lemma pad2_length_ge (n : option Z) : (2 <= String.length (pad2 n))%nat.
Proof.
  unfold pad2, Str.padStart0. rewrite string_length_app.
  assert (L : forall k, String.length (Str.repeat "0" k) = k)
    by (induction k; simpl; congruence).
  rewrite L. lia.
Qed.

(** ** The fuel of the parsers is enough *)

Lemma json_skip_ws_length (s : string) :
  (String.length (Json.skip_ws s) <= String.length s)%nat.
Proof.
  induction s as [|c s IH]; simpl; [lia|].
  destruct (Json.is_ws c); simpl; lia.
Qed.

Lemma span_digits_length (s : string) :
  (String.length (snd (Json.span_digits s)) <= String.length s)%nat.
Proof.
  induction s as [|c s IH]; simpl; [lia|].
  destruct (Str.is_digit c); simpl; [|lia].
  destruct (Json.span_digits s). simpl in *. lia.
Qed.

Lemma strip_prefix_length (p s r : string) :
  Json.strip_prefix p s = Some r ->
  (String.length r <= String.length s)%nat.
Proof.
  revert s. induction p as [|a p IH]; intros [|b s]; simpl;
    try discriminate.
  - intros [= <-]. simpl. lia.
  - intros [= <-]. simpl. lia.
  - destruct (Ascii.eqb a b); [|discriminate].
    intros H. apply IH in H. lia.
Qed.

Lemma string_items_length (n : nat) :
  forall s l r,
    (String.length s <= n)%nat ->
    Json.string_items s = Some (l, r) ->
    (String.length r < String.length s)%nat.
Proof.
  induction n as [|n IH]; intros s l r Hn.
  - destruct s; simpl in Hn; [discriminate | lia].
  - destruct s as [|c s]; [discriminate|].
    simpl in Hn. cbn [Json.string_items].
    destruct (Ascii.eqb c Str.dquote).
    { intros [= <- <-]. simpl. lia. }
    destruct (Ascii.eqb c "\"%char).
    + destruct s as [|e s]; [discriminate|].
      assert (Hesc : forall l r,
                 match Json.escape e, Json.string_items s with
                 | Some b, Some (l0, rest) => Some (Json.Byte b :: l0, rest)
                 | _, _ => None
                 end = Some (l, r) ->
                 (String.length r < String.length (String c (String e s)))%nat).
      { intros l0 r0. destruct (Json.escape e); [|discriminate].
        destruct (Json.string_items s) as [[l1 r1]|] eqn:E; [|discriminate].
        intros [= <- <-]. apply IH in E; simpl in *; lia. }
      destruct (Ascii.eqb_spec e "u"%char) as [->|Hne].
      * destruct s as [|w [|x [|y [|z s]]]]; try apply Hesc.
        destruct (Json.hex4 w x y z); [|discriminate].
        destruct (Json.string_items s) as [[l1 r1]|] eqn:E; [|discriminate].
        intros [= <- <-]. apply IH in E; simpl in *; lia.
      * replace (match s with
                 | _ => _ end) with
          (match Json.escape e, Json.string_items s with
           | Some b, Some (l0, rest) => Some (Json.Byte b :: l0, rest)
           | _, _ => None
           end); [apply Hesc|].
        destruct e as [[] [] [] [] [] [] [] []]; try reflexivity.
        congruence.
    + destruct (Str.code c <? 32); [discriminate|].
      destruct (Json.string_items s) as [[l1 r1]|] eqn:E; [|discriminate].
      intros [= <- <-]. apply IH in E; simpl in *; lia.
Qed.

Lemma parse_string_length (s x r : string) :
  Json.parse_string s = Some (x, r) ->
  (String.length r < String.length s)%nat.
Proof.
  unfold Json.parse_string.
  destruct (Json.string_items s) as [[l r1]|] eqn:E; [|discriminate].
  intros [= _ <-]. apply (string_items_length (String.length s) s l r1);
    [lia | assumption].
Qed.

Lemma number_int_length (s i r : string) :
  Json.number_int s = Some (i, r) ->
  (String.length r < String.length s)%nat.
Proof.
  unfold Json.number_int. destruct s as [|c s]; [discriminate|].
  pose proof (span_digits_length (String c s)) as L.
  assert (D : Str.is_digit c = true ->
              (String.length (snd (Json.span_digits (String c s)))
               < String.length (String c s))%nat).
  { intros Hd. pose proof (span_digits_length s). simpl. rewrite Hd.
    destruct (Json.span_digits s). simpl in *. lia. }
  destruct (Ascii.eqb_spec c "0"%char) as [->|Hne].
  - intros [= <- <-]. simpl. lia.
  - replace (match c with
             | _ => _ end)
      with (if Str.is_digit c then Some (Json.span_digits (String c s))
            else None).
    + destruct (Str.is_digit c) eqn:Hd; [|discriminate].
      specialize (D eq_refl). revert D.
      generalize (Json.span_digits (String c s)).
      intros [i' r'] D [= <- <-]. exact D.
    + destruct c as [[] [] [] [] [] [] [] []]; try reflexivity. congruence.
Qed.

Lemma number_frac_length (s f r : string) :
  Json.number_frac s = Some (f, r) ->
  (String.length r <= String.length s)%nat.
Proof.
  unfold Json.number_frac. destruct s as [|c s].
  - intros [= <- <-]. simpl. lia.
  - destruct (Ascii.eqb_spec c "."%char) as [->|Hne].
    + pose proof (span_digits_length s).
      destruct (Json.span_digits s) as [[|d ds] rest]; [discriminate|].
      intros [= <- <-]. simpl in *. lia.
    + replace (match c with
               | _ => _ end) with (Some (EmptyString, String c s)).
      * intros [= <- <-]. lia.
      * destruct c as [[] [] [] [] [] [] [] []]; try reflexivity. congruence.
Qed.

Lemma number_exp_length (s e r : string) :
  Json.number_exp s = Some (e, r) ->
  (String.length r <= String.length s)%nat.
Proof.
  unfold Json.number_exp. destruct s as [|c s].
  - intros [= <- <-]. simpl. lia.
  - destruct (Ascii.eqb c "e"%char || Ascii.eqb c "E"%char).
    + assert (H : (String.length
                     (snd (let '(sg, r1) :=
                             match s with
                             | String "+"%char r' => ("+", r')
                             | String "-"%char r' => ("-", r')
                             | _ => ("", s)
                             end in Json.span_digits r1))
                   <= String.length s)%nat).
      { destruct s as [|d s']; [simpl; lia|].
        pose proof (span_digits_length s').
        pose proof (span_digits_length (String d s')).
        destruct d as [[] [] [] [] [] [] [] []]; simpl in *; lia. }
      destruct (match s with
                | String "+"%char r' => ("+", r')
                | String "-"%char r' => ("-", r')
                | _ => ("", s)
                end) as [sg r1].
      destruct (Json.span_digits r1) as [[|d ds] rest]; [discriminate|].
      intros [= <- <-]. simpl in *. lia.
    + intros [= <- <-]. lia.
Qed.

Lemma parse_number_length (s n r : string) :
  Json.parse_number s = Some (n, r) ->
  (String.length r < String.length s)%nat.
Proof.
  unfold Json.parse_number.
  assert (Hs : forall t,
             (String.length
                (snd (match t with
                      | String "-"%char r' => ("-", r')
                      | _ => ("", t)
                      end)) <= String.length t)%nat).
  { intros [|c t]; [simpl; lia|].
    destruct c as [[] [] [] [] [] [] [] []]; simpl; lia. }
  specialize (Hs s).
  destruct (match s with
            | String "-"%char r' => ("-", r')
            | _ => ("", s)
            end) as [sg r0]. simpl in Hs.
  destruct (Json.number_int r0) as [[i r1]|] eqn:Ei; [|discriminate].
  destruct (Json.number_frac r1) as [[f r2]|] eqn:Ef; [|discriminate].
  destruct (Json.number_exp r2) as [[e r3]|] eqn:Ee; [|discriminate].
  intros [= _ <-].
  apply number_int_length in Ei. apply number_frac_length in Ef.
  apply number_exp_length in Ee. lia.
Qed.

Lemma after_length (c : ascii) (s r : string) :
  Json.after c s = Some r -> String.length s = S (String.length r).
Proof.
  destruct s as [|d s]; simpl; [discriminate|].
  destruct (Ascii.eqb c d); [|discriminate]. now intros [= <-].
Qed.

Lemma after_skip_ws_length (c : ascii) (s r : string) :
  Json.after c (Json.skip_ws s) = Some r ->
  (String.length r < String.length s)%nat.
Proof.
  intros H. apply after_length in H.
  pose proof (json_skip_ws_length s). lia.
Qed.

(** A parsed value, element list or member list consumes at least one
    character. *)
Lemma parse_consumes (fuel : nat) :
  (forall s v r, Json.parse_value fuel s = Json.POk v r ->
                 (String.length r < String.length s)%nat)
  /\ (forall s acc v r, Json.parse_elements fuel s acc = Json.POk v r ->
                        (String.length r < String.length s)%nat)
  /\ (forall s acc v r, Json.parse_members fuel s acc = Json.POk v r ->
                        (String.length r < String.length s)%nat).
Proof.
  induction fuel as [|k (IHv & IHe & IHm)];
    [repeat split; intros; discriminate|].
  split; [|split].
  - intros s v r. cbn [Json.parse_value].
    pose proof (json_skip_ws_length s) as Hws.
    destruct (Json.skip_ws s) as [|c t]; [discriminate|]. simpl in Hws.
    destruct (Ascii.eqb c Str.lbrace).
    { destruct (Json.after Str.rbrace (Json.skip_ws t)) eqn:E.
      - intros [= _ <-]. apply after_skip_ws_length in E. lia.
      - intros H. apply IHm in H. lia. }
    destruct (Ascii.eqb c "[").
    { destruct (Json.after Str.rbracket (Json.skip_ws t)) eqn:E.
      - intros [= _ <-]. apply after_skip_ws_length in E. lia.
      - intros H. apply IHe in H. lia. }
    destruct (Ascii.eqb c Str.dquote).
    { destruct (Json.parse_string t) as [[x r']|] eqn:E; [|discriminate].
      intros [= _ <-]. apply parse_string_length in E. lia. }
    destruct (Ascii.eqb c "t").
    { destruct (Json.strip_prefix "rue" t) eqn:E; [|discriminate].
      intros [= _ <-]. apply strip_prefix_length in E. lia. }
    destruct (Ascii.eqb c "f").
    { destruct (Json.strip_prefix "alse" t) eqn:E; [|discriminate].
      intros [= _ <-]. apply strip_prefix_length in E. lia. }
    destruct (Ascii.eqb c "n").
    { destruct (Json.strip_prefix "ull" t) eqn:E; [|discriminate].
      intros [= _ <-]. apply strip_prefix_length in E. lia. }
    destruct (Json.parse_number (String c t)) as [[x r']|] eqn:E;
      [|discriminate].
    intros [= _ <-]. apply parse_number_length in E. simpl in E. lia.
  - intros s acc v r. cbn [Json.parse_elements].
    destruct (Json.parse_value k s) as [x t| |] eqn:Ev; try discriminate.
    apply IHv in Ev.
    destruct (Json.after Str.comma (Json.skip_ws t)) eqn:E1.
    { intros H. apply IHe in H. apply after_skip_ws_length in E1. lia. }
    destruct (Json.after Str.rbracket (Json.skip_ws t)) eqn:E2;
      [|discriminate].
    intros [= _ <-]. apply after_skip_ws_length in E2. lia.
  - intros s acc v r. cbn [Json.parse_members].
    destruct (Json.after Str.dquote (Json.skip_ws s)) as [t|] eqn:E0;
      [|discriminate].
    apply after_skip_ws_length in E0.
    destruct (Json.parse_string t) as [[key t1]|] eqn:Es; [|discriminate].
    apply parse_string_length in Es.
    destruct (Json.after ":" (Json.skip_ws t1)) as [t2|] eqn:Ec;
      [|discriminate].
    apply after_skip_ws_length in Ec.
    destruct (Json.parse_value k t2) as [x t3| |] eqn:Ev; try discriminate.
    apply IHv in Ev.
    destruct (Json.after Str.comma (Json.skip_ws t3)) eqn:E1.
    { intros H. apply IHm in H. apply after_skip_ws_length in E1. lia. }
    destruct (Json.after Str.rbrace (Json.skip_ws t3)) eqn:E2;
      [|discriminate].
    intros [= _ <-]. apply after_skip_ws_length in E2. lia.
Qed.

(** With two units of fuel for every character and one to spare, no
    parser runs out. *)
Lemma parse_fuel_enough (fuel : nat) :
  (forall s, (2 * String.length s + 1 <= fuel)%nat ->
             Json.parse_value fuel s <> Json.PFuel)
  /\ (forall s acc, (2 * String.length s + 2 <= fuel)%nat ->
                    Json.parse_elements fuel s acc <> Json.PFuel)
  /\ (forall s acc, (2 * String.length s + 1 <= fuel)%nat ->
                    Json.parse_members fuel s acc <> Json.PFuel).
Proof.
  induction fuel as [|k (IHv & IHe & IHm)];
    [repeat split; intros; lia|].
  destruct (parse_consumes k) as (Cv & _ & _).
  split; [|split].
  - intros s Hf. cbn [Json.parse_value].
    pose proof (json_skip_ws_length s) as Hws.
    destruct (Json.skip_ws s) as [|c t]; [discriminate|]. simpl in Hws.
    pose proof (json_skip_ws_length t) as Hwt.
    destruct (Ascii.eqb c Str.lbrace).
    { destruct (Json.after Str.rbrace (Json.skip_ws t)); [discriminate|].
      apply IHm. lia. }
    destruct (Ascii.eqb c "[").
    { destruct (Json.after Str.rbracket (Json.skip_ws t)); [discriminate|].
      apply IHe. lia. }
    destruct (Ascii.eqb c Str.dquote).
    { destruct (Json.parse_string t) as [[? ?]|]; discriminate. }
    destruct (Ascii.eqb c "t").
    { destruct (Json.strip_prefix "rue" t); discriminate. }
    destruct (Ascii.eqb c "f").
    { destruct (Json.strip_prefix "alse" t); discriminate. }
    destruct (Ascii.eqb c "n").
    { destruct (Json.strip_prefix "ull" t); discriminate. }
    destruct (Json.parse_number (String c t)) as [[? ?]|]; discriminate.
  - intros s acc Hf. cbn [Json.parse_elements].
    destruct (Json.parse_value k s) as [x t| |] eqn:Ev.
    + apply Cv in Ev.
      destruct (Json.after Str.comma (Json.skip_ws t)) eqn:E1.
      * apply after_skip_ws_length in E1. apply IHe. lia.
      * destruct (Json.after Str.rbracket (Json.skip_ws t)); discriminate.
    + discriminate.
    + exfalso. revert Ev. apply IHv. lia.
  - intros s acc Hf. cbn [Json.parse_members].
    destruct (Json.after Str.dquote (Json.skip_ws s)) as [t|] eqn:E0;
      [|discriminate].
    apply after_skip_ws_length in E0.
    destruct (Json.parse_string t) as [[key t1]|] eqn:Es; [|discriminate].
    apply parse_string_length in Es.
    destruct (Json.after ":" (Json.skip_ws t1)) as [t2|] eqn:Ec;
      [|discriminate].
    apply after_skip_ws_length in Ec.
    destruct (Json.parse_value k t2) as [x t3| |] eqn:Ev.
    + apply Cv in Ev.
      destruct (Json.after Str.comma (Json.skip_ws t3)) eqn:E1.
      * apply after_skip_ws_length in E1. apply IHm. lia.
      * destruct (Json.after Str.rbrace (Json.skip_ws t3)); discriminate.
    + discriminate.
    + exfalso. revert Ev. apply IHv. lia.
Qed.

(** [JSON.parse] never runs out of fuel. *)
Lemma parse_value_fuel (text : string) :
  Json.parse_value (S (2 * String.length text)) text <> Json.PFuel.
Proof. apply parse_fuel_enough. lia. Qed.

Lemma drop_length (n : nat) (s : string) :
  String.length (Str.drop n s) = (String.length s - n)%nat.
Proof.
  revert s. induction n as [|n IH]; intros [|c s]; simpl; auto.
Qed.

Lemma ws_head_size (s : string) (n : nat) :
  Str.ws_head s = Some n -> (1 <= n <= String.length s)%nat.
Proof.
  unfold Str.ws_head. destruct s as [|a [|b [|c s]]]; simpl;
    repeat match goal with
           | |- context [if ?x then _ else _] => destruct x
           end;
    try discriminate; intros [= <-]; lia.
Qed.

(** With a fuel of the length [skip_ws] removes the whole run of white
    space: none is left at the head. *)
Lemma skip_ws_fuel_enough (fuel : nat) (s : string) :
  (String.length s <= fuel)%nat ->
  Str.ws_head (Str.skip_ws_fuel fuel s) = None
  /\ (String.length (Str.skip_ws_fuel fuel s) <= String.length s)%nat.
Proof.
  revert s. induction fuel as [|k IH]; intros s Hf.
  - destruct s; [split; [reflexivity | simpl; lia] | simpl in Hf; lia].
  - cbn [Str.skip_ws_fuel].
    destruct (Str.ws_head s) as [n|] eqn:E; [|split; [assumption | lia]].
    apply ws_head_size in E. pose proof (drop_length n s) as D.
    destruct (IH (Str.drop n s)) as [A B]; [lia|]. split; [assumption | lia].
Qed.

Lemma str_skip_ws_length (s : string) :
  (String.length (Str.skip_ws s) <= String.length s)%nat.
Proof. apply skip_ws_fuel_enough. lia. Qed.

(** More fuel than the length changes nothing in
    [removeTrailingCommas_fuel]. *)
Lemma removeTrailingCommas_fuel_enough (f1 : nat) :
  forall (f2 : nat) (s : string),
    (String.length s <= f1)%nat -> (String.length s <= f2)%nat ->
    removeTrailingCommas_fuel f1 s = removeTrailingCommas_fuel f2 s.
Proof.
  induction f1 as [|k IH]; intros f2 s H1 H2.
  - destruct s; [destruct f2; reflexivity | simpl in H1; lia].
  - destruct f2 as [|k2]; [destruct s; [reflexivity | simpl in H2; lia]|].
    destruct s as [|c r]; [reflexivity|]. simpl in H1, H2.
    cbn [removeTrailingCommas_fuel].
    pose proof (str_skip_ws_length r) as L.
    destruct (Ascii.eqb c Str.comma).
    + destruct (Str.skip_ws r) as [|b r']; [f_equal; apply IH; lia|].
      simpl in L.
      destruct (isClosing b); f_equal; apply IH; lia.
    + f_equal. apply IH; lia.
Qed.

(** ** Small facts used below *)

Lemma calculateNextDay_normal (s : string) :
  exists next, calculateNextDay s = Normal next.
Proof. unfold calculateNextDay. simpl try_catch. eauto. Qed.

Lemma nonempty_Some (s : string) :
  s <> "" -> JS.nonempty (Some s) = true.
Proof. destruct s; simpl; congruence. Qed.

Lemma nonempty_app (a b : string) : a <> "" -> a ++ b <> "".
Proof. destruct a; simpl; congruence. Qed.

Lemma length_pos_nonempty (s : string) :
  (0 < String.length s)%nat -> s <> "".
Proof. destruct s; simpl; [lia | congruence]. Qed.

(** ** The formatter, on any host *)

Section OnHost.

Variable h : Host.

Lemma truthy_JString (s : string) :
  s <> "" -> JS.truthy h (JString s) = true.
Proof. destruct s; simpl; congruence. Qed.

(** The formatter on an accepted string: the past-year step, then one of
    the two renderings. *)
Lemma formatDateTimeForGoogle_accepted (p : YearPolicy)
  (adj : bool) (s : string) (t : Z) :
  s <> "" -> Date.parse h s = Some t ->
  formatDateTimeForGoogle h p (JString s) adj
  = Normal (match adjustedDate h p adj t with
            | Some u => Some (render h s (Some u))
            | None => None
            end).
Proof.
  intros Hs Hp. unfold formatDateTimeForGoogle.
  rewrite truthy_JString by assumption. simpl negb. cbv iota.
  unfold Date.new. rewrite Hp. unfold adjustedDate, render.
  change (JS.ToString h (JString s)) with s.
  destruct (adj && isStale p (Date.getFullYear h (Some t))
                     (Date.getFullYear h (Some (now h)))).
  - destruct (Date.setFullYear h (Some t) (Date.getFullYear h (Some (now h))));
      [destruct (isAllDay s)|]; reflexivity.
  - destruct (isAllDay s); reflexivity.
Qed.

Lemma formatDateTimeForGoogle_rejected (p : YearPolicy)
  (adj : bool) (s : string) :
  Date.parse h s = None ->
  formatDateTimeForGoogle h p (JString s) adj = Normal None.
Proof.
  intros Hp. unfold formatDateTimeForGoogle.
  destruct (negb (JS.truthy h (JString s))); [reflexivity|].
  unfold Date.new. rewrite Hp. reflexivity.
Qed.

(** The formatter never throws, whatever value it is given. *)
Lemma formatDateTimeForGoogle_normal (p : YearPolicy)
  (v : JValue) (adj : bool) :
  exists r, formatDateTimeForGoogle h p v adj = Normal r.
Proof.
  unfold formatDateTimeForGoogle.
  destruct (negb (JS.truthy h v)); [eauto|].
  destruct (Date.new h v) as [t|]; [|simpl; eauto].
  destruct (adj && isStale p (Date.getFullYear h (Some t))
                     (Date.getFullYear h (Some (now h)))).
  - destruct (Date.setFullYear h (Some t) (Date.getFullYear h (Some (now h))));
      [destruct (isAllDay (JS.ToString h v))|]; simpl; eauto.
  - destruct (isAllDay (JS.ToString h v)); simpl; eauto.
Qed.

Lemma string_of_length_2 (s : string) :
  String.length s = 2%nat -> exists a b, s = String a (String b "").
Proof.
  destruct s as [|a [|b [|c s]]]; simpl; try discriminate. eauto.
Qed.

Lemma string_of_length_4 (s : string) :
  String.length s = 4%nat ->
  exists a b c d, s = String a (String b (String c (String d ""))).
Proof.
  destruct s as [|a [|b [|c [|d [|e s]]]]]; simpl; try discriminate.
  eauto 6.
Qed.

Lemma twoDigits_inv (s : string) :
  twoDigits s = true ->
  exists a b, s = String a (String b "")
              /\ Str.is_digit a = true /\ Str.is_digit b = true.
Proof.
  unfold twoDigits, allDigits. intros H.
  apply andb_true_iff in H as [L D]. apply Nat.eqb_eq in L.
  destruct (string_of_length_2 s L) as (a & b & ->).
  simpl in D. rewrite !andb_true_iff in D. exists a, b. tauto.
Qed.

Lemma fourDigits_inv (s : string) :
  fourDigits s = true ->
  exists a b c d, s = String a (String b (String c (String d "")))
    /\ Str.is_digit a = true /\ Str.is_digit b = true
    /\ Str.is_digit c = true /\ Str.is_digit d = true.
Proof.
  unfold fourDigits, allDigits. intros H.
  apply andb_true_iff in H as [L D]. apply Nat.eqb_eq in L.
  destruct (string_of_length_4 s L) as (a & b & c & d & ->).
  simpl in D. rewrite !andb_true_iff in D. exists a, b, c, d. tauto.
Qed.

(** With a four-digit local year the all-day text is eight digits. *)
Lemma formatAllDay_shape (u : Z) :
  1000 <= Cal.YearFromTime (Date.LocalTime h u) <= 9999 ->
  isAllDayShape (formatAllDay h (Some u)) = true.
Proof.
  intros Hy. unfold formatAllDay. cbn [Date.getFullYear Date.getMonth
    Date.getDate option_map Num.add].
  set (l := Date.LocalTime h u) in *.
  pose proof (MonthFromTime_range l). pose proof (DateFromTime_range l).
  destruct (fourDigits_inv _ (year_fourDigits _ Hy))
    as (y1 & y2 & y3 & y4 & -> & ? & ? & ? & ?).
  destruct (twoDigits_inv _ (pad2_twoDigits (Cal.MonthFromTime l + 1)
                               ltac:(lia)))
    as (m1 & m2 & -> & ? & ?).
  destruct (twoDigits_inv _ (pad2_twoDigits (Cal.DateFromTime l)
                               ltac:(lia)))
    as (d1 & d2 & -> & ? & ?).
  unfold isAllDayShape, allDigits. simpl.
  repeat match goal with H : Str.is_digit _ = true |- _ => rewrite H; clear H end.
  reflexivity.
Qed.

(** With a four-digit UTC year the timed text is eight digits, [T], six
    digits, [Z]. *)
Lemma formatTimed_shape (u : Z) :
  1000 <= Cal.YearFromTime u <= 9999 ->
  isTimedShape (formatTimed (Some u)) = true.
Proof.
  intros Hy. unfold formatTimed. cbn [Date.getUTCFullYear Date.getUTCMonth
    Date.getUTCDate Date.getUTCHours Date.getUTCMinutes Date.getUTCSeconds
    option_map Num.add].
  pose proof (MonthFromTime_range u). pose proof (DateFromTime_range u).
  pose proof (HourFromTime_range u). pose proof (MinFromTime_range u).
  pose proof (SecFromTime_range u).
  destruct (fourDigits_inv _ (year_fourDigits _ Hy))
    as (y1 & y2 & y3 & y4 & -> & ? & ? & ? & ?).
  destruct (twoDigits_inv _ (pad2_twoDigits (Cal.MonthFromTime u + 1)
                               ltac:(lia)))
    as (m1 & m2 & -> & ? & ?).
  destruct (twoDigits_inv _ (pad2_twoDigits (Cal.DateFromTime u) ltac:(lia)))
    as (d1 & d2 & -> & ? & ?).
  destruct (twoDigits_inv _ (pad2_twoDigits (Cal.HourFromTime u) ltac:(lia)))
    as (h1 & h2 & -> & ? & ?).
  destruct (twoDigits_inv _ (pad2_twoDigits (Cal.MinFromTime u) ltac:(lia)))
    as (n1 & n2 & -> & ? & ?).
  destruct (twoDigits_inv _ (pad2_twoDigits (Cal.SecFromTime u) ltac:(lia)))
    as (s1 & s2 & -> & ? & ?).
  unfold isTimedShape, allDigits, Str.substring. simpl.
  repeat match goal with H : Str.is_digit _ = true |- _ => rewrite H; clear H end.
  reflexivity.
Qed.

(** ** The past-year step *)

Lemma LocalTime_UTC (t : Z) : Date.LocalTime h (Date.UTC h t) = t.
Proof. unfold Date.LocalTime, Date.UTC. lia. Qed.

Lemma TimeClip_Some (t u : Z) : Cal.TimeClip t = Some u -> u = t.
Proof.
  unfold Cal.TimeClip. destruct (Z.abs t <=? Cal.maxTime); congruence.
Qed.

Lemma TimeWithinDay_MakeDate (day time : Z) :
  0 <= time < Cal.msPerDay ->
  Cal.TimeWithinDay (Cal.MakeDate day time) = time.
Proof.
  intros H. unfold Cal.TimeWithinDay, Cal.MakeDate, Cal.msPerDay in *.
  Z.div_mod_to_equations. lia.
Qed.

(** [setFullYear(y)] on a valid date leaves a date of local year [y] at
    the same local time of day, or an invalid date. *)
Lemma setFullYear_year (t y u : Z) :
  Date.setFullYear h (Some t) (Some y) = Some u ->
  Cal.YearFromTime (Date.LocalTime h u) = y
  /\ Cal.TimeWithinDay (Date.LocalTime h u)
     = Cal.TimeWithinDay (Date.LocalTime h t).
Proof.
  unfold Date.setFullYear. intros H. apply TimeClip_Some in H. subst u.
  rewrite LocalTime_UTC.
  pose proof (TimeWithinDay_range (Date.LocalTime h t)).
  split.
  - apply YearFromTime_MakeDay;
      [apply MonthFromTime_range | apply DateFromTime_range | assumption].
  - apply TimeWithinDay_MakeDate. assumption.
Qed.

Lemma adjustedDate_off (p : YearPolicy) (t : Z) :
  adjustedDate h p false t = Some t.
Proof. reflexivity. Qed.

Lemma adjustedDate_on (p : YearPolicy) (t : Z) :
  adjustedDate h p true t
  = if isStale p (Some (Cal.YearFromTime (Date.LocalTime h t)))
                 (Some (Cal.YearFromTime (Date.LocalTime h (now h))))
    then Date.setFullYear h (Some t)
           (Some (Cal.YearFromTime (Date.LocalTime h (now h))))
    else Some t.
Proof. reflexivity. Qed.

(** ** The two renderings of a formatted date *)

(** On a non-empty string that the date parser accepts, the formatter
    returns [null] when the past-year step leaves an invalid date and
    otherwise one of two renderings, chosen by the lexical form of the
    input alone: the local fields for an input matching
    [^\d{4}-\d{2}-\d{2}$], the UTC fields for any other.  With a
    four-digit year the first is eight digits and the second sixteen
    characters. *)
Lemma formatDateTimeForGoogle_shape (p : YearPolicy)
  (adjustPastYears : bool) (s : string) (t : Z) :
  s <> "" ->
  Date.parse h s = Some t ->
  formatDateTimeForGoogle h p (JString s) adjustPastYears
  = Normal
      (match adjustedDate h p adjustPastYears t with
       | Some u =>
           Some (if isAllDay s then formatAllDay h (Some u)
                 else formatTimed (Some u))
       | None => None
       end)
  /\ (forall u,
        adjustedDate h p adjustPastYears t = Some u ->
        (1000 <= Cal.YearFromTime (Date.LocalTime h u) <= 9999 ->
         isAllDayShape (formatAllDay h (Some u)) = true)
        /\ (1000 <= Cal.YearFromTime u <= 9999 ->
            isTimedShape (formatTimed (Some u)) = true)).
Proof.
  intros Hs Hp. split.
  - rewrite (formatDateTimeForGoogle_accepted p adjustPastYears s t Hs Hp).
    reflexivity.
  - intros u _. split.
    + apply formatAllDay_shape.
    + apply formatTimed_shape.
Qed.

(** ** C3: the past-year adjustment *)

(** C3.  On a non-empty string that parses, with [adjustPastYears] set:
    under the threshold of [src/utils.ts] a parsed local year below the
    current year has the formatter print the date that
    [setFullYear(currentYear)] leaves (whose local year is the current
    year), and a year not below it is printed as parsed; under the
    threshold of the later background script the same holds with
    [currentYear - 1] in place of [currentYear].  With [adjustPastYears]
    unset the parsed date is printed as it is, under either threshold. *)
Theorem formatDateTimeForGoogle_adjusts_past_years (s : string)
  (t : Z) :
  s <> "" ->
  Date.parse h s = Some t ->
  let inputYear := Cal.YearFromTime (Date.LocalTime h t) in
  let currentYear := Cal.YearFromTime (Date.LocalTime h (now h)) in
  let adjusted := Date.setFullYear h (Some t) (Some currentYear) in
  let printed (date : option Z) :=
    Normal (match date with
            | Some u => Some (render h s (Some u))
            | None => None
            end) in
  (forall u, adjusted = Some u ->
             Cal.YearFromTime (Date.LocalTime h u) = currentYear)
  /\ (inputYear < currentYear ->
      formatDateTimeForGoogle h AnyPastYear (JString s) true
      = printed adjusted)
  /\ (currentYear <= inputYear ->
      formatDateTimeForGoogle h AnyPastYear (JString s) true
      = printed (Some t))
  /\ (inputYear < currentYear - 1 ->
      formatDateTimeForGoogle h OlderThanOneYear (JString s) true
      = printed adjusted)
  /\ (currentYear - 1 <= inputYear ->
      formatDateTimeForGoogle h OlderThanOneYear (JString s) true
      = printed (Some t))
  /\ (forall p,
        formatDateTimeForGoogle h p (JString s) false = printed (Some t)).
Proof.
  intros Hs Hp inputYear currentYear adjusted printed.
  assert (F : forall p adj,
             formatDateTimeForGoogle h p (JString s) adj
             = printed (adjustedDate h p adj t)).
  { intros p adj. apply formatDateTimeForGoogle_accepted; assumption. }
  split; [|split; [|split; [|split; [|split]]]].
  - intros u Hu. apply (setFullYear_year t currentYear u Hu).
  - intros Hlt. rewrite F, adjustedDate_on. cbn [isStale Num.lt].
    fold inputYear currentYear.
    destruct (Z.ltb_spec inputYear currentYear); [reflexivity | lia].
  - intros Hge. rewrite F, adjustedDate_on. cbn [isStale Num.lt].
    fold inputYear currentYear.
    destruct (Z.ltb_spec inputYear currentYear); [lia | reflexivity].
  - intros Hlt. rewrite F, adjustedDate_on. cbn [isStale Num.lt Num.sub].
    fold inputYear currentYear.
    destruct (Z.ltb_spec inputYear (currentYear - 1)); [reflexivity | lia].
  - intros Hge. rewrite F, adjustedDate_on. cbn [isStale Num.lt Num.sub].
    fold inputYear currentYear.
    destruct (Z.ltb_spec inputYear (currentYear - 1)); [lia | reflexivity].
  - intros p. rewrite F, adjustedDate_off. reflexivity.
Qed.

Lemma formatAllDay_nonempty (d : option Z) :
  formatAllDay h d <> "".
Proof.
  apply length_pos_nonempty. unfold formatAllDay. rewrite !string_length_app.
  pose proof (pad2_length_ge (Date.getDate h d)). lia.
Qed.

Lemma formatTimed_nonempty (d : option Z) : formatTimed d <> "".
Proof.
  apply length_pos_nonempty. unfold formatTimed. rewrite !string_length_app.
  pose proof (pad2_length_ge (Date.getUTCDate d)). lia.
Qed.

(** A formatted date is never the empty string. *)
Lemma formatDateTimeForGoogle_nonempty (p : YearPolicy)
  (v : JValue) (adj : bool) (r : string) :
  formatDateTimeForGoogle h p v adj = Normal (Some r) -> r <> "".
Proof.
  unfold formatDateTimeForGoogle.
  destruct (negb (JS.truthy h v)); [discriminate|].
  destruct (Date.new h v) as [t|]; [|discriminate].
  destruct (adj && isStale p (Date.getFullYear h (Some t))
                     (Date.getFullYear h (Some (now h)))).
  - destruct (Date.setFullYear h (Some t) (Date.getFullYear h (Some (now h))));
      [|discriminate].
    destruct (isAllDay (JS.ToString h v)); simpl; intros [= <-];
      [apply formatAllDay_nonempty | apply formatTimed_nonempty].
  - destruct (isAllDay (JS.ToString h v)); simpl; intros [= <-];
      [apply formatAllDay_nonempty | apply formatTimed_nonempty].
Qed.

End OnHost.

(** An example: a timed input, five hours west of Greenwich, with a stale
    year. *)
Lemma formatDateTimeForGoogle_shape_example :
  ("2024-12-05T15:00:00" <> ""
   /\ Date.parse westHost "2024-12-05T15:00:00" = Some 1733428800000)
  /\ formatDateTimeForGoogle westHost AnyPastYear
       (JString "2024-12-05T15:00:00") true
     = Normal (Some "20261205T200000Z")
  /\ isTimedShape "20261205T200000Z" = true.
Proof.
  assert (Hs : "2024-12-05T15:00:00" <> "") by discriminate.
  assert (Hp : Date.parse westHost "2024-12-05T15:00:00"
               = Some 1733428800000) by (vm_compute; reflexivity).
  destruct (formatDateTimeForGoogle_shape westHost AnyPastYear true
              "2024-12-05T15:00:00" 1733428800000 Hs Hp) as [E S].
  split; [split; assumption|]. split.
  - rewrite E. vm_compute. reflexivity.
  - apply (S 1796500800000); [vm_compute; reflexivity | vm_compute; intuition discriminate].
Defined.

(** ** C1: the shape of a formatted date *)

(** C1.  The rendering is chosen by the lexical form of the input alone
    and, when the year has four digits, it is the eight-digit [YYYYMMDD]
    or the sixteen-character [YYYYMMDDTHHmmssZ].  The year, unlike the
    month and the day, is printed without padding, so outside four-digit
    years the result has neither shape: the accepted all-day input
    [0999-01-01], with the adjustment off, gives the seven characters
    [9990101], and the accepted timed input [+010000-01-01T00:00:00]
    gives seventeen characters. *)
Theorem formatDateTimeForGoogle_year_not_padded :
  (forall h p adjustPastYears s t,
      s <> "" ->
      Date.parse h s = Some t ->
      formatDateTimeForGoogle h p (JString s) adjustPastYears
      = Normal
          (match adjustedDate h p adjustPastYears t with
           | Some u =>
               Some (if isAllDay s then formatAllDay h (Some u)
                     else formatTimed (Some u))
           | None => None
           end)
      /\ (forall u,
            adjustedDate h p adjustPastYears t = Some u ->
            (1000 <= Cal.YearFromTime (Date.LocalTime h u) <= 9999 ->
             isAllDayShape (formatAllDay h (Some u)) = true)
            /\ (1000 <= Cal.YearFromTime u <= 9999 ->
                isTimedShape (formatTimed (Some u)) = true)))
  /\ Date.parse utcHost "0999-01-01" = Some (-30641760000000)
  /\ isAllDay "0999-01-01" = true
  /\ formatDateTimeForGoogle utcHost AnyPastYear (JString "0999-01-01") false
     = Normal (Some "9990101")
  /\ isAllDayShape "9990101" = false
  /\ isTimedShape "9990101" = false
  /\ isAllDay "+010000-01-01T00:00:00" = false
  /\ formatDateTimeForGoogle utcHost AnyPastYear
       (JString "+010000-01-01T00:00:00") true
     = Normal (Some "100000101T000000Z")
  /\ isTimedShape "100000101T000000Z" = false.
Proof.
  split.
  - intros h p adjustPastYears s t Hs Hp.
    apply formatDateTimeForGoogle_shape; assumption.
  - vm_compute. repeat split; reflexivity.
Qed.

Lemma formatDateTimeForGoogle_adjusts_past_years_witness :
  ("2025-03-30T12:15:00" <> ""
   /\ Date.parse utcHost "2025-03-30T12:15:00" = Some 1743336900000)
  /\ formatDateTimeForGoogle utcHost AnyPastYear
       (JString "2025-03-30T12:15:00") true
     = Normal (Some "20260330T121500Z")
  /\ formatDateTimeForGoogle utcHost OlderThanOneYear
       (JString "2025-03-30T12:15:00") true
     = Normal (Some "20250330T121500Z")
  /\ formatDateTimeForGoogle utcHost AnyPastYear
       (JString "2025-03-30T12:15:00") false
     = Normal (Some "20250330T121500Z").
Proof.
  assert (Hs : "2025-03-30T12:15:00" <> "") by discriminate.
  assert (Hp : Date.parse utcHost "2025-03-30T12:15:00"
               = Some 1743336900000) by (vm_compute; reflexivity).
  destruct (formatDateTimeForGoogle_adjusts_past_years utcHost
              "2025-03-30T12:15:00" 1743336900000 Hs Hp)
    as (_ & A & _ & _ & B & C).
  split; [split; assumption|]. split; [|split].
  - rewrite A; vm_compute; [reflexivity | reflexivity].
  - rewrite B; vm_compute; [reflexivity | discriminate].
  - rewrite C. vm_compute. reflexivity.
Defined.

(** ** C10: independence of the clock *)

(** C10.  With [adjustPastYears] unset the formatter does not consult the
    clock: two hosts with the same local offset that parse the input
    alike, whatever their current times are, format it to the same
    result. *)
Theorem formatDateTimeForGoogle_clock_independent (h1 h2 : Host)
  (p : YearPolicy) (s : string) :
  tza h1 = tza h2 ->
  legacyParse h1 s = legacyParse h2 s ->
  formatDateTimeForGoogle h1 p (JString s) false
  = formatDateTimeForGoogle h2 p (JString s) false.
Proof.
  intros Hz Hl.
  assert (Hp : Date.parse h1 s = Date.parse h2 s).
  { unfold Date.parse, Date.UTC. rewrite Hz, Hl. reflexivity. }
  destruct s as [|c s]; [reflexivity|].
  destruct (Date.parse h2 (String c s)) as [t|] eqn:E.
  - rewrite (formatDateTimeForGoogle_accepted h1 p false (String c s) t)
      by (discriminate || assumption).
    rewrite (formatDateTimeForGoogle_accepted h2 p false (String c s) t)
      by (discriminate || assumption).
    rewrite !adjustedDate_off. unfold render, formatAllDay, Date.getFullYear,
      Date.getMonth, Date.getDate, Date.LocalTime.
    rewrite Hz. reflexivity.
  - rewrite !formatDateTimeForGoogle_rejected by assumption. reflexivity.
Qed.

Lemma formatDateTimeForGoogle_clock_independent_witness :
  formatDateTimeForGoogle westHost AnyPastYear
    (JString "2024-12-05T15:00:00") false
  = formatDateTimeForGoogle (set_now westHost 0) AnyPastYear
      (JString "2024-12-05T15:00:00") false.
Proof.
  apply (formatDateTimeForGoogle_clock_independent westHost
           (set_now westHost 0) AnyPastYear "2024-12-05T15:00:00");
    reflexivity.
Defined.

(** ** The link builders *)

Lemma get_set_same (name value : string) (l : URL.params) :
  URL.get name (URL.set name value l) = Some value.
Proof.
  induction l as [|[k v] l IH]; simpl.
  - now rewrite String.eqb_refl.
  - destruct (String.eqb k name) eqn:E; simpl; now rewrite E.
Qed.

Lemma get_filter_other (name other : string) (l : URL.params) :
  name <> other ->
  URL.get name
    (List.filter (fun kv => negb (String.eqb (fst kv) other)) l)
  = URL.get name l.
Proof.
  intros N. induction l as [|[k v] l IH]; simpl; [reflexivity|].
  destruct (String.eqb_spec k other) as [->|]; simpl.
  - destruct (String.eqb_spec other name); [congruence | assumption].
  - now rewrite IH.
Qed.

Lemma get_set_other (name other value : string) (l : URL.params) :
  name <> other ->
  URL.get name (URL.set other value l) = URL.get name l.
Proof.
  intros N. induction l as [|[k v] l IH]; simpl.
  - destruct (String.eqb_spec other name); congruence.
  - destruct (String.eqb_spec k other) as [->|]; simpl.
    + destruct (String.eqb_spec other name); [congruence|].
      now apply get_filter_other.
    + now rewrite IH.
Qed.



Ltac url_get :=
  repeat first [ rewrite get_set_same
               | rewrite get_set_other by discriminate ].



(** ** C5: the start date is the only hard failure *)

(** The guard on the argument: [null] in place of an event gives
    [null]. *)
Lemma createGoogleCalendarLink_null (h : Host) (info : string) :
  createGoogleCalendarLink_Testable h JNull info = Normal None.
Proof. reflexivity. Qed.



(** ** C8: the location parameter *)





(** ** C2: an all-day date mixed with a timed one *)

(** C2, as amended.  For a non-empty formatted start and end of which
    exactly one has the eight-character all-day shape:
    [createGoogleCalendarLink_Testable] uses the formatted end directly,
    giving [start/end], in both mixes; the [extractDate] pipeline does so
    for a timed start with an all-day end, and for an all-day start with a
    timed end it drops the end and gives [start/nextDay(start)]. *)
Theorem mixed_date_range (start fin : string) :
  start <> "" ->
  fin <> "" ->
  hasLength8 start <> hasLength8 fin ->
  dateParamValue_Testable (Some start) (Some fin)
  = Normal (Some (start ++ "/" ++ fin))
  /\ (hasLength8 start = false ->
      dateParamValue_extractDate start (Some fin)
      = Normal (start ++ "/" ++ fin))
  /\ (hasLength8 start = true ->
      exists next,
        calculateNextDay start = Normal next
        /\ dateParamValue_extractDate start (Some fin)
           = Normal (start ++ "/" ++ next)).
Proof.
  intros Hs Hf Hmix.
  unfold dateParamValue_Testable, dateParamValue_extractDate.
  rewrite !nonempty_Some by assumption.
  destruct (calculateNextDay_normal start) as [next En].
  destruct (hasLength8 start), (hasLength8 fin); try congruence;
    cbn [andb negb].
  - split; [reflexivity|]. split; [discriminate|].
    intros _. exists next. split; [assumption|]. rewrite En. reflexivity.
  - split; [reflexivity|]. split; [reflexivity | discriminate].
Qed.

Lemma mixed_date_range_witness :
  dateParamValue_Testable (Some "20261225") (Some "20261225T180000Z")
  = Normal (Some "20261225/20261225T180000Z")
  /\ dateParamValue_Testable (Some "20261225T180000Z") (Some "20261226")
     = Normal (Some "20261225T180000Z/20261226")
  /\ dateParamValue_extractDate "20261225T180000Z" (Some "20261226")
     = Normal "20261225T180000Z/20261226".
Proof.
  split; [|split].
  - apply (mixed_date_range "20261225" "20261225T180000Z");
      vm_compute; discriminate.
  - apply (mixed_date_range "20261225T180000Z" "20261226");
      vm_compute; discriminate.
  - apply (mixed_date_range "20261225T180000Z" "20261226");
      vm_compute; try discriminate; reflexivity.
Defined.

(** C2 as stated fails in the [extractDate] pipeline: with an all-day
    start and a timed end the range ends at the day after the start; the
    formatted end does not appear in the link. *)
Lemma mixed_date_range_counterexample :
  formatDateTimeForGoogle utcHost AnyPastYear (JString "2026-12-25") true
  = Normal (Some "20261225")
  /\ formatDateTimeForGoogle utcHost AnyPastYear
       (JString "2026-12-25T18:00:00") true
     = Normal (Some "20261225T180000Z")
  /\ dateParamValue_extractDate "20261225" (Some "20261225T180000Z")
     = Normal "20261225/20261226"
  /\ extractDate_done utcHost
       "{'title': 'Dinner', 'startDate': '2026-12-25', 'endDate': '2026-12-25T18:00:00'}"
       ""
     = Normal (OpenNewWindow
      "https://www.google.com/calendar/event?action=TEMPLATE&text=Dinner&dates=20261225%2F20261226").
Proof. vm_compute. repeat split; reflexivity. Qed.

(** ** C4: the empty object *)

(** C4, as amended.  The extractor returns the empty object for [{}], a
    value distinct from the [null] of a failure; the [done] handler of
    [extractDate] then stores the same error, that the response could not
    be understood, for an empty object as for a failed extraction. *)
Theorem empty_object_outcome (h : Host) (raw info : string) :
  extractAndParseJSONFromString "{}" = Normal (JObject [])
  /\ JObject [] <> JNull
  /\ (extractAndParseJSONFromString raw = Normal (JObject [])
      \/ extractAndParseJSONFromString raw = Normal JNull ->
      extractDate_done h raw info
      = Normal (ProcessingError msgNotUnderstood)).
Proof.
  split; [vm_compute; reflexivity|]. split; [discriminate|].
  unfold extractDate_done. intros [-> | ->]; reflexivity.
Qed.

Lemma empty_object_outcome_witness :
  extractDate_done utcHost "Here you go: {}" "Lunch on Friday"
  = Normal (ProcessingError msgNotUnderstood).
Proof.
  apply (proj2 (proj2 (empty_object_outcome utcHost "Here you go: {}"
                         "Lunch on Friday"))).
  left. vm_compute. reflexivity.
Defined.

(** C4 as stated fails: the pipeline gives the empty object and a parse
    failure one and the same outcome. *)
Lemma empty_object_outcome_counterexample :
  extractAndParseJSONFromString "{}" = Normal (JObject [])
  /\ extractAndParseJSONFromString "{oops}" = Normal JNull
  /\ extractDate_done utcHost "{}" "Lunch on Friday"
     = extractDate_done utcHost "{oops}" "Lunch on Friday"
  /\ extractDate_done utcHost "{}" "Lunch on Friday"
     = Normal (ProcessingError
         "Could not understand the response from AI. Please try again or rephrase.").
Proof. vm_compute. repeat split; reflexivity. Qed.

(** ** C7: the next-day helper *)

Lemma monthStart_next (m leap y : Z) :
  0 <= m <= 10 -> leap = (if Cal.isLeap y then 1 else 0) ->
  Cal.monthStart (m + 1) leap = Cal.monthStart m leap + daysInMonth y (m + 1).
Proof.
  intros Hm ->. unfold daysInMonth.
  assert (C : m = 0 \/ m = 1 \/ m = 2 \/ m = 3 \/ m = 4 \/ m = 5 \/ m = 6
              \/ m = 7 \/ m = 8 \/ m = 9 \/ m = 10) by lia.
  destruct (Cal.isLeap y);
    repeat (destruct C as [-> | C]; [reflexivity|]); subst m; reflexivity.
Qed.

Lemma monthStart_december (y : Z) :
  Cal.monthStart 11 (if Cal.isLeap y then 1 else 0) + daysInMonth y 12
  = Cal.DaysInYear y.
Proof. unfold Cal.DaysInYear. destruct (Cal.isLeap y); reflexivity. Qed.

Lemma monthStart_bound (y m d : Z) :
  0 <= m <= 11 -> 1 <= d <= daysInMonth y (m + 1) ->
  let leap := if Cal.isLeap y then 1 else 0 in
  Cal.monthStart m leap + d - 1 < Cal.DaysInYear y
  /\ Cal.monthOfYearDay (Cal.monthStart m leap + d - 1) leap = m.
Proof.
  intros Hm Hd leap. subst leap. unfold daysInMonth, Cal.DaysInYear in *.
  assert (C : m = 0 \/ m = 1 \/ m = 2 \/ m = 3 \/ m = 4 \/ m = 5 \/ m = 6
              \/ m = 7 \/ m = 8 \/ m = 9 \/ m = 10 \/ m = 11) by lia.
  destruct (Cal.isLeap y);
    repeat (destruct C as [-> | C];
            [cbv beta iota delta [Cal.monthStart Z.eqb Pos.eqb] in *;
             simpl in Hd; unfold Cal.monthOfYearDay;
             repeat match goal with
                    | |- context [?a <? ?b] => destruct (Z.ltb_spec a b)
                    end; lia|]);
    subst m; cbv beta iota delta [Cal.monthStart Z.eqb Pos.eqb] in *;
    simpl in Hd; unfold Cal.monthOfYearDay;
    repeat match goal with
           | |- context [?a <? ?b] => destruct (Z.ltb_spec a b)
           end; lia.
Qed.

(** The calendar fields of midnight of [MakeDay y m d] for a day of the
    month that exists. *)
Lemma fields_of_MakeDay (y m d : Z) :
  0 <= m <= 11 -> 1 <= d <= daysInMonth y (m + 1) ->
  let t := Cal.MakeDate (Cal.MakeDay y m d) 0 in
  Cal.YearFromTime t = y /\ Cal.MonthFromTime t = m
  /\ Cal.DateFromTime t = d /\ Cal.TimeWithinDay t = 0.
Proof.
  intros Hm Hd t.
  destruct (monthStart_bound y m d Hm Hd) as [B M].
  assert (Hday : Cal.Day t = Cal.MakeDay y m d)
    by (apply Day_MakeDate; unfold Cal.msPerDay; lia).
  assert (Hmk : Cal.MakeDay y m d
                = Cal.DayFromYear y
                  + Cal.monthStart m (if Cal.isLeap y then 1 else 0) + d - 1).
  { unfold Cal.MakeDay.
    replace (m / 12) with 0 by (Z.div_mod_to_equations; lia).
    replace (m mod 12) with m by (Z.div_mod_to_equations; lia).
    now rewrite Z.add_0_r. }
  assert (Hy : Cal.YearFromTime t = y).
  { unfold Cal.YearFromTime. rewrite Hday. apply YearFromDay_unique.
    rewrite DayFromYear_step, Hmk.
    destruct (monthStart_range m (if Cal.isLeap y then 1 else 0) Hm
                ltac:(destruct (Cal.isLeap y); lia)) as [[? ?] _].
    lia. }
  assert (Hw : Cal.DayWithinYear t
               = Cal.monthStart m (if Cal.isLeap y then 1 else 0) + d - 1).
  { unfold Cal.DayWithinYear. rewrite Hy, Hday, Hmk. lia. }
  assert (Hl : Cal.InLeapYear t = if Cal.isLeap y then 1 else 0).
  { unfold Cal.InLeapYear. now rewrite Hy. }
  assert (Hmo : Cal.MonthFromTime t = m).
  { unfold Cal.MonthFromTime. now rewrite Hw, Hl. }
  split; [assumption|]. split; [assumption|]. split.
  - unfold Cal.DateFromTime. rewrite Hmo, Hw, Hl. lia.
  - apply TimeWithinDay_MakeDate. unfold Cal.msPerDay. lia.
Qed.

(** One day more than [y]-[m]-[d] is the first instant of the next
    calendar day. *)
Lemma MakeDay_next (y m d : Z) :
  validDate y m d ->
  let '(y', m', d') := nextCivil y m d in
  Cal.MakeDay y (m - 1) (d + 1) = Cal.MakeDay y' (m' - 1) d'
  /\ validDate y' m' d'.
Proof.
  intros [Hm Hd]. unfold nextCivil.
  destruct (Z.ltb_spec d (daysInMonth y m)).
  - split; [reflexivity|]. split; lia.
  - assert (d = daysInMonth y m) by lia. subst d.
    assert (U : forall mi, 0 <= mi <= 11 -> forall x yy,
               Cal.MakeDay yy mi x
               = Cal.DayFromYear yy
                 + Cal.monthStart mi (if Cal.isLeap yy then 1 else 0)
                 + x - 1).
    { intros mi Hmi x yy. unfold Cal.MakeDay.
      replace (mi / 12) with 0 by (Z.div_mod_to_equations; lia).
      replace (mi mod 12) with mi by (Z.div_mod_to_equations; lia).
      now rewrite Z.add_0_r. }
    destruct (Z.ltb_spec m 12).
    + split.
      * rewrite !U by lia.
        replace (m + 1 - 1) with (m - 1 + 1) by lia.
        rewrite (monthStart_next (m - 1) _ y) by (lia || reflexivity).
        replace (m - 1 + 1) with m by lia. lia.
      * split; [lia|]. unfold daysInMonth.
        destruct (m + 1 =? 2); [destruct (Cal.isLeap y); lia|].
        destruct ((m + 1 =? 4) || (m + 1 =? 6) || (m + 1 =? 9)
                  || (m + 1 =? 11)); lia.
    + assert (m = 12) by lia. subst m. split.
      * rewrite !U by lia. rewrite DayFromYear_step.
        pose proof (monthStart_december y).
        change (12 - 1) with 11. change (1 - 1) with 0.
        change (Cal.monthStart 0 (if Cal.isLeap (y + 1) then 1 else 0))
          with 0.
        lia.
      * split; [lia|]. unfold daysInMonth. simpl. lia.
Qed.

Lemma TimeClip_in_range (t : Z) :
  Z.abs t <= Cal.maxTime -> Cal.TimeClip t = Some t.
Proof.
  intros H. unfold Cal.TimeClip.
  destruct (Z.leb_spec (Z.abs t) Cal.maxTime); [reflexivity | lia].
Qed.

Lemma MakeDay_in_range (y m d : Z) :
  1000 <= y <= 10000 -> 0 <= m <= 11 -> 1 <= d <= 31 ->
  Z.abs (Cal.MakeDate (Cal.MakeDay y m d) 0) <= Cal.maxTime.
Proof.
  intros Hy Hm Hd. unfold Cal.MakeDate, Cal.MakeDay, Cal.msPerDay, Cal.maxTime.
  replace (m / 12) with 0 by (Z.div_mod_to_equations; lia).
  replace (m mod 12) with m by (Z.div_mod_to_equations; lia).
  rewrite !Z.add_0_r.
  destruct (monthStart_range m (if Cal.isLeap y then 1 else 0) Hm
              ltac:(destruct (Cal.isLeap y); lia)) as [[? ?] _].
  pose proof (DayFromYear_lower y). pose proof (DayFromYear_upper y).
  destruct (Cal.isLeap y); lia.
Qed.

Lemma parseInt_year (y : Z) :
  1000 <= y <= 9999 -> Num.parseInt (Num.toString (Some y)) = Some y.
Proof.
  intros H.
  pose proof (range_check (parsesBack (fun n => Num.toString (Some n)))
                1000 9000 ltac:(vm_compute; reflexivity) y ltac:(lia)) as P.
  unfold parsesBack in P.
  destruct (Num.parseInt (Num.toString (Some y))); [|discriminate].
  apply Z.eqb_eq in P. now subst.
Qed.

Lemma parseInt_pad2 (n : Z) :
  0 <= n <= 99 -> Num.parseInt (pad2 (Some n)) = Some n.
Proof.
  intros H.
  pose proof (range_check (parsesBack (fun n => pad2 (Some n)))
                0 100 ltac:(vm_compute; reflexivity) n ltac:(lia)) as P.
  unfold parsesBack in P.
  destruct (Num.parseInt (pad2 (Some n))); [|discriminate].
  apply Z.eqb_eq in P. now subst.
Qed.

Lemma daysInMonth_range (y m : Z) : 28 <= daysInMonth y m <= 31.
Proof.
  unfold daysInMonth. destruct (m =? 2); [destruct (Cal.isLeap y); lia|].
  destruct ((m =? 4) || (m =? 6) || (m =? 9) || (m =? 11)); lia.
Qed.

(** The three fields that [calculateNextDay] cuts out of an eight-digit
    text. *)
Lemma dateText_fields (y m d : Z) :
  1000 <= y <= 9999 -> 0 <= m <= 99 -> 0 <= d <= 99 ->
  Str.substring 0 4 (dateText y m d) = Num.toString (Some y)
  /\ Str.substring 4 6 (dateText y m d) = pad2 (Some m)
  /\ Str.substring 6 8 (dateText y m d) = pad2 (Some d).
Proof.
  intros Hy Hm Hd. unfold dateText.
  destruct (fourDigits_inv _ (year_fourDigits y Hy))
    as (a & b & c & e & -> & _).
  destruct (twoDigits_inv _ (pad2_twoDigits m Hm)) as (m1 & m2 & -> & _).
  destruct (twoDigits_inv _ (pad2_twoDigits d Hd)) as (d1 & d2 & -> & _).
  repeat split.
Qed.

(** For a calendar date of a year from 1000 to 9999, written as eight
    digits, [calculateNextDay] returns the text of the following calendar
    day, across month and year ends. *)
Lemma calculateNextDay_well_formed (y m d : Z) :
  1000 <= y <= 9999 -> validDate y m d ->
  let '(y', m', d') := nextCivil y m d in
  calculateNextDay (dateText y m d) = Normal (dateText y' m' d').
Proof.
  intros Hy Hv. pose proof Hv as [Hm Hd].
  pose proof (daysInMonth_range y m).
  pose proof (MakeDay_next y m d Hv) as N.
  assert (Hyn : 1000 <= fst (fst (nextCivil y m d)) <= 10000).
  { unfold nextCivil. destruct (d <? daysInMonth y m); [simpl; lia|].
    destruct (m <? 12); simpl; lia. }
  destruct (nextCivil y m d) as [[y' m'] d']. destruct N as [N [Hm' Hd']].
  simpl in Hyn. pose proof (daysInMonth_range y' m').
  unfold calculateNextDay. cbn [try_catch]. f_equal.
  destruct (dateText_fields y m d Hy ltac:(lia) ltac:(lia)) as (-> & -> & ->).
  rewrite parseInt_year, !parseInt_pad2 by lia.
  cbn [Num.sub]. unfold Date.Date_UTC.
  replace ((0 <=? y) && (y <=? 99)) with false
    by (symmetry; apply andb_false_iff; right; apply Z.leb_gt; lia).
  change (Cal.MakeTime 0 0 0 0) with 0.
  rewrite TimeClip_in_range by (apply MakeDay_in_range; lia).
  destruct (fields_of_MakeDay y (m - 1) d ltac:(lia)
              ltac:(replace (m - 1 + 1) with m by lia; lia))
    as (Fy & Fm & Fd & Ft).
  cbn [Date.getUTCDate option_map Num.add Date.setUTCDate].
  rewrite Fy, Fm, Fd, Ft, N.
  rewrite TimeClip_in_range by (apply MakeDay_in_range; lia).
  destruct (fields_of_MakeDay y' (m' - 1) d' ltac:(lia)
              ltac:(replace (m' - 1 + 1) with m' by lia; lia))
    as (Gy & Gm & Gd & _).
  cbn [Date.getUTCFullYear Date.getUTCMonth Date.getUTCDate option_map Num.add].
  rewrite Gy, Gm, Gd. unfold dateText.
  replace (m' - 1 + 1) with m' by lia. reflexivity.
Qed.

(** C7.  On the eight-digit text of a calendar date with a four-digit
    year [calculateNextDay] returns the text of the next calendar day
    ([20241231] gives [20250101]).  On malformed input it does not return
    its argument: nothing in its body throws, so the [catch] that would
    do so is never entered; text without digits gives [NaNNaNNaN], a
    hyphenated date and a timed stamp give some other date. *)
Theorem calculateNextDay_cases :
  (forall y m d,
      1000 <= y <= 9999 -> validDate y m d ->
      calculateNextDay (dateText y m d)
      = Normal (let '(y', m', d') := nextCivil y m d in dateText y' m' d'))
  /\ calculateNextDay "20241231" = Normal "20250101"
  /\ calculateNextDay "20240228" = Normal "20240229"
  /\ calculateNextDay "abc" = Normal "NaNNaNNaN"
  /\ calculateNextDay "" = Normal "NaNNaNNaN"
  /\ calculateNextDay "2024-12-25" = Normal "20231103"
  /\ calculateNextDay "20241205T150000Z" = Normal "20241206".
Proof.
  split.
  - intros y m d Hy Hv.
    pose proof (calculateNextDay_well_formed y m d Hy Hv) as H.
    destruct (nextCivil y m d) as [[y' m'] d']. exact H.
  - vm_compute. repeat split; reflexivity.
Qed.

(** ** C9: no exception on malformed data *)

Lemma try_catch_normal {A : Type} (body : completion A)
  (handler : string -> completion A) :
  (forall e, exists a, handler e = Normal a) ->
  exists a, try_catch body handler = Normal a.
Proof.
  intros H. destruct body as [a|e]; simpl; [eauto | apply H].
Qed.

Lemma extractAndParseJSONFromString_normal (raw : string) :
  exists v, extractAndParseJSONFromString raw = Normal v.
Proof.
  unfold extractAndParseJSONFromString.
  destruct (Str.is_empty raw); [eauto|].
  apply try_catch_normal. eauto.
Qed.

(** C9.  On every string the extractor, the formatter (under either
    threshold and either setting of [adjustPastYears], on any host) and
    the next-day helper complete normally with a value; none of them
    throws. *)
Theorem core_functions_never_throw (s : string) :
  (exists v, extractAndParseJSONFromString s = Normal v)
  /\ (forall h p adjustPastYears,
        exists r,
          formatDateTimeForGoogle h p (JString s) adjustPastYears = Normal r)
  /\ (exists next, calculateNextDay s = Normal next).
Proof.
  split; [apply extractAndParseJSONFromString_normal|]. split.
  - intros h p adj. apply formatDateTimeForGoogle_normal.
  - apply calculateNextDay_normal.
Qed.

(** ** C6: a JSON object embedded in text *)

Lemma indexOf_app_first (c : ascii) (p r : string) :
  Str.indexOf c p = None ->
  Str.indexOf c (p ++ String c r) = Some (String.length p).
Proof.
  induction p as [|d p IH]; simpl.
  - now rewrite Ascii.eqb_refl.
  - destruct (Ascii.eqb c d); [discriminate|].
    destruct (Str.indexOf c p); [discriminate|].
    intros _. now rewrite IH.
Qed.

Lemma lastIndexOf_app_last (c : ascii) (a q : string) :
  Str.lastIndexOf c q = None ->
  Str.lastIndexOf c (a ++ String c q) = Some (String.length a).
Proof.
  intros Hq. induction a as [|d a IH]; simpl.
  - now rewrite Hq, Ascii.eqb_refl.
  - now rewrite IH.
Qed.

Lemma drop_app_length (a b : string) :
  Str.drop (String.length a) (a ++ b) = b.
Proof. induction a as [|c a IH]; simpl; [destruct b|]; auto. Qed.

Lemma take_app_length (a b : string) :
  Str.take (String.length a) (a ++ b) = a.
Proof.
  induction a as [|c a IH]; simpl; [reflexivity | now rewrite IH].
Qed.

(** The slice from the first opening brace to the last closing brace of
    [prefix ++ {body} ++ suffix] is [{body}] when the prefix has no
    opening brace and the suffix no closing brace. *)
Lemma slice_of_embedded (prefix body suffix : string) :
  Str.indexOf Str.lbrace prefix = None ->
  Str.lastIndexOf Str.rbrace suffix = None ->
  let object := String Str.lbrace (body ++ String Str.rbrace "") in
  let raw := prefix ++ object ++ suffix in
  exists startIndex endIndex,
    Str.indexOf Str.lbrace raw = Some startIndex
    /\ Str.lastIndexOf Str.rbrace raw = Some endIndex
    /\ (endIndex <? startIndex)%nat = false
    /\ Str.substring startIndex (endIndex + 1) raw = object.
Proof.
  intros Hp Hq object raw.
  exists (String.length prefix), (String.length (prefix ++ String Str.lbrace body)).
  assert (Eraw : raw = (prefix ++ String Str.lbrace body)
                       ++ String Str.rbrace suffix).
  { subst raw object. cbn [append]. rewrite !string_app_assoc.
    reflexivity. }
  split; [|split; [|split]].
  - subst raw object. simpl. now apply indexOf_app_first.
  - rewrite Eraw. now apply lastIndexOf_app_last.
  - apply Nat.ltb_ge. rewrite string_length_app. lia.
  - unfold Str.substring. rewrite string_length_app. simpl String.length.
    rewrite Nat.min_l, Nat.max_r by lia.
    subst raw. rewrite drop_app_length.
    replace (String.length prefix + S (String.length body) + 1
             - String.length prefix)%nat
      with (String.length object)
      by (subst object; simpl; rewrite string_length_app; simpl; lia).
    apply take_app_length.
Qed.

Lemma replaceQuotes_without_apostrophe (s : string) :
  Str.indexOf Str.squote s = None -> replaceQuotes s = s.
Proof.
  unfold replaceQuotes. induction s as [|c s IH]; [reflexivity|].
  cbn [Str.indexOf Str.map]. rewrite (Ascii.eqb_sym c Str.squote).
  destruct (Ascii.eqb Str.squote c); [discriminate|].
  destruct (Str.indexOf Str.squote s); [discriminate|].
  intros _. now rewrite IH.
Qed.

(** C6, as amended.  Let a JSON object text, from its opening to its
    closing brace, contain no apostrophe and no comma that is followed by
    optional white space and a closing brace or bracket, and let it be
    embedded after a prefix without opening brace and before a suffix
    without closing brace.  Then the extractor returns what [JSON.parse]
    makes of the object text alone: the embedded object. *)
Theorem extract_embedded_object (prefix body suffix : string) (v : JValue) :
  let object := String Str.lbrace (body ++ String Str.rbrace "") in
  Str.indexOf Str.lbrace prefix = None ->
  Str.lastIndexOf Str.rbrace suffix = None ->
  Str.indexOf Str.squote object = None ->
  removeTrailingCommas object = object ->
  Json.parse object = Normal v ->
  extractAndParseJSONFromString (prefix ++ object ++ suffix) = Normal v.
Proof.
  intros object Hp Hq Ha Hc Hv.
  destruct (slice_of_embedded prefix body suffix Hp Hq)
    as (i & j & Hi & Hj & Hlt & Hsub).
  fold object in Hi, Hj, Hsub.
  unfold extractAndParseJSONFromString.
  replace (Str.is_empty (prefix ++ object ++ suffix)) with false
    by (destruct prefix; reflexivity).
  rewrite Hi, Hj, Hlt, Hsub.
  rewrite (replaceQuotes_without_apostrophe object Ha), Hc, Hv.
  reflexivity.
Qed.

Lemma extract_embedded_object_witness :
  extractAndParseJSONFromString
    ("Sure, here it is: " ++ json "{'title': 'Meeting', 'location': null}"
     ++ " Anything else?")
  = Normal (JObject [("title", JString "Meeting"); ("location", JNull)]).
Proof.
  apply (extract_embedded_object "Sure, here it is: "
           (json "'title': 'Meeting', 'location': null")
           " Anything else?"
           (JObject [("title", JString "Meeting"); ("location", JNull)]));
    vm_compute; reflexivity.
Defined.

(** C6 as stated fails: behind a prefix that contains a brace the empty
    object is not recovered, and an object whose value holds an apostrophe
    is lost even with no text around it. *)
Lemma extract_embedded_object_counterexample :
  Json.parse "{}" = Normal (JObject [])
  /\ extractAndParseJSONFromString ("{a} " ++ "{}" ++ "") = Normal JNull
  /\ Json.parse (json "{'title': " ++ String Str.dquote "it's"
                 ++ String Str.dquote "}")
     = Normal (JObject [("title", JString "it's")])
  /\ extractAndParseJSONFromString
       ("" ++ (json "{'title': " ++ String Str.dquote "it's"
               ++ String Str.dquote "}") ++ "")
     = Normal JNull.
Proof. vm_compute. repeat split; reflexivity. Qed.

(** * Further properties of the code *)

(** ** The extractor returns an object or nothing *)

Lemma parse_members_object (fuel : nat) :
  forall s acc v r,
    Json.parse_members fuel s acc = Json.POk v r ->
    exists fields, v = JObject fields.
Proof.
  induction fuel as [|k IH]; intros s acc v r; [discriminate|].
  cbn [Json.parse_members].
  destruct (Json.after Str.dquote (Json.skip_ws s)) as [t|]; [|discriminate].
  destruct (Json.parse_string t) as [[key t1]|]; [|discriminate].
  destruct (Json.after ":" (Json.skip_ws t1)) as [t2|]; [|discriminate].
  destruct (Json.parse_value k t2) as [x t3| |]; try discriminate.
  destruct (Json.after Str.comma (Json.skip_ws t3)).
  - apply IH.
  - destruct (Json.after Str.rbrace (Json.skip_ws t3)); [|discriminate].
    intros [= <- _]. eauto.
Qed.

(** A text that starts with an opening brace parses to an object or not
    at all. *)
Lemma parse_brace_object (r : string) (v : JValue) :
  Json.parse (String Str.lbrace r) = Normal v ->
  exists fields, v = JObject fields.
Proof.
  unfold Json.parse.
  destruct (Json.parse_value _ _) as [x rest| |] eqn:E; try discriminate.
  destruct (Json.skip_ws rest); [|discriminate]. intros [= <-].
  cbn [Json.parse_value] in E.
  change (Json.skip_ws (String Str.lbrace r)) with (String Str.lbrace r) in E.
  cbv iota in E. change (Ascii.eqb Str.lbrace Str.lbrace) with true in E.
  cbv iota in E.
  destruct (Json.after Str.rbrace (Json.skip_ws r)).
  - injection E as <- _. eauto.
  - apply parse_members_object in E. exact E.
Qed.

Lemma indexOf_drop (c : ascii) (s : string) (i : nat) :
  Str.indexOf c s = Some i ->
  exists r, Str.drop i s = String c r.
Proof.
  revert i. induction s as [|d s IH]; intros i; [discriminate|].
  cbn [Str.indexOf]. destruct (Ascii.eqb_spec c d) as [->|Hne].
  - intros [= <-]. simpl. eauto.
  - destruct (Str.indexOf c s) as [k|]; [|discriminate].
    intros [= <-]. simpl. apply IH. reflexivity.
Qed.

(** The slice the extractor cuts starts with the opening brace it
    found. *)
Lemma slice_starts_with_brace (raw : string) (i j : nat) :
  Str.indexOf Str.lbrace raw = Some i ->
  (j <? i)%nat = false ->
  exists r, Str.substring i (j + 1) raw = String Str.lbrace r.
Proof.
  intros Hi Hj. apply Nat.ltb_ge in Hj. unfold Str.substring.
  rewrite Nat.min_l, Nat.max_r by lia.
  destruct (indexOf_drop _ _ _ Hi) as [r ->].
  replace (j + 1 - i)%nat with (S (j - i)) by lia. simpl. eauto.
Qed.

(** X1.  The extractor returns [null] or an object, never an array, a string,
    a number or a boolean: the slice it parses starts with a brace. *)
Theorem extract_null_or_object (raw : string) :
  extractAndParseJSONFromString raw = Normal JNull
  \/ exists fields,
       extractAndParseJSONFromString raw = Normal (JObject fields).
Proof.
  unfold extractAndParseJSONFromString.
  destruct (Str.is_empty raw); [now left|].
  destruct (Str.indexOf Str.lbrace raw) as [i|] eqn:Hi; [|now left].
  destruct (Str.lastIndexOf Str.rbrace raw) as [j|]; [|now left].
  destruct (j <? i)%nat eqn:Hj; [now left|].
  destruct (slice_starts_with_brace raw i j Hi Hj) as [r ->].
  change (replaceQuotes (String Str.lbrace r))
    with (String Str.lbrace (replaceQuotes r)).
  unfold removeTrailingCommas.
  cbn [String.length removeTrailingCommas_fuel].
  change (Ascii.eqb Str.lbrace Str.comma) with false. cbv iota.
  destruct (Json.parse (String Str.lbrace _)) as [v|e] eqn:E; [|now left].
  apply parse_brace_object in E. destruct E as [fields ->].
  right. exists fields. reflexivity.
Qed.

(** ** The extractor and the text around the object *)

(** On [prefix ++ {body} ++ suffix], with no opening brace in the prefix
    and no closing brace in the suffix, the extractor parses the repaired
    slice [{body}] and nothing else. *)
Lemma extract_of_slice (prefix body suffix : string) :
  Str.indexOf Str.lbrace prefix = None ->
  Str.lastIndexOf Str.rbrace suffix = None ->
  let slice := String Str.lbrace (body ++ String Str.rbrace "") in
  extractAndParseJSONFromString (prefix ++ slice ++ suffix)
  = try_catch (Json.parse (removeTrailingCommas (replaceQuotes slice)))
      (fun _ => Normal JNull).
Proof.
  intros Hp Hq slice.
  destruct (slice_of_embedded prefix body suffix Hp Hq)
    as (i & j & Hi & Hj & Hlt & Hsub).
  fold slice in Hi, Hj, Hsub.
  unfold extractAndParseJSONFromString.
  replace (Str.is_empty (prefix ++ slice ++ suffix)) with false
    by (destruct prefix; reflexivity).
  rewrite Hi, Hj, Hlt, Hsub. reflexivity.
Qed.

(** X2.  The text before the first opening brace and after the last closing
    brace has no influence on what is extracted. *)
Theorem extract_ignores_surrounding_text
  (prefix1 prefix2 body suffix1 suffix2 : string) :
  Str.indexOf Str.lbrace prefix1 = None ->
  Str.indexOf Str.lbrace prefix2 = None ->
  Str.lastIndexOf Str.rbrace suffix1 = None ->
  Str.lastIndexOf Str.rbrace suffix2 = None ->
  let slice := String Str.lbrace (body ++ String Str.rbrace "") in
  extractAndParseJSONFromString (prefix1 ++ slice ++ suffix1)
  = extractAndParseJSONFromString (prefix2 ++ slice ++ suffix2).
Proof.
  intros H1 H2 H3 H4 slice. subst slice.
  rewrite !extract_of_slice by assumption. reflexivity.
Qed.

Lemma extract_ignores_surrounding_text_witness :
  extractAndParseJSONFromString
    ("Here is the event: " ++ String Str.lbrace ("'title': 'Lunch'" ++ String Str.rbrace "")
     ++ " Let me know!")
  = extractAndParseJSONFromString
      ("" ++ String Str.lbrace ("'title': 'Lunch'" ++ String Str.rbrace "") ++ "").
Proof.
  apply (extract_ignores_surrounding_text "Here is the event: " ""
           "'title': 'Lunch'" " Let me know!" ""); reflexivity.
Defined.

Lemma replaceQuotes_app (a b : string) :
  replaceQuotes (a ++ b) = replaceQuotes a ++ replaceQuotes b.
Proof.
  unfold replaceQuotes. induction a as [|c a IH]; simpl;
    [reflexivity | now rewrite IH].
Qed.

Lemma replaceQuotes_idempotent (s : string) :
  replaceQuotes (replaceQuotes s) = replaceQuotes s.
Proof.
  unfold replaceQuotes. induction s as [|c s IH]; simpl; [reflexivity|].
  rewrite IH. f_equal.
  destruct (Ascii.eqb_spec c Str.squote); [reflexivity|].
  destruct (Ascii.eqb_spec c Str.squote); [contradiction | reflexivity].
Qed.

(** X3.  An object written with apostrophes in place of double quotes is
    extracted exactly like the same text written with double quotes. *)
Theorem extract_accepts_single_quotes (prefix body suffix : string) :
  Str.indexOf Str.lbrace prefix = None ->
  Str.lastIndexOf Str.rbrace suffix = None ->
  extractAndParseJSONFromString
    (prefix ++ String Str.lbrace (body ++ String Str.rbrace "") ++ suffix)
  = extractAndParseJSONFromString
      (prefix ++ String Str.lbrace (replaceQuotes body ++ String Str.rbrace "")
       ++ suffix).
Proof.
  intros Hp Hq. rewrite !extract_of_slice by assumption.
  change (replaceQuotes (String Str.lbrace (body ++ String Str.rbrace "")))
    with (String Str.lbrace (replaceQuotes (body ++ String Str.rbrace ""))).
  change (replaceQuotes
            (String Str.lbrace (replaceQuotes body ++ String Str.rbrace "")))
    with (String Str.lbrace
            (replaceQuotes (replaceQuotes body ++ String Str.rbrace ""))).
  rewrite !replaceQuotes_app, replaceQuotes_idempotent. reflexivity.
Qed.

Lemma extract_accepts_single_quotes_witness :
  extractAndParseJSONFromString
    ("" ++ String Str.lbrace ("'title': 'Meeting'" ++ String Str.rbrace "") ++ "")
  = Normal (JObject [("title", JString "Meeting")]).
Proof.
  rewrite (extract_accepts_single_quotes "" "'title': 'Meeting'" "");
    vm_compute; reflexivity.
Defined.

(** ** The repair of trailing commas *)

Lemma ws_head_comma (r : string) : Str.ws_head (String Str.comma r) = None.
Proof. destruct r as [|d [|e r]]; reflexivity. Qed.

Ltac bool_cases :=
  repeat match goal with
         | |- context [Str.code ?c =? ?k] =>
             is_var c; destruct (Str.code c =? k)
         end.

(** A comma after a text hides what follows it from the white-space test
    at the head of the text. *)
Lemma ws_head_app_comma (s r : string) :
  s <> "" -> Str.ws_head (s ++ String Str.comma r) = Str.ws_head s.
Proof.
  intros Hs. destruct s as [|a [|b [|c s]]]; [congruence| | |reflexivity].
  - cbn [append]. unfold Str.ws_head.
    change (Str.code Str.comma) with 44.
    destruct (((9 <=? Str.code a) && (Str.code a <=? 13))
              || (Str.code a =? 32)); [reflexivity|].
    change (44 =? 160) with false. rewrite andb_false_r.
    destruct r as [|e r]; [reflexivity|].
    change (44 =? 154) with false. change (44 =? 128) with false.
    change (44 =? 129) with false. change (44 =? 187) with false.
    rewrite !andb_false_r. reflexivity.
  - cbn [append]. unfold Str.ws_head.
    change (Str.code Str.comma) with 44.
    destruct (((9 <=? Str.code a) && (Str.code a <=? 13))
              || (Str.code a =? 32)); [reflexivity|].
    destruct ((Str.code a =? 194) && (Str.code b =? 160)); [reflexivity|].
    change (44 =? 128) with false. change (44 =? 159) with false.
    change (44 =? 191) with false. change (44 =? 168) with false.
    change (44 =? 169) with false. change (44 =? 175) with false.
    change (128 <=? 44) with false.
    rewrite !andb_false_r. reflexivity.
Qed.

Lemma drop_app (n : nat) (s r : string) :
  (n <= String.length s)%nat -> Str.drop n (s ++ r) = Str.drop n s ++ r.
Proof.
  revert s. induction n as [|n IH]; intros s H; [reflexivity|].
  destruct s as [|c s]; [simpl in H; lia|]. simpl. apply IH. simpl in H. lia.
Qed.

Lemma skip_ws_fuel_empty (fuel : nat) : Str.skip_ws_fuel fuel "" = "".
Proof. destruct fuel; reflexivity. Qed.

Lemma skip_ws_fuel_app_comma (fuel : nat) :
  forall (fuel2 : nat) (s r : string),
    (String.length s <= fuel)%nat ->
    (String.length s <= fuel2)%nat ->
    Str.skip_ws_fuel fuel2 (s ++ String Str.comma r)
    = Str.skip_ws_fuel fuel s ++ String Str.comma r.
Proof.
  induction fuel as [|k IH]; intros fuel2 s r H1 H2.
  - destruct s; [|simpl in H1; lia]. cbn [append Str.skip_ws_fuel].
    destruct fuel2; [reflexivity|]. cbn [Str.skip_ws_fuel].
    now rewrite ws_head_comma.
  - destruct s as [|c s'].
    + cbn [append]. rewrite skip_ws_fuel_empty.
      destruct fuel2; [reflexivity|]. cbn [Str.skip_ws_fuel].
      now rewrite ws_head_comma.
    + destruct fuel2 as [|k2]; [simpl in H2; lia|].
      cbn [Str.skip_ws_fuel].
      rewrite ws_head_app_comma by discriminate.
      destruct (Str.ws_head (String c s')) as [n|] eqn:E; [|reflexivity].
      apply ws_head_size in E.
      rewrite drop_app by lia.
      pose proof (drop_length n (String c s')) as D.
      apply IH; rewrite D; lia.
Qed.

Lemma skip_ws_app_comma (s r : string) :
  Str.skip_ws (s ++ String Str.comma r) = Str.skip_ws s ++ String Str.comma r.
Proof.
  unfold Str.skip_ws. apply skip_ws_fuel_app_comma;
    [lia | rewrite string_length_app; lia].
Qed.

Lemma comma_not_closing : isClosing Str.comma = false.
Proof. reflexivity. Qed.

(** The repair works on the text before a comma and on the text from the
    comma on independently. *)
Lemma removeTrailingCommas_app_comma (n : nat) :
  forall a r : string,
    (String.length a <= n)%nat ->
    removeTrailingCommas (a ++ String Str.comma r)
    = removeTrailingCommas a ++ removeTrailingCommas (String Str.comma r).
Proof.
  unfold removeTrailingCommas.
  induction n as [|n IH]; intros a r Ha.
  - destruct a; [reflexivity | simpl in Ha; lia].
  - destruct a as [|x a']; [reflexivity|]. simpl in Ha.
    cbn [append String.length removeTrailingCommas_fuel].
    pose proof (str_skip_ws_length a') as L.
    assert (Hrec : forall u : string,
               (String.length u <= String.length a')%nat ->
               removeTrailingCommas_fuel
                 (String.length (a' ++ String Str.comma r))
                 (u ++ String Str.comma r)
               = removeTrailingCommas_fuel (String.length a') u
                 ++ removeTrailingCommas_fuel
                      (String.length (String Str.comma r))
                      (String Str.comma r)).
    { intros u Hu.
      rewrite (removeTrailingCommas_fuel_enough _
                 (String.length (u ++ String Str.comma r)))
        by (rewrite !string_length_app; lia).
      rewrite (removeTrailingCommas_fuel_enough (String.length a')
                 (String.length u)) by lia.
      apply IH. lia. }
    destruct (Ascii.eqb x Str.comma).
    + rewrite skip_ws_app_comma.
      destruct (Str.skip_ws a') as [|b r0].
      * cbn [append]. rewrite comma_not_closing. cbn [append].
        f_equal. apply Hrec. lia.
      * cbn [append]. simpl in L.
        destruct (isClosing b); cbn [append]; f_equal; apply Hrec; lia.
    + cbn [append]. f_equal. apply Hrec. lia.
Qed.

Lemma ws_head_ascii_space (w : ascii) (r : string) :
  asciiSpace w = true -> Str.ws_head (String w r) = Some 1%nat.
Proof. intros H. unfold Str.ws_head. unfold asciiSpace in H. now rewrite H. Qed.

Lemma ws_head_closing (c : ascii) (r : string) :
  isClosing c = true -> Str.ws_head (String c r) = None.
Proof.
  unfold isClosing. intros H. apply orb_true_iff in H.
  destruct H as [H | H]; apply Ascii.eqb_eq in H; subst c;
    destruct r as [|d [|e r]]; reflexivity.
Qed.

Lemma skip_ws_fuel_spaces (c : ascii) (b : string) :
  isClosing c = true ->
  forall (ws : string) (fuel : nat),
    Str.forallb asciiSpace ws = true ->
    (String.length ws <= fuel)%nat ->
    Str.skip_ws_fuel fuel (ws ++ String c b) = String c b.
Proof.
  intros Hc. induction ws as [|w ws IH]; intros fuel Hw Hf.
  - cbn [append]. destruct fuel; [reflexivity|]. cbn [Str.skip_ws_fuel].
    now rewrite ws_head_closing.
  - destruct fuel as [|k]; [simpl in Hf; lia|].
    cbn [Str.forallb] in Hw. apply andb_true_iff in Hw. destruct Hw as [H1 H2].
    cbn [append Str.skip_ws_fuel]. rewrite ws_head_ascii_space by assumption.
    cbn [Str.drop]. apply IH; [assumption | simpl in Hf; lia].
Qed.

Lemma skip_ws_spaces (ws : string) (c : ascii) (b : string) :
  Str.forallb asciiSpace ws = true -> isClosing c = true ->
  Str.skip_ws (ws ++ String c b) = String c b.
Proof.
  intros Hw Hc. unfold Str.skip_ws. apply skip_ws_fuel_spaces;
    [assumption | assumption | rewrite string_length_app; lia].
Qed.

(** What the repair does to a comma that white space and a closing brace
    or bracket follow. *)
Lemma removeTrailingCommas_at_comma (a ws b : string) (c : ascii) :
  Str.forallb asciiSpace ws = true -> isClosing c = true ->
  removeTrailingCommas (a ++ String Str.comma (ws ++ String c b))
  = removeTrailingCommas a ++ String c (removeTrailingCommas b).
Proof.
  intros Hw Hc.
  rewrite (removeTrailingCommas_app_comma (String.length a)) by lia.
  f_equal. unfold removeTrailingCommas.
  cbn [String.length removeTrailingCommas_fuel].
  change (Ascii.eqb Str.comma Str.comma) with true. cbv iota.
  rewrite skip_ws_spaces by assumption. rewrite Hc. f_equal.
  apply removeTrailingCommas_fuel_enough;
    [rewrite string_length_app; simpl; lia | lia].
Qed.

(** X4.  The repair of trailing commas, [replace(/,\s*([}\]])/g, '$1')]:
    a comma followed by ASCII white space and a closing brace or bracket
    is removed together with the white space, wherever it stands; the
    text before it and the text after the closing character are repaired
    on their own. *)
Theorem trailing_comma_removed (a ws b : string) (c : ascii) :
  Str.forallb asciiSpace ws = true -> isClosing c = true ->
  removeTrailingCommas (a ++ String Str.comma (ws ++ String c b))
  = removeTrailingCommas a ++ String c (removeTrailingCommas b).
Proof. apply removeTrailingCommas_at_comma. Qed.

Lemma trailing_comma_removed_witness :
  removeTrailingCommas ("[1, 2" ++ String Str.comma (" " ++ String Str.rbracket ", 3"))
  = removeTrailingCommas "[1, 2" ++ String Str.rbracket (removeTrailingCommas ", 3").
Proof.
  apply (trailing_comma_removed "[1, 2" " " ", 3" Str.rbracket); reflexivity.
Defined.

Lemma replaceQuotes_spaces (ws : string) :
  Str.forallb asciiSpace ws = true -> replaceQuotes ws = ws.
Proof.
  unfold replaceQuotes. induction ws as [|w ws IH]; intros H; [reflexivity|].
  cbn [Str.forallb] in H. apply andb_true_iff in H. destruct H as [H1 H2].
  cbn [Str.map]. rewrite (IH H2). f_equal.
  destruct (Ascii.eqb_spec w Str.squote) as [->|]; [discriminate H1 | reflexivity].
Qed.

(** X5.  The extractor repairs a comma left before the closing brace of the
    object: when the object without that comma parses, and has no
    apostrophe and no other trailing comma, the text with the comma gives
    the same object. *)
Theorem extract_repairs_trailing_comma (prefix body ws suffix : string)
  (v : JValue) :
  Str.indexOf Str.lbrace prefix = None ->
  Str.lastIndexOf Str.rbrace suffix = None ->
  Str.forallb asciiSpace ws = true ->
  Str.indexOf Str.squote body = None ->
  removeTrailingCommas (String Str.lbrace body) = String Str.lbrace body ->
  Json.parse (String Str.lbrace (body ++ String Str.rbrace "")) = Normal v ->
  extractAndParseJSONFromString
    (prefix
     ++ String Str.lbrace
          ((body ++ String Str.comma ws) ++ String Str.rbrace "")
     ++ suffix)
  = Normal v.
Proof.
  intros Hp Hs Hw Hq Hr Hv.
  rewrite extract_of_slice by assumption.
  change (replaceQuotes
            (String Str.lbrace
               ((body ++ String Str.comma ws) ++ String Str.rbrace "")))
    with (String Str.lbrace
            (replaceQuotes
               ((body ++ String Str.comma ws) ++ String Str.rbrace ""))).
  rewrite !replaceQuotes_app.
  change (replaceQuotes (String Str.comma ws))
    with (String Str.comma (replaceQuotes ws)).
  rewrite (replaceQuotes_without_apostrophe body Hq),
    (replaceQuotes_spaces ws Hw).
  change (replaceQuotes (String Str.rbrace "")) with (String Str.rbrace "").
  rewrite string_app_assoc.
  change (String Str.lbrace
            (body ++ String Str.comma ws ++ String Str.rbrace ""))
    with (String Str.lbrace body
          ++ String Str.comma (ws ++ String Str.rbrace "")).
  rewrite removeTrailingCommas_at_comma by (assumption || reflexivity).
  rewrite Hr. change (removeTrailingCommas "") with "".
  change (String Str.lbrace body ++ String Str.rbrace "")
    with (String Str.lbrace (body ++ String Str.rbrace "")).
  rewrite Hv. reflexivity.
Qed.

Lemma extract_repairs_trailing_comma_witness :
  extractAndParseJSONFromString
    ("Result: "
     ++ String Str.lbrace
          ((json "'title': 'Lunch'" ++ String Str.comma " ")
           ++ String Str.rbrace "")
     ++ " Done.")
  = Normal (JObject [("title", JString "Lunch")]).
Proof.
  apply (extract_repairs_trailing_comma "Result: " (json "'title': 'Lunch'")
           " " " Done."); vm_compute; reflexivity.
Defined.

(** ** Reading back the dates the formatter is given *)

Lemma digitsN_app (k : nat) :
  forall s acc v r,
    Date.digitsN k s acc = Some (v, "") ->
    Date.digitsN k (s ++ r) acc = Some (v, r).
Proof.
  induction k as [|k IH]; intros s acc v r; cbn [Date.digitsN].
  - intros [= <- ->]. reflexivity.
  - destruct s as [|c s]; [discriminate|]. cbn [append].
    destruct (Str.is_digit c); [apply IH | discriminate].
Qed.

Lemma digitsN_year (y : Z) (r : string) :
  1000 <= y <= 9999 ->
  Date.digitsN 4 (Num.toString (Some y) ++ r) 0 = Some (y, r).
Proof.
  intros H. apply digitsN_app.
  pose proof (range_check (readsBack 4 (fun n => Num.toString (Some n)))
                1000 9000 ltac:(vm_compute; reflexivity) y ltac:(lia)) as P.
  unfold readsBack in P.
  destruct (Date.digitsN 4 (Num.toString (Some y)) 0) as [[v [|c s]]|];
    try discriminate.
  apply Z.eqb_eq in P. now subst.
Qed.

Lemma digitsN_pad2 (n : Z) (r : string) :
  0 <= n <= 99 ->
  Date.digitsN 2 (pad2 (Some n) ++ r) 0 = Some (n, r).
Proof.
  intros H. apply digitsN_app.
  pose proof (range_check (readsBack 2 (fun n => pad2 (Some n)))
                0 100 ltac:(vm_compute; reflexivity) n ltac:(lia)) as P.
  unfold readsBack in P.
  destruct (Date.digitsN 2 (pad2 (Some n)) 0) as [[v [|c s]]|];
    try discriminate.
  apply Z.eqb_eq in P. now subst.
Qed.

(** A digit is neither sign. *)
Lemma iso_year_digits (s : string) (c : ascii) :
  Str.is_digit c = true ->
  Date.iso_year (String c s) = Date.digitsN 4 (String c s) 0.
Proof.
  intros H. unfold Date.iso_year.
  destruct c as [[] [] [] [] [] [] [] []]; try discriminate H; reflexivity.
Qed.

Lemma iso_year_printed (y : Z) (r : string) :
  1000 <= y <= 9999 ->
  Date.iso_year (Num.toString (Some y) ++ r) = Some (y, r).
Proof.
  intros H. pose proof (digitsN_year y r H) as D.
  destruct (fourDigits_inv _ (year_fourDigits y H))
    as (a & b & c & d & E & Ha & _).
  rewrite E in *. cbn [append] in *. rewrite iso_year_digits by assumption.
  exact D.
Qed.

(** The text of a date is read back as its fields. *)
Lemma parse_iso_date (y m d : Z) :
  1000 <= y <= 9999 -> 1 <= m <= 12 -> 1 <= d <= 31 ->
  Date.parse_iso (isoDate y m d)
  = Date.IsoUTC (Cal.MakeDate (Cal.MakeDay y (m - 1) d) 0).
Proof.
  intros Hy Hm Hd. unfold Date.parse_iso, isoDate.
  rewrite iso_year_printed by assumption.
  cbn [append Date.iso_month_day].
  rewrite digitsN_pad2 by lia. cbn [append].
  rewrite <- (string_app_empty_r (pad2 (Some d))).
  rewrite digitsN_pad2 by lia.
  replace ((1 <=? m) && (m <=? 12) && (1 <=? d) && (d <=? 31)) with true;
    [reflexivity|].
  symmetry. rewrite !andb_true_iff, !Z.leb_le. lia.
Qed.

Lemma MakeTime_range (hh mi ss : Z) :
  validTime hh mi ss ->
  0 <= Cal.MakeTime hh mi ss 0 < Cal.msPerDay.
Proof.
  intros (Hh & Hm & Hs).
  unfold Cal.MakeTime, Cal.msPerHour, Cal.msPerMinute, Cal.msPerSecond,
    Cal.msPerDay. lia.
Qed.

Lemma parse_iso_date_time (y m d hh mi ss : Z) :
  1000 <= y <= 9999 -> 1 <= m <= 12 -> 1 <= d <= 31 ->
  validTime hh mi ss ->
  Date.parse_iso (isoDateTime y m d hh mi ss)
  = Date.IsoLocal
      (Cal.MakeDate (Cal.MakeDay y (m - 1) d) (Cal.MakeTime hh mi ss 0)).
Proof.
  intros Hy Hm Hd (Hh & Hi & Hs). unfold Date.parse_iso, isoDateTime, isoDate.
  rewrite !string_app_assoc.
  rewrite iso_year_printed by assumption.
  cbn [append Date.iso_month_day].
  rewrite digitsN_pad2 by lia. cbn [append].
  rewrite digitsN_pad2 by lia. cbn [append]. unfold Date.iso_time.
  rewrite digitsN_pad2 by lia. cbn [append].
  rewrite digitsN_pad2 by lia. cbn [append].
  rewrite <- (string_app_empty_r (pad2 (Some ss))).
  rewrite digitsN_pad2 by lia. cbn [Date.iso_offset].
  replace ((1 <=? m) && (m <=? 12) && (1 <=? d) && (d <=? 31)) with true
    by (symmetry; rewrite !andb_true_iff, !Z.leb_le; lia).
  unfold Date.time_in_bounds.
  replace ((hh <=? 23) && (mi <=? 59) && (ss <=? 59)) with true
    by (symmetry; rewrite !andb_true_iff, !Z.leb_le; lia).
  reflexivity.
Qed.

Lemma isAllDay_isoDate (y m d : Z) :
  1000 <= y <= 9999 -> 0 <= m <= 99 -> 0 <= d <= 99 ->
  isAllDay (isoDate y m d) = true.
Proof.
  intros Hy Hm Hd. unfold isoDate.
  destruct (fourDigits_inv _ (year_fourDigits y Hy))
    as (a & b & c & e & -> & ? & ? & ? & ?).
  destruct (twoDigits_inv _ (pad2_twoDigits m Hm)) as (m1 & m2 & -> & ? & ?).
  destruct (twoDigits_inv _ (pad2_twoDigits d Hd)) as (d1 & d2 & -> & ? & ?).
  cbn [append isAllDay].
  repeat match goal with H : Str.is_digit _ = true |- _ => rewrite H; clear H end.
  reflexivity.
Qed.

Lemma isAllDay_length (s : string) :
  isAllDay s = true -> String.length s = 10%nat.
Proof.
  destruct s as [|c1 [|c2 [|c3 [|c4 [|c5 [|c6 [|c7 [|c8 [|c9 [|c10 [|c11 s]]]]]]]]]]];
    cbn [isAllDay String.length]; try discriminate; reflexivity.
Qed.

Lemma isAllDay_isoDateTime (y m d hh mi ss : Z) :
  isAllDay (isoDateTime y m d hh mi ss) = false.
Proof.
  destruct (isAllDay _) eqn:E; [|reflexivity].
  apply isAllDay_length in E. unfold isoDateTime, isoDate in E.
  rewrite !string_length_app in E.
  pose proof (pad2_length_ge (Some m)). pose proof (pad2_length_ge (Some d)).
  pose proof (pad2_length_ge (Some hh)). pose proof (pad2_length_ge (Some mi)).
  pose proof (pad2_length_ge (Some ss)). cbn [String.length] in E. lia.
Qed.

(** The calendar fields of a time depend on its day alone. *)
Lemma fields_by_day (t u : Z) :
  Cal.Day t = Cal.Day u ->
  Cal.YearFromTime t = Cal.YearFromTime u
  /\ Cal.MonthFromTime t = Cal.MonthFromTime u
  /\ Cal.DateFromTime t = Cal.DateFromTime u.
Proof.
  intros H.
  assert (Y : Cal.YearFromTime t = Cal.YearFromTime u)
    by (unfold Cal.YearFromTime; now rewrite H).
  assert (L : Cal.InLeapYear t = Cal.InLeapYear u)
    by (unfold Cal.InLeapYear; now rewrite Y).
  assert (W : Cal.DayWithinYear t = Cal.DayWithinYear u)
    by (unfold Cal.DayWithinYear; now rewrite Y, H).
  assert (M : Cal.MonthFromTime t = Cal.MonthFromTime u)
    by (unfold Cal.MonthFromTime; now rewrite W, L).
  repeat split; try assumption.
  unfold Cal.DateFromTime. now rewrite W, M, L.
Qed.

(** The calendar fields at any time of the day [MakeDay y m d]. *)
Lemma fields_of_MakeDay_at (y m d time : Z) :
  0 <= m <= 11 -> 1 <= d <= daysInMonth y (m + 1) ->
  0 <= time < Cal.msPerDay ->
  let t := Cal.MakeDate (Cal.MakeDay y m d) time in
  Cal.YearFromTime t = y /\ Cal.MonthFromTime t = m
  /\ Cal.DateFromTime t = d /\ Cal.TimeWithinDay t = time.
Proof.
  intros Hm Hd Ht t.
  destruct (fields_of_MakeDay y m d Hm Hd) as (Fy & Fm & Fd & _).
  destruct (fields_by_day t (Cal.MakeDate (Cal.MakeDay y m d) 0))
    as (Ey & Em & Ed).
  { unfold t. rewrite !Day_MakeDate; [reflexivity | unfold Cal.msPerDay; lia
                                      | assumption]. }
  rewrite Ey, Em, Ed. repeat split; try assumption.
  apply TimeWithinDay_MakeDate. assumption.
Qed.

Lemma time_fields (day hh mi ss : Z) :
  validTime hh mi ss ->
  let t := Cal.MakeDate day (Cal.MakeTime hh mi ss 0) in
  Cal.HourFromTime t = hh /\ Cal.MinFromTime t = mi /\ Cal.SecFromTime t = ss.
Proof.
  intros (Hh & Hm & Hs) t. subst t.
  unfold Cal.HourFromTime, Cal.MinFromTime, Cal.SecFromTime, Cal.MakeDate,
    Cal.MakeTime, Cal.msPerHour, Cal.msPerMinute, Cal.msPerSecond,
    Cal.msPerDay.
  repeat split; Z.div_mod_to_equations; lia.
Qed.

(** ** Dates written as the prompt asks, formatted *)

Lemma isoDate_nonempty (y m d : Z) : isoDate y m d <> "".
Proof.
  apply length_pos_nonempty. unfold isoDate. rewrite !string_length_app.
  pose proof (pad2_length_ge (Some d)). lia.
Qed.

Lemma isoDateTime_nonempty (y m d hh mi ss : Z) :
  isoDateTime y m d hh mi ss <> "".
Proof.
  apply length_pos_nonempty. unfold isoDateTime. rewrite !string_length_app.
  pose proof (pad2_length_ge (Some ss)). lia.
Qed.

(** A date that is not stale is printed as parsed, whatever the
    [adjustPastYears] flag. *)
Lemma formatDateTimeForGoogle_fresh (h : Host) (p : YearPolicy)
  (adj : bool) (s : string) (t : Z) :
  s <> "" -> Date.parse h s = Some t ->
  (adj = true ->
   Cal.YearFromTime (Date.LocalTime h (now h))
   <= Cal.YearFromTime (Date.LocalTime h t)) ->
  formatDateTimeForGoogle h p (JString s) adj
  = Normal (Some (render h s (Some t))).
Proof.
  intros Hs Hp Hy.
  rewrite (formatDateTimeForGoogle_accepted h p adj s t Hs Hp).
  destruct adj; [|rewrite adjustedDate_off; reflexivity].
  rewrite adjustedDate_on. specialize (Hy eq_refl).
  destruct p; cbn [isStale Num.lt Num.sub].
  - destruct (Z.ltb_spec (Cal.YearFromTime (Date.LocalTime h t))
                (Cal.YearFromTime (Date.LocalTime h (now h))));
      [lia | reflexivity].
  - destruct (Z.ltb_spec (Cal.YearFromTime (Date.LocalTime h t))
                (Cal.YearFromTime (Date.LocalTime h (now h)) - 1));
      [lia | reflexivity].
Qed.

Lemma validDate_day (y m d : Z) :
  validDate y m d ->
  0 <= m - 1 <= 11 /\ 1 <= d <= daysInMonth y (m - 1 + 1) /\ 1 <= d <= 31.
Proof.
  intros [Hm Hd]. pose proof (daysInMonth_range y m).
  replace (m - 1 + 1) with m by lia. lia.
Qed.

Lemma parse_isoDate (h : Host) (y m d : Z) :
  1000 <= y <= 9999 -> validDate y m d ->
  Date.parse h (isoDate y m d)
  = Some (Cal.MakeDate (Cal.MakeDay y (m - 1) d) 0).
Proof.
  intros Hy Hv. destruct (validDate_day y m d Hv) as (Hm & _ & Hd).
  unfold Date.parse. rewrite parse_iso_date by lia.
  apply TimeClip_in_range. apply MakeDay_in_range; lia.
Qed.

Lemma formatAllDay_fields (h : Host) (t y m d : Z) :
  Cal.YearFromTime (Date.LocalTime h t) = y ->
  Cal.MonthFromTime (Date.LocalTime h t) = m - 1 ->
  Cal.DateFromTime (Date.LocalTime h t) = d ->
  formatAllDay h (Some t) = dateText y m d.
Proof.
  intros Fy Fm Fd. unfold formatAllDay, dateText, Date.getFullYear,
    Date.getMonth, Date.getDate.
  cbn [option_map Num.add]. rewrite Fy, Fm, Fd.
  replace (m - 1 + 1) with m by lia. reflexivity.
Qed.

(** On a host at or east of Greenwich, less than a day ahead, a
    calendar date written [YYYY-MM-DD] that is not stale is printed as
    that same day, [YYYYMMDD]. *)
Lemma format_isoDate_east (h : Host) (p : YearPolicy)
  (adjustPastYears : bool) (y m d : Z) :
  0 <= tza h < Cal.msPerDay ->
  1000 <= y <= 9999 -> validDate y m d ->
  (adjustPastYears = true ->
   Cal.YearFromTime (Date.LocalTime h (now h)) <= y) ->
  formatDateTimeForGoogle h p (JString (isoDate y m d)) adjustPastYears
  = Normal (Some (dateText y m d)).
Proof.
  intros Hz Hy Hv Hc. destruct (validDate_day y m d Hv) as (Hm & Hd & Hd').
  pose proof (parse_isoDate h y m d Hy Hv) as Hp.
  destruct (fields_of_MakeDay_at y (m - 1) d (tza h) Hm Hd Hz)
    as (Fy & Fm & Fd & _).
  assert (L : Date.LocalTime h (Cal.MakeDate (Cal.MakeDay y (m - 1) d) 0)
              = Cal.MakeDate (Cal.MakeDay y (m - 1) d) (tza h))
    by (unfold Date.LocalTime, Cal.MakeDate; lia).
  rewrite (formatDateTimeForGoogle_fresh h p adjustPastYears _ _
             (isoDate_nonempty y m d) Hp).
  - unfold render. rewrite isAllDay_isoDate by (destruct Hv; lia).
    f_equal. f_equal. apply formatAllDay_fields; rewrite L; assumption.
  - intros E. rewrite L, Fy. auto.
Qed.



Lemma MakeDay_bounds (y m d : Z) :
  1000 <= y <= 10000 -> 0 <= m <= 11 -> 1 <= d <= 31 ->
  -360000 <= Cal.MakeDay y m d <= 2940000.
Proof.
  intros Hy Hm Hd. unfold Cal.MakeDay.
  replace (m / 12) with 0 by (Z.div_mod_to_equations; lia).
  replace (m mod 12) with m by (Z.div_mod_to_equations; lia).
  rewrite !Z.add_0_r.
  destruct (monthStart_range m (if Cal.isLeap y then 1 else 0) Hm
              ltac:(destruct (Cal.isLeap y); lia)) as [[? ?] _].
  pose proof (DayFromYear_lower y). pose proof (DayFromYear_upper y).
  destruct (Cal.isLeap y); lia.
Qed.

Lemma parse_isoDateTime (h : Host) (y m d hh mi ss : Z) :
  tza h = 0 -> 1000 <= y <= 9999 -> validDate y m d ->
  validTime hh mi ss ->
  Date.parse h (isoDateTime y m d hh mi ss)
  = Some (Cal.MakeDate (Cal.MakeDay y (m - 1) d) (Cal.MakeTime hh mi ss 0)).
Proof.
  intros Hz Hy Hv Ht. destruct (validDate_day y m d Hv) as (Hm & _ & Hd).
  unfold Date.parse. rewrite parse_iso_date_time by (assumption || lia).
  unfold Date.UTC. rewrite Hz, Z.sub_0_r.
  apply TimeClip_in_range.
  pose proof (MakeDay_bounds y (m - 1) d ltac:(lia) Hm Hd) as R.
  pose proof (MakeTime_range hh mi ss Ht) as T.
  unfold Cal.MakeDate, Cal.maxTime, Cal.msPerDay in *. lia.
Qed.

(** On a host in UTC, a date and time written [YYYY-MM-DDTHH:mm:ss]
    that is not stale is printed with those same fields,
    [YYYYMMDDTHHmmssZ]. *)
Lemma format_isoDateTime_utc (h : Host) (p : YearPolicy)
  (adjustPastYears : bool) (y m d hh mi ss : Z) :
  tza h = 0 ->
  1000 <= y <= 9999 -> validDate y m d -> validTime hh mi ss ->
  (adjustPastYears = true ->
   Cal.YearFromTime (Date.LocalTime h (now h)) <= y) ->
  formatDateTimeForGoogle h p (JString (isoDateTime y m d hh mi ss))
    adjustPastYears
  = Normal (Some (dateText y m d ++ "T" ++ pad2 (Some hh) ++ pad2 (Some mi)
                  ++ pad2 (Some ss) ++ "Z")).
Proof.
  intros Hz Hy Hv Ht Hc. destruct (validDate_day y m d Hv) as (Hm & Hd & Hd').
  pose proof (parse_isoDateTime h y m d hh mi ss Hz Hy Hv Ht) as Hp.
  pose proof (MakeTime_range hh mi ss Ht) as Tr.
  destruct (fields_of_MakeDay_at y (m - 1) d _ Hm Hd Tr)
    as (Fy & Fm & Fd & _).
  destruct (time_fields (Cal.MakeDay y (m - 1) d) hh mi ss Ht)
    as (Fh & Fi & Fs).
  rewrite (formatDateTimeForGoogle_fresh h p adjustPastYears _ _
             (isoDateTime_nonempty y m d hh mi ss) Hp).
  - unfold render. rewrite isAllDay_isoDateTime.
    unfold formatTimed, dateText, Date.getUTCFullYear, Date.getUTCMonth,
      Date.getUTCDate, Date.getUTCHours, Date.getUTCMinutes,
      Date.getUTCSeconds.
    cbn [option_map Num.add]. rewrite Fy, Fm, Fd, Fh, Fi, Fs.
    replace (m - 1 + 1) with m by lia.
    rewrite !string_app_assoc. reflexivity.
  - intros E. specialize (Hc E). unfold Date.LocalTime in Hc |- *.
    rewrite Hz, Z.add_0_r in Hc. rewrite Hz, !Z.add_0_r, Fy. exact Hc.
Qed.


(** X6.  An all-day date on a host at or east of Greenwich: a calendar
    date written [YYYY-MM-DD] that is not stale is printed as that same
    day, [YYYYMMDD]. *)
Theorem allDay_date_kept_east_of_Greenwich (h : Host) (p : YearPolicy)
  (adjustPastYears : bool) (y m d : Z) :
  0 <= tza h < Cal.msPerDay ->
  1000 <= y <= 9999 -> validDate y m d ->
  (adjustPastYears = true ->
   Cal.YearFromTime (Date.LocalTime h (now h)) <= y) ->
  formatDateTimeForGoogle h p (JString (isoDate y m d)) adjustPastYears
  = Normal (Some (dateText y m d)).
Proof. apply format_isoDate_east. Qed.

Lemma allDay_date_kept_east_of_Greenwich_witness :
  formatDateTimeForGoogle (hostAt 3600000) OlderThanOneYear
    (JString (isoDate 2026 12 25)) true
  = Normal (Some "20261225").
Proof.
  apply (allDay_date_kept_east_of_Greenwich (hostAt 3600000) OlderThanOneYear
           true 2026 12 25).
  - vm_compute. split; [discriminate | reflexivity].
  - lia.
  - split; [lia | vm_compute; split; discriminate].
  - intros _. vm_compute. discriminate.
Defined.



(** X8.  A timed date on a host in UTC: a date and time written
    [YYYY-MM-DDTHH:mm:ss] that is not stale is printed with those same
    fields, [YYYYMMDDTHHmmssZ]. *)
Theorem timed_date_kept_on_utc_host (h : Host) (p : YearPolicy)
  (adjustPastYears : bool) (y m d hh mi ss : Z) :
  tza h = 0 ->
  1000 <= y <= 9999 -> validDate y m d -> validTime hh mi ss ->
  (adjustPastYears = true ->
   Cal.YearFromTime (Date.LocalTime h (now h)) <= y) ->
  formatDateTimeForGoogle h p (JString (isoDateTime y m d hh mi ss))
    adjustPastYears
  = Normal (Some (dateText y m d ++ "T" ++ pad2 (Some hh) ++ pad2 (Some mi)
                  ++ pad2 (Some ss) ++ "Z")).
Proof. apply format_isoDateTime_utc. Qed.

Lemma timed_date_kept_on_utc_host_witness :
  formatDateTimeForGoogle utcHost AnyPastYear
    (JString (isoDateTime 2026 12 5 15 0 0)) true
  = Normal (Some "20261205T150000Z").
Proof.
  apply (timed_date_kept_on_utc_host utcHost AnyPastYear true
           2026 12 5 15 0 0).
  - reflexivity.
  - lia.
  - split; [lia | vm_compute; split; discriminate].
  - unfold validTime. lia.
  - intros _. vm_compute. discriminate.
Defined.

(** ** All-day events, from the parsed object to the date range *)

Lemma dateText_length8 (y m d : Z) :
  1000 <= y <= 9999 -> 0 <= m <= 99 -> 0 <= d <= 99 ->
  hasLength8 (dateText y m d) = true.
Proof.
  intros Hy Hm Hd. unfold dateText.
  destruct (fourDigits_inv _ (year_fourDigits y Hy))
    as (a & b & c & e & -> & _).
  destruct (twoDigits_inv _ (pad2_twoDigits m Hm)) as (m1 & m2 & -> & _).
  destruct (twoDigits_inv _ (pad2_twoDigits d Hd)) as (d1 & d2 & -> & _).
  reflexivity.
Qed.

Lemma dateText_nonempty (y m d : Z) : dateText y m d <> "".
Proof.
  apply length_pos_nonempty. unfold dateText. rewrite !string_length_app.
  pose proof (pad2_length_ge (Some d)). lia.
Qed.






(** ** The two builders of the date range *)

(** X11.  The builder of [src/utils.ts] and the one of the [done] handler
    compute the same range, except for an all-day start with a timed
    end. *)
Theorem date_range_builders_agree (start : string) (fin : option string) :
  start <> "" ->
  (hasLength8 start = true ->
   forall e, fin = Some e -> e <> "" -> hasLength8 e = true) ->
  dateParamValue_Testable (Some start) fin
  = (range <- dateParamValue_extractDate start fin ;; Normal (Some range)).
Proof.
  intros Hs Hmix. unfold dateParamValue_Testable, dateParamValue_extractDate.
  rewrite nonempty_Some by assumption.
  destruct (calculateNextDay_normal start) as [n1 E1].
  destruct fin as [e|].
  - destruct (calculateNextDay_normal e) as [n2 E2]. rewrite E1, E2.
    destruct e as [|c e']; [destruct (hasLength8 start); reflexivity|].
    cbn [JS.nonempty Str.is_empty negb].
    destruct (hasLength8 start) eqn:S8.
    + rewrite (Hmix eq_refl _ eq_refl) by discriminate. reflexivity.
    + destruct (hasLength8 (String c e')); reflexivity.
  - rewrite E1. destruct (hasLength8 start); reflexivity.
Qed.

Lemma date_range_builders_agree_witness :
  dateParamValue_Testable (Some "20261225") (Some "20261227")
  = (range <- dateParamValue_extractDate "20261225" (Some "20261227") ;;
     Normal (Some range)).
Proof.
  apply (date_range_builders_agree "20261225" (Some "20261227")).
  - discriminate.
  - intros _ e [= <-] _. reflexivity.
Defined.

(** ** Outcomes of the [done] handler *)

(** With a formatted start the handler's date range is never empty. *)
Lemma dateParamValue_extractDate_some (start : string) (fin : option string) :
  start <> "" ->
  exists range,
    dateParamValue_extractDate start fin = Normal range /\ range <> "".
Proof.
  intros Hs. unfold dateParamValue_extractDate.
  destruct (calculateNextDay_normal start) as [n1 E1].
  destruct fin as [fin|].
  - destruct (calculateNextDay_normal fin) as [n2 E2].
    rewrite E1, E2.
    destruct (JS.nonempty (Some fin)), (hasLength8 start), (hasLength8 fin);
      simpl; eexists; (split; [reflexivity|]);
      try (apply nonempty_app; assumption); assumption.
  - rewrite E1.
    destruct (hasLength8 start); simpl; eexists; (split; [reflexivity|]);
      try (apply nonempty_app; assumption); assumption.
Qed.

Lemma is_empty_false (s : string) : s <> "" -> Str.is_empty s = false.
Proof. destruct s; [congruence | reflexivity]. Qed.



(** ** The link that the [done] handler opens *)


Lemma serialize_head (k1 v1 k2 v2 k3 v3 : string) (rest : URL.params) :
  exists tail,
    URL.serialize ((k1, v1) :: (k2, v2) :: (k3, v3) :: rest)
    = URL.encode (URL.scalar k1) ++ "=" ++ URL.encode (URL.scalar v1)
      ++ "&" ++ URL.encode (URL.scalar k2) ++ "="
      ++ URL.encode (URL.scalar v2)
      ++ "&" ++ URL.encode (URL.scalar k3) ++ "="
      ++ URL.encode (URL.scalar v3) ++ tail.
Proof.
  unfold URL.serialize. cbn [List.map Str.join fst snd].
  destruct rest as [|[k4 v4] rest].
  - exists "". cbn [List.map Str.join].
    rewrite !string_app_assoc, string_app_empty_r. reflexivity.
  - eexists. cbn [List.map]. 
    change (Str.join "&" (?a :: ?b :: ?l)) with (a ++ "&" ++ Str.join "&" (b :: l)).
    rewrite !string_app_assoc. reflexivity.
Qed.




(** ** The details parameter *)

Lemma truthy_JString_iff (h : Host) (s : string) :
  JS.truthy h (JString s) = negb (Str.is_empty s).
Proof. reflexivity. Qed.

(** X14.  A selection that is, up to surrounding white space, the
    description itself is not repeated by the [done] handler, whose
    details are then the description alone; the testable builder appends
    the selection all the same. *)
Theorem details_of_equal_selection (h : Host)
  (fields : list (string * JValue)) (info range dsc : string) :
  JS.lookup "description" fields = JString dsc ->
  info <> "" ->
  Str.trim info = Str.trim dsc ->
  (forall ps,
      extractDate_params h (JObject fields) range info = Normal ps ->
      URL.get "details" ps = (if Str.is_empty dsc then None else Some dsc))
  /\ (forall ps,
        createGoogleCalendarLink_params h (JObject fields) info
        = Normal (Some ps) ->
        URL.get "details" ps
        = Some (dsc ++ (if Str.is_empty dsc then "" else newline ++ newline)
                ++ "Original Text:" ++ newline ++ info)).
Proof.
  intros Hd Hi Ht. split; intros ps.
  - unfold extractDate_params, trimOrEmpty, JS.or_else. cbn [JS.get].
    rewrite Hd, (is_empty_false info Hi), truthy_JString_iff. cbn [negb].
    destruct dsc as [|c dsc']; cbn [Str.is_empty negb bind].
    + rewrite Ht. change (Str.trim "") with "". cbn [String.eqb negb].
      cbn [JS.truthy Str.is_empty negb].
      intros [= <-].
      destruct (JS.truthy h (JS.lookup "location" fields));
        reflexivity.
    + rewrite Ht, String.eqb_refl. cbn [negb JS.truthy Str.is_empty].
      intros [= <-].
      destruct (JS.truthy h (JS.lookup "location" fields));
        cbn [JS.ToString JS.ToStringWith]; url_get; reflexivity.
  - unfold createGoogleCalendarLink_params.
    cbn [JS.truthy JS.typeof_object negb orb JS.get].
    destruct (formatDateTimeForGoogle h AnyPastYear
                (JS.lookup "startDate" fields) true) as [fs|]; cbn [bind];
      [|discriminate].
    destruct (formatDateTimeForGoogle h AnyPastYear
                (JS.lookup "endDate" fields) true) as [fe|]; cbn [bind];
      [|discriminate].
    destruct (dateParamValue_Testable fs fe) as [dv|]; cbn [bind];
      [|discriminate].
    destruct (JS.nonempty dv); [|discriminate].
    rewrite Hd, (is_empty_false info Hi), truthy_JString_iff. cbn [negb].
    intros [= <-].
    destruct dsc as [|c dsc']; cbn [Str.is_empty negb].
    + destruct dv, (JS.truthy h (JS.lookup "location" fields));
        cbn [JS.ToString JS.ToStringWith append Str.is_empty negb];
        url_get; reflexivity.
    + destruct dv, (JS.truthy h (JS.lookup "location" fields));
        cbn [JS.ToString JS.ToStringWith append Str.is_empty negb];
        url_get; reflexivity.
Qed.

Lemma details_of_equal_selection_witness :
  URL.get "details"
    [("action", "TEMPLATE"); ("text", "Event from Text");
     ("dates", "20261225/20261226"); ("details", "Lunch at noon")]
  = Some "Lunch at noon".
Proof.
  apply (proj1 (details_of_equal_selection utcHost
                  [("startDate", JString "2026-12-25");
                   ("description", JString "Lunch at noon")]
                  "  Lunch at noon " "20261225/20261226" "Lunch at noon"
                  eq_refl ltac:(discriminate) ltac:(vm_compute; reflexivity))).
  vm_compute. reflexivity.
Defined.

(** ** The exception of the [done] handler *)

(** X15.  The [done] handler of [src/background/index.ts] throws when the
    object has a start date that formats, the selected text is not empty
    and the description is truthy without being a string (a number,
    [true], an array, an object): [trim] is not a function of such a
    value. *)
Theorem extractDate_done_throws (h : Host) (raw info : string)
  (fields : list (string * JValue)) (start : string) :
  extractAndParseJSONFromString raw = Normal (JObject fields) ->
  fields <> [] ->
  formatDateTimeForGoogle h AnyPastYear (JS.lookup "startDate" fields) true
  = Normal (Some start) ->
  info <> "" ->
  JS.truthy h (JS.lookup "description" fields) = true ->
  (forall s, JS.lookup "description" fields <> JString s) ->
  extractDate_done h raw info = Throw "TypeError".
Proof.
  intros Ex Hf Es Hi Ht Hn. unfold extractDate_done. rewrite Ex.
  cbn [bind JS.truthy JS.typeof_object negb orb JS.keys_length JS.get].
  destruct fields as [|f fields]; [congruence|]. cbn [List.length Nat.eqb].
  rewrite Es.
  destruct (formatDateTimeForGoogle_normal h AnyPastYear
              (JS.lookup "endDate" (f :: fields)) true) as [fe ->].
  cbn [bind].
  pose proof (formatDateTimeForGoogle_nonempty h _ _ _ _ Es) as Hs.
  rewrite nonempty_Some by assumption. cbn [negb].
  destruct (dateParamValue_extractDate_some start fe Hs) as (range & -> & Hr).
  cbn [bind]. rewrite (is_empty_false range Hr).
  unfold extractDate_params, trimOrEmpty, JS.or_else. cbn [JS.get].
  rewrite (is_empty_false info Hi), Ht. cbn [negb].
  destruct (JS.lookup "description" (f :: fields)) eqn:D; try reflexivity.
  now destruct (Hn s).
Qed.

Lemma extractDate_done_throws_witness :
  extractDate_done utcHost
    "{'startDate': '2026-12-25', 'description': ['Lunch', 'at noon']}"
    "Lunch at noon"
  = Throw "TypeError".
Proof.
  apply (extractDate_done_throws utcHost _ _
           [("startDate", JString "2026-12-25");
            ("description", JArray [JString "Lunch"; JString "at noon"])]
           "20261225").
  - vm_compute. reflexivity.
  - discriminate.
  - vm_compute. reflexivity.
  - discriminate.
  - reflexivity.
  - discriminate.
Defined.

(** ** The event data of the later background script *)

Lemma get_event_fields (a b c d e f : JValue) :
  let ev := JObject [("title", a); ("startDate", b); ("endDate", c);
                     ("location", d); ("description", e);
                     ("originalText", f)] in
  JS.get ev "title" = a /\ JS.get ev "startDate" = b
  /\ JS.get ev "endDate" = c /\ JS.get ev "location" = d
  /\ JS.get ev "description" = e /\ JS.get ev "originalText" = f.
Proof. repeat split. Qed.

Lemma or_else_idempotent (h : Host) (a b : JValue) :
  JS.truthy h b = false ->
  JS.or_else h (JS.or_else h a b) b = JS.or_else h a b.
Proof.
  intros Hb. unfold JS.or_else.
  destruct (JS.truthy h a) eqn:Ha; [now rewrite Ha | now rewrite Hb].
Qed.

Lemma or_else_empty (h : Host) (a : JValue) :
  JS.or_else h a (JString "") = JString ""
  \/ JS.truthy h (JS.or_else h a (JString "")) = true.
Proof.
  unfold JS.or_else. destruct (JS.truthy h a) eqn:Ha; [right | left];
    [assumption | reflexivity].
Qed.

(** X16.  The event data sent to the confirmation form has the five fields
    of an event, each either truthy or the empty string (never [null] or
    missing), and the selected text; preparing it again changes
    nothing. *)
Theorem done_eventData_fields (h : Host) (jsonObject : JValue)
  (info : string) :
  let eventData := done_eventData h jsonObject info in
  (forall name,
      In name ["title"; "startDate"; "endDate"; "location"; "description"] ->
      JS.get eventData name = JString ""
      \/ JS.truthy h (JS.get eventData name) = true)
  /\ JS.get eventData "originalText" = JString info
  /\ done_eventData h eventData info = eventData.
Proof.
  intros eventData. split; [|split].
  - intros name Hn. cbn [In] in Hn.
    destruct Hn as [<- | [<- | [<- | [<- | [<- | []]]]]];
      apply or_else_empty.
  - reflexivity.
  - unfold eventData.
    set (source := if negb (JS.truthy h jsonObject)
                      || negb (JS.typeof_object jsonObject)
                   then emptyTemplate else jsonObject).
    change (done_eventData h jsonObject info)
      with (JObject
              [("title", JS.or_else h (JS.get source "title") (JString ""));
               ("startDate",
                JS.or_else h (JS.get source "startDate") (JString ""));
               ("endDate",
                JS.or_else h (JS.get source "endDate") (JString ""));
               ("location",
                JS.or_else h (JS.get source "location") (JString ""));
               ("description",
                JS.or_else h (JS.get source "description") (JString ""));
               ("originalText", JString info)]).
    unfold done_eventData. cbn [JS.truthy JS.typeof_object negb orb].
    match goal with
    | |- context [JS.get (JObject [("title", ?a); ("startDate", ?b);
                                   ("endDate", ?c); ("location", ?d);
                                   ("description", ?e);
                                   ("originalText", ?f)]) _] =>
        destruct (get_event_fields a b c d e f)
          as (-> & -> & -> & -> & -> & _)
    end.
    rewrite !or_else_idempotent by reflexivity. reflexivity.
Qed.

(** ** [handleOpenCalendar] *)

Lemma callTrim_string (s : string) : callTrim (JString s) = Normal (Str.trim s).
Proof. reflexivity. Qed.

(** X17.  When nothing usable was extracted, or the extracted object has no
    title, the fallback that opens the calendar without the form stops at
    the title: the user gets the notification that a title is required,
    and no link. *)
Theorem fallback_requires_title (h : Host) (jsonObject : JValue)
  (info : string) :
  JS.truthy h jsonObject = false
  \/ JS.typeof_object jsonObject = false
  \/ JS.truthy h (JS.get jsonObject "title") = false ->
  handleOpenCalendar h (done_eventData h jsonObject info)
  = Normal (ShowNotification "Error" "Event title is required").
Proof.
  intros H.
  unfold handleOpenCalendar, getProp, done_eventData. cbn [bind].
  match goal with
  | |- context [JS.get (JObject [("title", ?a); ("startDate", ?b);
                                 ("endDate", ?c); ("location", ?d);
                                 ("description", ?e);
                                 ("originalText", ?f)]) _] =>
      destruct (get_event_fields a b c d e f) as (-> & _)
  end.
  assert (T : JS.or_else h
                (JS.get (if negb (JS.truthy h jsonObject)
                            || negb (JS.typeof_object jsonObject)
                         then emptyTemplate else jsonObject) "title")
                (JString "") = JString "").
  { destruct (negb (JS.truthy h jsonObject)
              || negb (JS.typeof_object jsonObject)) eqn:G.
    - reflexivity.
    - apply orb_false_elim in G. destruct G as [G1 G2].
      apply negb_false_iff in G1, G2.
      destruct H as [H | [H | H]]; try congruence.
      unfold JS.or_else. now rewrite H. }
  rewrite T. reflexivity.
Qed.

Lemma fallback_requires_title_witness :
  handleOpenCalendar utcHost (done_eventData utcHost JNull "Lunch on Friday")
  = Normal (ShowNotification "Error" "Event title is required").
Proof.
  apply (fallback_requires_title utcHost JNull "Lunch on Friday").
  left. reflexivity.
Defined.

(** What has happened when [handleOpenCalendar] opens a window. *)
Lemma handleOpenCalendar_opened (h : Host) (eventData : JValue)
  (url : string) :
  handleOpenCalendar h eventData = Normal (OpenWindow url) ->
  exists title start fin range ps,
    JS.get eventData "title" = JString title
    /\ Str.trim title <> ""
    /\ formatDateTimeForGoogle h OlderThanOneYear
         (JS.get eventData "startDate") false = Normal (Some start)
    /\ dateParamValue_extractDate start fin = Normal range
    /\ handleOpenCalendar_params h eventData range = Normal ps
    /\ url = URL.toString calendarBase ps.
Proof.
  unfold handleOpenCalendar. intros H.
  destruct (getProp eventData "title") as [title|e] eqn:Et;
    cbn [bind try_catch] in H; [|discriminate].
  assert (Gt : JS.get eventData "title" = title)
    by (destruct eventData; cbn [getProp] in Et; congruence).
  destruct (JS.truthy h title); cbn [negb bind try_catch] in H;
    [|discriminate].
  destruct title as [| | | |t| |]; cbn [callTrim bind try_catch] in H;
    try discriminate.
  destruct (Str.trim t) as [|c r] eqn:Tt; cbn [Str.is_empty] in H;
    [discriminate|].
  destruct (negb (JS.truthy h (JS.get eventData "startDate")));
    [discriminate|].
  destruct (formatDateTimeForGoogle h OlderThanOneYear
              (JS.get eventData "startDate") false) as [fs|e] eqn:Es;
    cbn [bind try_catch] in H; [|discriminate].
  destruct (if JS.truthy h (JS.get eventData "endDate")
            then formatDateTimeForGoogle h OlderThanOneYear
                   (JS.get eventData "endDate") false
            else Normal None) as [fe|e];
    cbn [bind try_catch] in H; [|discriminate].
  destruct fs as [start|]; [|discriminate].
  destruct (negb (JS.nonempty (Some start))); [discriminate|].
  destruct (dateParamValue_extractDate start fe) as [range|e] eqn:Er;
    cbn [bind try_catch] in H; [|discriminate].
  destruct (Str.is_empty range); [discriminate|].
  destruct (handleOpenCalendar_params h eventData range) as [ps|e] eqn:Ep;
    cbn [bind try_catch] in H; [|discriminate].
  injection H as <-.
  exists t, start, fe, range, ps. rewrite Tt.
  repeat split; try assumption. discriminate.
Qed.

Lemma handleOpenCalendar_params_head (h : Host) (eventData : JValue)
  (dateParamValue : string) (ps : URL.params) :
  handleOpenCalendar_params h eventData dateParamValue = Normal ps ->
  exists rest,
    ps = ("action", "TEMPLATE")
         :: ("text",
             JS.ToString h
               (JS.or_else h (JS.get eventData "title")
                  (JString "Event from Text")))
         :: ("dates", dateParamValue) :: rest.
Proof.
  unfold handleOpenCalendar_params.
  destruct (if JS.truthy h (JS.get eventData "originalText")
            then o <- callTrim (JS.get eventData "originalText") ;;
                 d <- trimOrEmpty h (JS.get eventData "description") ;;
                 Normal (negb (String.eqb o d))
            else Normal false) as [differs|e]; cbn [bind]; [|discriminate].
  intros [= <-].
  destruct (JS.truthy h (JS.get eventData "location")),
    (JS.truthy h _); eexists; reflexivity.
Qed.

Lemma trim_nonempty (s : string) : Str.trim s <> "" -> s <> "".
Proof. intros H ->. apply H. reflexivity. Qed.

(** X18.  A link opened by [handleOpenCalendar] always carries the title of
    the event itself, a string that is not blank: the default title
    [Event from Text] of its code is never used. *)
Theorem handleOpenCalendar_title (h : Host) (eventData : JValue)
  (url : string) :
  handleOpenCalendar h eventData = Normal (OpenWindow url) ->
  exists title range tail,
    JS.get eventData "title" = JString title
    /\ Str.trim title <> ""
    /\ url
       = calendarBase ++ "?action=TEMPLATE&text="
         ++ URL.encode (URL.scalar title)
         ++ "&dates=" ++ URL.encode (URL.scalar range) ++ tail.
Proof.
  intros H.
  destruct (handleOpenCalendar_opened h eventData url H)
    as (title & start & fe & range & ps & Gt & Tt & _ & _ & Ep & ->).
  destruct (handleOpenCalendar_params_head h eventData range ps Ep)
    as [rest ->].
  rewrite Gt.
  unfold JS.or_else. rewrite truthy_JString by (apply trim_nonempty, Tt).
  change (JS.ToString h (JString title)) with title.
  destruct (serialize_head "action" "TEMPLATE" "text" title
              "dates" range rest) as [tail St].
  exists title, range, tail. repeat split; try assumption.
  unfold URL.toString. rewrite St. reflexivity.
Qed.

Lemma handleOpenCalendar_title_witness :
  exists title range tail,
    JS.get (formEvent "Lunch" "2026-12-25T12:00" "" "" "" "") "title"
    = JString title
    /\ Str.trim title <> ""
    /\ "https://www.google.com/calendar/event?action=TEMPLATE&text=Lunch&dates=20261225T120000Z"
       = calendarBase ++ "?action=TEMPLATE&text="
         ++ URL.encode (URL.scalar title)
         ++ "&dates=" ++ URL.encode (URL.scalar range) ++ tail.
Proof.
  apply (handleOpenCalendar_title utcHost
           (formEvent "Lunch" "2026-12-25T12:00" "" "" "" "")).
  vm_compute. reflexivity.
Defined.

Lemma formEvent_fields (title startDate endDate location description
  originalText : string) :
  let ev := formEvent title startDate endDate location description
              originalText in
  JS.get ev "title" = JString title
  /\ JS.get ev "startDate" = JString startDate
  /\ JS.get ev "endDate" = JString endDate
  /\ JS.get ev "location" = JString location
  /\ JS.get ev "description" = JString description
  /\ JS.get ev "originalText" = JString originalText.
Proof. repeat split. Qed.

(** With strings in all six fields the parameters are always built. *)
Lemma handleOpenCalendar_params_form (h : Host)
  (title startDate endDate location description originalText range
   : string) :
  exists ps,
    handleOpenCalendar_params h
      (formEvent title startDate endDate location description originalText)
      range = Normal ps.
Proof.
  unfold handleOpenCalendar_params.
  destruct (formEvent_fields title startDate endDate location description
              originalText) as (-> & _ & _ & -> & -> & ->).
  unfold trimOrEmpty, JS.or_else. rewrite !truthy_JString_iff.
  destruct (negb (Str.is_empty originalText)),
    (negb (Str.is_empty description)); cbn [callTrim bind];
    eexists; reflexivity.
Qed.

(** X19.  On an event whose fields are all strings, as the confirmation
    form submits it, [handleOpenCalendar] never fails silently: it
    notifies that the title is blank, that the start date is missing or
    that it does not parse, in this order, or it opens a window. *)
Theorem handleOpenCalendar_form_outcome (h : Host)
  (title startDate endDate location description originalText : string) :
  let eventData :=
    formEvent title startDate endDate location description originalText in
  (Str.trim title = ""
   /\ handleOpenCalendar h eventData
      = Normal (ShowNotification "Error" "Event title is required"))
  \/ (Str.trim title <> "" /\ startDate = ""
      /\ handleOpenCalendar h eventData
         = Normal (ShowNotification "Error" "Start date is required"))
  \/ (Str.trim title <> "" /\ startDate <> ""
      /\ formatDateTimeForGoogle h OlderThanOneYear (JString startDate) false
         = Normal None
      /\ handleOpenCalendar h eventData
         = Normal (ShowNotification "Error" "Invalid start date format"))
  \/ (Str.trim title <> "" /\ startDate <> ""
      /\ exists start url,
           formatDateTimeForGoogle h OlderThanOneYear (JString startDate)
             false = Normal (Some start)
           /\ handleOpenCalendar h eventData = Normal (OpenWindow url)).
Proof.
  intros eventData. unfold handleOpenCalendar, getProp.
  change (match eventData with
          | JUndefined | JNull => Throw "TypeError"
          | _ => Normal (JS.get eventData "title")
          end) with (Normal (A := JValue) (JS.get eventData "title")).
  destruct (formEvent_fields title startDate endDate location description
              originalText) as (Gt & Gs & Ge & _).
  fold eventData in Gt, Gs, Ge. rewrite Gt, Gs, Ge. cbn [bind].
  rewrite !truthy_JString_iff.
  destruct title as [|c title']; [left; split; reflexivity|].
  cbn [Str.is_empty negb callTrim bind].
  destruct (Str.trim (String c title')) as [|c' r] eqn:Tt;
    [left; split; reflexivity|].
  cbn [Str.is_empty]. right.
  destruct startDate as [|s startDate'];
    [left; repeat split; discriminate|].
  cbn [Str.is_empty negb]. right.
  destruct (formatDateTimeForGoogle_normal h OlderThanOneYear
              (JString (String s startDate')) false) as [fs Es].
  rewrite Es. cbn [bind].
  assert (Ee : exists fe,
             (if negb (Str.is_empty endDate)
              then formatDateTimeForGoogle h OlderThanOneYear
                     (JString endDate) false
              else Normal None) = Normal fe).
  { destruct (negb (Str.is_empty endDate)); [|eauto].
    apply formatDateTimeForGoogle_normal. }
  destruct Ee as [fe ->]. cbn [bind].
  destruct fs as [start|];
    [right | left; repeat split; discriminate].
  pose proof (formatDateTimeForGoogle_nonempty h _ _ _ _ Es) as Hs.
  rewrite nonempty_Some by assumption. cbn [negb].
  destruct (dateParamValue_extractDate_some start fe Hs) as (range & -> & Hr).
  cbn [bind]. rewrite (is_empty_false range Hr).
  destruct (handleOpenCalendar_params_form h (String c title')
              (String s startDate') endDate location description
              originalText range) as [ps Ep].
  fold eventData in Ep. rewrite Ep. cbn [bind try_catch].
  split; [discriminate|]. split; [discriminate|].
  exists start, (URL.toString calendarBase ps). split; reflexivity.
Qed.

(** X20.  [handleOpenCalendar] does nothing the user can see, neither a
    notification nor a window, when there is no event data or when the
    title is truthy and not a string (a number, [true], an array, an
    object): the [TypeError] is caught and only logged. *)
Theorem handleOpenCalendar_silent (h : Host) (eventData : JValue) :
  eventData = JNull \/ eventData = JUndefined
  \/ (JS.truthy h (JS.get eventData "title") = true
      /\ forall s, JS.get eventData "title" <> JString s) ->
  handleOpenCalendar h eventData = Normal ConsoleError.
Proof.
  intros [-> | [-> | [Ht Hn]]]; try reflexivity.
  unfold handleOpenCalendar.
  destruct (getProp eventData "title") as [title|e] eqn:Et;
    cbn [bind try_catch]; [|reflexivity].
  assert (Gt : JS.get eventData "title" = title)
    by (destruct eventData; cbn [getProp] in Et; congruence).
  rewrite Gt in Ht, Hn. rewrite Ht. cbn [negb].
  destruct title; try reflexivity. now destruct (Hn s).
Qed.

Lemma handleOpenCalendar_silent_witness :
  handleOpenCalendar utcHost
    (done_eventData utcHost
       (JObject [("title", JArray [JString "Lunch"]);
                 ("startDate", JString "2026-12-25")]) "Lunch")
  = Normal ConsoleError.
Proof.
  apply (handleOpenCalendar_silent utcHost).
  right. right. split; [reflexivity | discriminate].
Defined.

Lemma hasLength8_longer (a b : string) :
  hasLength8 a = true -> b <> "" -> hasLength8 (a ++ b) = false.
Proof.
  unfold hasLength8. intros Ha Hb. apply Nat.eqb_eq in Ha.
  apply Nat.eqb_neq. rewrite string_length_app, Ha.
  destruct b; [congruence | simpl; lia].
Qed.

(** X21.  A date of a past year that the user confirms is kept:
    [handleOpenCalendar] formats with the adjustment off, so on a host in
    UTC an event with a title, a start written [YYYY-MM-DDTHH:mm:ss] and
    nothing else opens the link with exactly that date and time, whatever
    the clock says. *)
Theorem handleOpenCalendar_keeps_past_year (h : Host) (title : string)
  (y m d hh mi ss : Z) :
  tza h = 0 ->
  1000 <= y <= 9999 -> validDate y m d -> validTime hh mi ss ->
  Str.trim title <> "" ->
  handleOpenCalendar h
    (formEvent title (isoDateTime y m d hh mi ss) "" "" "" "")
  = Normal
      (OpenWindow
         (calendarBase ++ "?action=TEMPLATE&text="
          ++ URL.encode (URL.scalar title) ++ "&dates="
          ++ URL.encode
               (URL.scalar
                  (dateText y m d ++ "T" ++ pad2 (Some hh) ++ pad2 (Some mi)
                   ++ pad2 (Some ss) ++ "Z")))).
Proof.
  intros Hz Hy Hv Ht Htitle.
  pose proof (format_isoDateTime_utc h OlderThanOneYear false y m d hh mi ss
                Hz Hy Hv Ht ltac:(discriminate)) as F.
  pose proof (isoDateTime_nonempty y m d hh mi ss) as Hn.
  set (s := isoDateTime y m d hh mi ss) in *.
  set (r := dateText y m d ++ "T" ++ pad2 (Some hh) ++ pad2 (Some mi)
            ++ pad2 (Some ss) ++ "Z") in *.
  assert (H8 : hasLength8 r = false).
  { unfold r. apply hasLength8_longer; [|discriminate].
    pose proof (daysInMonth_range y m). destruct Hv.
    apply dateText_length8; lia. }
  assert (Hr : r <> "").
  { unfold r. apply nonempty_app, dateText_nonempty. }
  unfold handleOpenCalendar, getProp.
  change (match formEvent title s "" "" "" "" with
          | JUndefined | JNull => Throw "TypeError"
          | _ => Normal (JS.get (formEvent title s "" "" "" "") "title")
          end)
    with (Normal (A := JValue) (JS.get (formEvent title s "" "" "" "") "title")).
  unfold handleOpenCalendar_params, trimOrEmpty, JS.or_else.
  destruct (formEvent_fields title s "" "" "" "")
    as (-> & -> & -> & -> & -> & ->).
  cbn [bind]. rewrite !truthy_JString_iff.
  rewrite (is_empty_false title (trim_nonempty title Htitle)),
    (is_empty_false s Hn).
  cbn [negb callTrim bind Str.is_empty].
  rewrite (is_empty_false _ Htitle). rewrite F. cbn [bind].
  rewrite nonempty_Some by assumption. cbn [negb].
  unfold dateParamValue_extractDate. rewrite H8. cbn [bind].
  rewrite (is_empty_false r Hr). cbn [bind try_catch].
  reflexivity.
Qed.

Lemma handleOpenCalendar_keeps_past_year_witness :
  handleOpenCalendar utcHost
    (formEvent "Reunion" (isoDateTime 2019 6 1 9 30 0) "" "" "" "")
  = Normal
      (OpenWindow
         "https://www.google.com/calendar/event?action=TEMPLATE&text=Reunion&dates=20190601T093000Z").
Proof.
  apply (handleOpenCalendar_keeps_past_year utcHost "Reunion" 2019 6 1 9 30 0).
  - reflexivity.
  - lia.
  - split; [lia | vm_compute; split; discriminate].
  - unfold validTime. lia.
  - vm_compute. discriminate.
Defined.

(** ** The confirmation form *)

(** [MakeDay] of the calendar fields of a time is its day. *)
Lemma MakeDay_of_fields (t : Z) :
  Cal.MakeDay (Cal.YearFromTime t) (Cal.MonthFromTime t) (Cal.DateFromTime t)
  = Cal.Day t.
Proof.
  pose proof (MonthFromTime_range t) as Hm. unfold Cal.MakeDay.
  replace (Cal.MonthFromTime t / 12) with 0
    by (Z.div_mod_to_equations; lia).
  replace (Cal.MonthFromTime t mod 12) with (Cal.MonthFromTime t)
    by (Z.div_mod_to_equations; lia).
  rewrite Z.add_0_r.
  unfold Cal.DateFromTime, Cal.DayWithinYear, Cal.InLeapYear. lia.
Qed.

(** Rebuilding a time from its day, hour and minute drops the seconds and
    milliseconds. *)
Lemma MakeDate_of_fields (t : Z) :
  Cal.MakeDate (Cal.Day t)
    (Cal.MakeTime (Cal.HourFromTime t) (Cal.MinFromTime t) 0 0)
  = t - t mod 60000.
Proof.
  unfold Cal.MakeDate, Cal.Day, Cal.MakeTime, Cal.HourFromTime,
    Cal.MinFromTime, Cal.msPerDay, Cal.msPerHour, Cal.msPerMinute,
    Cal.msPerSecond.
  Z.div_mod_to_equations. lia.
Qed.

Lemma parse_iso_date_minutes (y m d hh mi : Z) :
  1000 <= y <= 9999 -> 1 <= m <= 12 -> 1 <= d <= 31 ->
  0 <= hh <= 23 -> 0 <= mi <= 59 ->
  Date.parse_iso
    (isoDate y m d ++ "T" ++ pad2 (Some hh) ++ ":" ++ pad2 (Some mi))
  = Date.IsoLocal
      (Cal.MakeDate (Cal.MakeDay y (m - 1) d) (Cal.MakeTime hh mi 0 0)).
Proof.
  intros Hy Hm Hd Hh Hi. unfold Date.parse_iso, isoDate.
  rewrite !string_app_assoc.
  rewrite iso_year_printed by assumption.
  cbn [append Date.iso_month_day].
  rewrite digitsN_pad2 by lia. cbn [append].
  rewrite digitsN_pad2 by lia. cbn [append]. unfold Date.iso_time.
  rewrite digitsN_pad2 by lia. cbn [append].
  rewrite <- (string_app_empty_r (pad2 (Some mi))).
  rewrite digitsN_pad2 by lia. cbn [Date.iso_offset].
  replace ((1 <=? m) && (m <=? 12) && (1 <=? d) && (d <=? 31)) with true
    by (symmetry; rewrite !andb_true_iff, !Z.leb_le; lia).
  unfold Date.time_in_bounds.
  replace ((hh <=? 23) && (mi <=? 59) && (0 <=? 59)) with true
    by (symmetry; rewrite !andb_true_iff, !Z.leb_le; lia).
  reflexivity.
Qed.

Lemma localDateTime_fields (h : Host) (t : Z) :
  let l := Date.LocalTime h t in
  localDateTime h (Some t)
  = isoDate (Cal.YearFromTime l) (Cal.MonthFromTime l + 1)
      (Cal.DateFromTime l)
    ++ "T" ++ pad2 (Some (Cal.HourFromTime l)) ++ ":"
    ++ pad2 (Some (Cal.MinFromTime l)).
Proof.
  intros l. unfold localDateTime, isoDate, Date.getFullYear, Date.getMonth,
    Date.getDate, getHours, getMinutes.
  cbn [option_map Num.add]. fold l. rewrite !string_app_assoc. reflexivity.
Qed.

Lemma Day_bounds_of_year (t : Z) :
  1000 <= Cal.YearFromTime t <= 9999 -> -360000 <= Cal.Day t <= 2940000.
Proof.
  intros Hy. unfold Cal.YearFromTime in Hy.
  pose proof (YearFromDay_spec (Cal.Day t)) as [A B].
  pose proof (DayFromYear_lower (Cal.YearFromDay (Cal.Day t))).
  pose proof (DayFromYear_upper (Cal.YearFromDay (Cal.Day t) + 1)).
  lia.
Qed.

(** The text of the form's date field, read again by the date parser. *)
Lemma parse_localDateTime (h : Host) (t : Z) :
  tza h mod 60000 = 0 -> Z.abs (tza h) <= Cal.msPerDay ->
  1000 <= Cal.YearFromTime (Date.LocalTime h t) <= 9999 ->
  Date.parse h (localDateTime h (Some t)) = Some (t - t mod 60000).
Proof.
  intros Hz Hb Hy. rewrite localDateTime_fields.
  set (l := Date.LocalTime h t) in *.
  pose proof (MonthFromTime_range l). pose proof (DateFromTime_range l).
  pose proof (HourFromTime_range l). pose proof (MinFromTime_range l).
  unfold Date.parse. rewrite parse_iso_date_minutes by lia.
  replace (Cal.MonthFromTime l + 1 - 1) with (Cal.MonthFromTime l) by lia.
  rewrite MakeDay_of_fields, MakeDate_of_fields.
  pose proof (Day_bounds_of_year l Hy) as Db.
  assert (E : Date.UTC h (l - l mod 60000) = t - t mod 60000).
  { unfold Date.UTC, l, Date.LocalTime.
    replace ((t + tza h) mod 60000) with (t mod 60000); [lia|].
    rewrite Z.add_mod, Hz, Z.add_0_r, Z.mod_mod by lia. reflexivity. }
  rewrite E. apply TimeClip_in_range.
  unfold Cal.Day, l, Date.LocalTime, Cal.msPerDay, Cal.maxTime in *.
  Z.div_mod_to_equations. lia.
Qed.

Lemma localDateTime_not_all_day (h : Host) (date : option Z) :
  isAllDay (localDateTime h date) = false.
Proof.
  destruct (isAllDay _) eqn:E; [|reflexivity].
  apply isAllDay_length in E. unfold localDateTime in E.
  rewrite !string_length_app in E.
  pose proof (pad2_length_ge (Num.add (Date.getMonth h date) (Some 1))).
  pose proof (pad2_length_ge (Date.getDate h date)).
  pose proof (pad2_length_ge (getHours h date)).
  pose proof (pad2_length_ge (getMinutes h date)).
  cbn [String.length] in E. lia.
Qed.

Lemma localDateTime_nonempty (h : Host) (date : option Z) :
  localDateTime h date <> "".
Proof.
  apply length_pos_nonempty. unfold localDateTime.
  rewrite !string_length_app.
  pose proof (pad2_length_ge (getMinutes h date)). lia.
Qed.

Lemma formatDateForInput_accepted (h : Host) (s : string) (t : Z) :
  s <> "" -> Date.parse h s = Some t ->
  formatDateForInput h (JString s) true
  = Normal (localDateTime h (Some t)).
Proof.
  intros Hs Hp. unfold formatDateForInput.
  rewrite (truthy_JString h s Hs). cbn [negb Date.new]. rewrite Hp.
  reflexivity.
Qed.

(** X22.  The date that the confirmation form shows is never in the all-day
    form [YYYY-MM-DD]: whatever the event data hold, the value of the
    field is empty or a local date with a time, so a date confirmed
    unchanged is formatted as a timed one. *)
Theorem formatDateForInput_never_all_day (h : Host) (dateString : JValue) :
  exists value,
    formatDateForInput h dateString true = Normal value
    /\ isAllDay value = false.
Proof.
  unfold formatDateForInput.
  destruct (negb (JS.truthy h dateString)); [eauto|].
  destruct (Date.new h dateString) as [t|]; cbn [try_catch]; [|eauto].
  eexists. split; [reflexivity|]. apply localDateTime_not_all_day.
Qed.

(** X23.  The date that the confirmation form shows, submitted unchanged, is
    read back as the instant that was parsed, cut to the minute, and
    formatted as a timed date: on any host whose offset is a whole number
    of minutes, for a date whose local year has four digits. *)
Theorem form_date_reads_back (h : Host) (p : YearPolicy) (s : string)
  (t : Z) :
  tza h mod 60000 = 0 -> Z.abs (tza h) <= Cal.msPerDay ->
  s <> "" -> Date.parse h s = Some t ->
  1000 <= Cal.YearFromTime (Date.LocalTime h t) <= 9999 ->
  exists value,
    formatDateForInput h (JString s) true = Normal value
    /\ Date.parse h value = Some (t - t mod 60000)
    /\ formatDateTimeForGoogle h p (JString value) false
       = Normal (Some (formatTimed (Some (t - t mod 60000)))).
Proof.
  intros Hz Hb Hs Hp Hy. exists (localDateTime h (Some t)).
  pose proof (parse_localDateTime h t Hz Hb Hy) as P.
  split; [apply formatDateForInput_accepted; assumption|].
  split; [assumption|].
  rewrite (formatDateTimeForGoogle_accepted h p false _ _
             (localDateTime_nonempty h (Some t)) P).
  rewrite adjustedDate_off. unfold render.
  rewrite localDateTime_not_all_day. reflexivity.
Qed.

Lemma form_date_reads_back_witness :
  exists value,
    formatDateForInput westHost (JString "2026-12-25T18:30:45") true
    = Normal value
    /\ Date.parse westHost value = Some (1798241445000 - 1798241445000 mod 60000)
    /\ formatDateTimeForGoogle westHost AnyPastYear (JString value) false
       = Normal (Some (formatTimed
                         (Some (1798241445000 - 1798241445000 mod 60000)))).
Proof.
  apply (form_date_reads_back westHost AnyPastYear "2026-12-25T18:30:45"
           1798241445000).
  - reflexivity.
  - vm_compute. discriminate.
  - discriminate.
  - vm_compute. reflexivity.
  - vm_compute. split; discriminate.
Defined.

Lemma year_near_day (y m d D : Z) :
  1001 <= y <= 9998 -> 0 <= m <= 11 -> 1 <= d <= 31 ->
  Cal.MakeDay y m d - 1 <= D <= Cal.MakeDay y m d + 1 ->
  1000 <= Cal.YearFromDay D <= 9999.
Proof.
  intros Hy Hm Hd HD.
  assert (B : Cal.DayFromYear y <= Cal.MakeDay y m d
              <= Cal.DayFromYear y + 366).
  { unfold Cal.MakeDay.
    replace (m / 12) with 0 by (Z.div_mod_to_equations; lia).
    replace (m mod 12) with m by (Z.div_mod_to_equations; lia).
    rewrite !Z.add_0_r.
    destruct (monthStart_range m (if Cal.isLeap y then 1 else 0) Hm
                ltac:(destruct (Cal.isLeap y); lia)) as [[? ?] _].
    destruct (Cal.isLeap y); lia. }
  pose proof (YearFromDay_spec D) as [A1 A2].
  pose proof (DayFromYear_lower y). pose proof (DayFromYear_upper y).
  pose proof (DayFromYear_lower (Cal.YearFromDay D)).
  pose proof (DayFromYear_upper (Cal.YearFromDay D + 1)).
  lia.
Qed.

Lemma formatTimed_midnight (y m d : Z) :
  0 <= m <= 11 -> 1 <= d <= daysInMonth y (m + 1) ->
  formatTimed (Some (Cal.MakeDate (Cal.MakeDay y m d) 0))
  = dateText y (m + 1) d ++ "T000000Z".
Proof.
  intros Hm Hd.
  destruct (fields_of_MakeDay y m d Hm Hd) as (Fy & Fm & Fd & _).
  destruct (time_fields (Cal.MakeDay y m d) 0 0 0
              ltac:(unfold validTime; lia)) as (Fh & Fi & Fs).
  change (Cal.MakeTime 0 0 0 0) with 0 in Fh, Fi, Fs.
  unfold formatTimed, dateText, Date.getUTCFullYear, Date.getUTCMonth,
    Date.getUTCDate, Date.getUTCHours, Date.getUTCMinutes,
    Date.getUTCSeconds.
  cbn [option_map Num.add]. rewrite Fy, Fm, Fd, Fh, Fi, Fs.
  rewrite !string_app_assoc. reflexivity.
Qed.

(** X24.  An all-day event that passes through the confirmation form
    becomes a timed one: the form shows the local time of the date's UTC
    midnight, and that value, submitted unchanged, is formatted as
    [YYYYMMDDT000000Z], on every host whose offset is a whole number of
    minutes and at most a day. *)
Theorem form_turns_all_day_into_timed (h : Host) (p : YearPolicy)
  (y m d : Z) :
  tza h mod 60000 = 0 -> Z.abs (tza h) <= Cal.msPerDay ->
  1001 <= y <= 9998 -> validDate y m d ->
  exists value,
    formatDateForInput h (JString (isoDate y m d)) true = Normal value
    /\ formatDateTimeForGoogle h p (JString value) false
       = Normal (Some (dateText y m d ++ "T000000Z")).
Proof.
  intros Hz Hb Hy Hv. destruct (validDate_day y m d Hv) as (Hm & Hd & Hd').
  pose proof (parse_isoDate h y m d ltac:(lia) Hv) as Hp.
  set (t := Cal.MakeDate (Cal.MakeDay y (m - 1) d) 0) in *.
  assert (Hl : 1000 <= Cal.YearFromTime (Date.LocalTime h t) <= 9999).
  { unfold Cal.YearFromTime.
    apply (year_near_day y (m - 1) d); try assumption.
    unfold Cal.Day, Date.LocalTime, t, Cal.MakeDate, Cal.msPerDay in *.
    Z.div_mod_to_equations. lia. }
  assert (Hmod : t - t mod 60000 = t).
  { unfold t, Cal.MakeDate, Cal.msPerDay. Z.div_mod_to_equations. lia. }
  exists (localDateTime h (Some t)).
  split; [apply formatDateForInput_accepted;
          [apply isoDate_nonempty | assumption]|].
  pose proof (parse_localDateTime h t Hz Hb Hl) as P. rewrite Hmod in P.
  rewrite (formatDateTimeForGoogle_accepted h p false _ _
             (localDateTime_nonempty h (Some t)) P).
  rewrite adjustedDate_off. unfold render.
  rewrite localDateTime_not_all_day. unfold t.
  rewrite formatTimed_midnight by assumption.
  replace (m - 1 + 1) with m by lia. reflexivity.
Qed.

Lemma form_turns_all_day_into_timed_witness :
  exists value,
    formatDateForInput westHost (JString (isoDate 2026 12 25)) true
    = Normal value
    /\ formatDateTimeForGoogle westHost OlderThanOneYear (JString value) false
       = Normal (Some ("20261225" ++ "T000000Z")).
Proof.
  apply (form_turns_all_day_into_timed westHost OlderThanOneYear 2026 12 25).
  - reflexivity.
  - vm_compute. discriminate.
  - lia.
  - split; [lia | vm_compute; split; discriminate].
Defined.

Lemma digit_not_T (c : ascii) :
  Str.is_digit c = true -> Ascii.eqb "T"%char c = false.
Proof.
  destruct c as [[] [] [] [] [] [] [] []]; try discriminate; reflexivity.
Qed.

Lemma isoDate_without_T (y m d : Z) :
  1000 <= y <= 9999 -> 0 <= m <= 99 -> 0 <= d <= 99 ->
  Str.indexOf "T"%char (isoDate y m d) = None.
Proof.
  intros Hy Hm Hd. unfold isoDate.
  destruct (fourDigits_inv _ (year_fourDigits y Hy))
    as (a & b & c & e & -> & Ha & Hb & Hc & He).
  destruct (twoDigits_inv _ (pad2_twoDigits m Hm))
    as (m1 & m2 & -> & Hm1 & Hm2).
  destruct (twoDigits_inv _ (pad2_twoDigits d Hd))
    as (d1 & d2 & -> & Hd1 & Hd2).
  cbn [append Str.indexOf].
  rewrite (digit_not_T a Ha), (digit_not_T b Hb), (digit_not_T c Hc),
    (digit_not_T e He), (digit_not_T m1 Hm1), (digit_not_T m2 Hm2),
    (digit_not_T d1 Hd1), (digit_not_T d2 Hd2).
  reflexivity.
Qed.

Lemma isoYearText_four_digits (y : Z) :
  1000 <= y <= 9999 -> isoYearText y = Num.toString (Some y).
Proof.
  intros Hy. unfold isoYearText.
  replace ((0 <=? y) && (y <=? 9999)) with true
    by (symmetry; rewrite andb_true_iff, !Z.leb_le; lia).
  destruct (fourDigits_inv _ (year_fourDigits y Hy))
    as (a & b & c & e & E & _).
  cbn [Num.toString] in E |- *. rewrite E. reflexivity.
Qed.

(** X25.  [formatDateForDisplay] returns a calendar date written
    [YYYY-MM-DD] unchanged, on every host: it prints the UTC fields of
    the date, where the formatter of the link prints the local ones. *)
Theorem formatDateForDisplay_all_day (h : Host) (y m d : Z) :
  1000 <= y <= 9999 -> validDate y m d ->
  formatDateForDisplay h (JString (isoDate y m d)) = Normal (isoDate y m d).
Proof.
  intros Hy Hv. destruct (validDate_day y m d Hv) as (Hm & Hd & Hd').
  pose proof (daysInMonth_range y m). pose proof Hv as [Hv1 Hv2].
  unfold formatDateForDisplay.
  rewrite (truthy_JString h _ (isoDate_nonempty y m d)).
  cbn [negb Date.new JS.ToString JS.ToStringWith].
  rewrite parse_isoDate by assumption.
  rewrite isAllDay_isoDate by lia.
  destruct (fields_of_MakeDay y (m - 1) d Hm Hd) as (Fy & Fm & Fd & _).
  unfold toISOString. rewrite Fy, Fm, Fd.
  replace (m - 1 + 1) with m by lia.
  rewrite isoYearText_four_digits by assumption.
  cbn [bind try_catch]. f_equal. unfold beforeFirstT.
  change (Num.toString (Some y) ++ "-" ++ pad2 (Some m) ++ "-"
          ++ pad2 (Some d) ++ "T" ++ ?r)
    with (Num.toString (Some y) ++ "-" ++ pad2 (Some m) ++ "-"
          ++ pad2 (Some d) ++ String "T"%char r).
  rewrite <- !string_app_assoc.
  rewrite (string_app_assoc (Num.toString (Some y)) "-").
  rewrite (string_app_assoc _ "-" (pad2 (Some d))).
  rewrite (string_app_assoc (Num.toString (Some y))).
  fold (isoDate y m d).
  rewrite indexOf_app_first by (apply isoDate_without_T; lia).
  apply take_app_length.
Qed.

Lemma formatDateForDisplay_all_day_witness :
  formatDateForDisplay westHost (JString (isoDate 2026 12 25))
  = Normal "2026-12-25".
Proof.
  apply (formatDateForDisplay_all_day westHost 2026 12 25).
  - lia.
  - split; [lia | vm_compute; split; discriminate].
Defined.

(** ** The stored log *)

(** What one call of [Logger.log] writes back: the end of the old log and
    the new entry. *)
Lemma log_stored_spec {A : Type} (existingLogs : option (list A))
  (entry : A) :
  let old := match existingLogs with Some l => l | None => [] end in
  exists dropped kept,
    old = (dropped ++ kept)%list
    /\ log_stored existingLogs entry = (kept ++ [entry])%list
    /\ (List.length kept < maxLogEntries)%nat
    /\ ((List.length old < maxLogEntries)%nat -> dropped = []).
Proof.
  intros old. unfold log_stored. fold old.
  assert (La : List.length (old ++ [entry]) = S (List.length old))
    by (rewrite List.length_app; simpl; lia).
  rewrite La.
  destruct (Nat.ltb_spec maxLogEntries (S (List.length old))) as [Hlt | Hge].
  - set (k := (S (List.length old) - maxLogEntries)%nat).
    assert (Hk : (k <= List.length old)%nat)
      by (unfold k, maxLogEntries in *; lia).
    exists (List.firstn k old), (List.skipn k old).
    split; [symmetry; apply List.firstn_skipn|].
    split.
    + rewrite List.skipn_app.
      replace (k - List.length old)%nat with 0%nat by lia. reflexivity.
    + split; [rewrite List.length_skipn; unfold k; lia | lia].
  - exists [], old. repeat split; lia.
Qed.

(** X26.  One call of [Logger.log] leaves at most [maxLogEntries] entries in
    the storage, whatever was stored before: the end of the old log
    followed by the new entry, with nothing dropped while there is room;
    so the stored log is bounded after any run of calls. *)
Theorem log_stored_bounded {A : Type} (existingLogs : option (list A))
  (entry : A) (entries : list A) :
  let old := match existingLogs with Some l => l | None => [] end in
  let logs := log_stored existingLogs entry in
  (List.length logs <= maxLogEntries)%nat
  /\ (exists dropped kept,
        old = (dropped ++ kept)%list /\ logs = (kept ++ [entry])%list)
  /\ ((List.length old < maxLogEntries)%nat ->
      logs = (old ++ [entry])%list)
  /\ (List.length
        (List.fold_left (fun l e => log_stored (Some l) e) entries logs)
      <= maxLogEntries)%nat.
Proof.
  intros old logs.
  destruct (log_stored_spec existingLogs entry)
    as (dropped & kept & Eo & El & Hk & Hd).
  fold old in Eo, Hd. fold logs in El.
  assert (B : (List.length logs <= maxLogEntries)%nat).
  { rewrite El, List.length_app. cbn [List.length]. lia. }
  split; [exact B|]. split; [exists dropped, kept; split; assumption|].
  split.
  - intros Hr. rewrite El, Eo, (Hd Hr). reflexivity.
  - clearbody logs. clear - B. revert logs B.
    induction entries as [|e entries IH]; intros logs B; [exact B|].
    cbn [List.fold_left]. apply IH.
    destruct (log_stored_spec (Some logs) e) as (dr & kp & _ & -> & Hk & _).
    rewrite List.length_app. cbn [List.length]. lia.
Qed.

(** X27.  [getLogs(limit)] with a positive limit returns at most [limit]
    entries, the most recent ones; right after a call of [log],
    [getLogs(1)] returns exactly the entry just logged. *)
Theorem getLogs_most_recent {A : Type} (stored : option (list A))
  (entry : A) (limit : Z) :
  0 < limit ->
  let old := match stored with Some l => l | None => [] end in
  (Z.of_nat (List.length (getLogs stored (Some limit))) <= limit)
  /\ (exists earlier,
        old = (earlier ++ getLogs stored (Some limit))%list)
  /\ getLogs (Some (log_stored stored entry)) (Some 1) = [entry].
Proof.
  intros Hl old. unfold getLogs. fold old.
  destruct (Z.ltb_spec 0 limit) as [_|]; [|lia].
  change (0 <? 1) with true. cbv iota.
  split; [rewrite List.length_skipn; lia|].
  split.
  - exists (List.firstn (List.length old - Z.to_nat limit) old).
    symmetry. apply List.firstn_skipn.
  - destruct (log_stored_spec stored entry) as (dr & kp & _ & -> & _ & _).
    rewrite List.length_app. cbn [List.length].
    replace (List.length kp + 1 - Z.to_nat 1)%nat
      with (List.length kp + 0)%nat by lia.
    rewrite List.skipn_app, Nat.add_0_r, List.skipn_all.
    replace (List.length kp - List.length kp)%nat with 0%nat by lia.
    reflexivity.
Qed.

Lemma getLogs_most_recent_witness :
  (Z.of_nat (List.length (getLogs (Some [1; 2; 3]) (Some 2))) <= 2)
  /\ (exists earlier,
        [1; 2; 3] = (earlier ++ getLogs (Some [1; 2; 3]) (Some 2))%list)
  /\ getLogs (Some (log_stored (Some [1; 2; 3]) 4)) (Some 1) = [4].
Proof.
  apply (getLogs_most_recent (Some [1; 2; 3]) 4 2). lia.
Defined.
